(** * OpenSky flight analytics: the API client and the ETL pipeline

    A shallow embedding of [src/api/opensky_client.py] (class
    [OpenSkyClient]) and [src/etl/data_pipeline.py] (class
    [FlightDataPipeline]), followed by the properties stated about them.

    Conventions of the embedding.
    - Python floats are exact rationals ([Q]); IEEE rounding is not
      modelled.  A missing value of a numeric column (JSON [null],
      pandas' NaN) is [None].
    - The client builds its frame from the reply: there a frame is the
      list of its column labels with, for each row, the list of its JSON
      cells.  The pipeline reads and writes columns by name: there a
      frame is the list of its rows and a row is a record of the columns.
    - The methods of the client run in a state-and-exception monad over
      the client object and the outside world (the clock and the HTTP
      peer).  Logging is left out. *)

From Stdlib Require Import List String Ascii ZArith QArith Bool Lia.
From Stdlib Require Import Sorting.Sorted DecimalString DecimalZ DecimalPos Lqa.
Import ListNotations.

Set Warnings "-register-all".

Open Scope Q_scope.
Open Scope string_scope.

(* ===================================================================== *)
(** * Values                                                             *)
(* ===================================================================== *)

(** JSON values as [response.json()] yields them; [JNull] is also Python's
    [None]. *)
Inductive json : Type :=
| JNull
| JBool (b : bool)
| JNum (q : Q)
| JStr (s : string)
| JArr (l : list json)
| JObj (o : list (string * json)).

(* ===================================================================== *)
(** * The pandas operations the sources call                             *)
(* ===================================================================== *)

Module Pandas.

(** [series * k] for a float column: NaN stays NaN. *)
Definition mul_scalar (x : option Q) (k : Q) : option Q :=
  match x with
  | Some v => Some (v * k)
  | None => None
  end.

Definition notna {A} (x : option A) : bool :=
  match x with
  | Some _ => true
  | None => false
  end.

(** [series.fillna(d)]. *)
Definition fillna {A} (d : A) (x : option A) : option A :=
  match x with
  | Some v => Some v
  | None => Some d
  end.

(** [series.clip(lower=lo)]: cells below [lo] are replaced by [lo];
    NaN cells are kept. *)
Definition clip_lower (lo : Q) (x : option Q) : option Q :=
  match x with
  | Some v => Some (if Qle_bool lo v then v else lo)
  | None => None
  end.

Definition Qlt_bool (x y : Q) : bool := negb (Qle_bool y x).

(** [bins.searchsorted(v, side="left")] on increasing [bins]: the number
    of edges strictly below [v]. *)
Fixpoint searchsorted_left (bins : list Q) (v : Q) : nat :=
  match bins with
  | [] => O
  | b :: bins' =>
      if Qlt_bool b v then S (searchsorted_left bins' v) else O
  end.

(** [pd.cut(x, bins=bins, labels=labels)] with the defaults [right=True],
    [include_lowest=False]: with [ids] the insertion point of the cell,
    the cell is unlabelled when it is NaN, when [ids = 0] (at or below
    the first edge) or when [ids = len(bins)] (above the last edge), and
    carries [labels[ids - 1]] otherwise. *)
Definition cut {L} (bins : list Q) (labels : list L) (x : option Q)
  : option L :=
  match x with
  | None => None
  | Some v =>
      let ids := searchsorted_left bins v in
      if (Nat.eqb ids (List.length bins) || Nat.eqb ids 0)%bool then None
      else nth_error labels (ids - 1)
  end.

(** Counting: one more occurrence of [k] in a tally kept in order of
    first appearance. *)
Fixpoint bump (k : string) (acc : list (string * nat))
  : list (string * nat) :=
  match acc with
  | [] => [(k, 1%nat)]
  | (k', n) :: acc' =>
      if String.eqb k k' then (k', S n) :: acc'
      else (k', n) :: bump k acc'
  end.

(** The distinct non-null cells of a column with their counts, in order
    of first appearance. *)
Definition tally (col : list (option string)) : list (string * nat) :=
  fold_left
    (fun acc x => match x with Some k => bump k acc | None => acc end)
    col [].

(** Sorting a tally by decreasing count; entries of equal count keep
    their relative order. *)
Fixpoint insert_desc (e : string * nat) (l : list (string * nat))
  : list (string * nat) :=
  match l with
  | [] => [e]
  | e' :: l' =>
      if Nat.ltb (snd e) (snd e') then e' :: insert_desc e l'
      else e :: e' :: l'
  end.

Definition sort_desc (l : list (string * nat)) : list (string * nat) :=
  fold_right insert_desc [] l.

(** [series.value_counts()] on a column of strings: null cells are
    dropped, the result is sorted by decreasing count. *)
Definition value_counts (col : list (option string))
  : list (string * nat) :=
  sort_desc (tally col).

Definition count_label (c : string) (col : list (option string)) : nat :=
  List.length
    (filter
       (fun x => match x with Some k => String.eqb k c | None => false end)
       col).

(** [series.value_counts()] on a Categorical column: every category has
    an entry, also those never observed. *)
Definition value_counts_categorical
    (categories : list string) (col : list (option string))
  : list (string * nat) :=
  sort_desc (map (fun c => (c, count_label c col)) categories).

(** A list of counts in decreasing order: no entry is followed, at any
    distance, by one with a larger count. *)
Definition descending (l : list (string * nat)) : Prop :=
  StronglySorted (fun a b => (snd b <= snd a)%nat) l.

(** [series.head(n)]. *)
Definition head {A} (n : nat) (l : list A) : list A := firstn n l.

(** [series.nunique()]: the number of distinct non-null cells. *)
Definition nunique (col : list (option string)) : nat :=
  List.length (tally col).

(** The non-null cells of a numeric column. *)
Fixpoint valid (col : list (option Q)) : list Q :=
  match col with
  | [] => []
  | Some v :: col' => v :: valid col'
  | None :: col' => valid col'
  end.

(** [series.mean()]: NaN cells are skipped; NaN when nothing is left.
    The sum and the quotient are exact here, where pandas rounds both to
    float64: the mean of the program can differ from this one in its
    last places, and so can lie above the maximum of the column. *)
Definition mean (col : list (option Q)) : option Q :=
  match valid col with
  | [] => None
  | v :: vs =>
      Some (fold_left Qplus vs v / inject_Z (Z.of_nat (List.length (v :: vs))))
  end.

(** [series.max()]: NaN cells are skipped; NaN when nothing is left. *)
Definition max (col : list (option Q)) : option Q :=
  match valid col with
  | [] => None
  | v :: vs =>
      Some (fold_left (fun m x => if Qle_bool m x then x else m) vs v)
  end.

End Pandas.

(* ===================================================================== *)
(** * [FlightDataPipeline]                                               *)
(* ===================================================================== *)

Module FlightDataPipeline.
Import Pandas.

(** One row of the frame the pipeline works on.  The columns the
    pipeline reads are typed fields; the columns it only carries along
    ([icao24], [callsign], [true_track], ...) are kept in
    [other_columns].  The five derived columns are [None] while the
    frame does not have them. *)
Record Row : Type := mkRow {
  origin_country : option string;
  longitude : option Q;
  latitude : option Q;
  baro_altitude : option Q;
  on_ground : bool;
  velocity : option Q;
  category : option Z;
  other_columns : list (string * json);
  altitude_ft : option Q;
  speed_knots : option Q;
  altitude_category : option string;
  speed_category : option string;
  aircraft_type : option string
}.

Definition DataFrame : Type := list Row.

(** [df.empty]. *)
Definition empty (df : DataFrame) : bool :=
  match df with
  | [] => true
  | _ :: _ => false
  end.

(** Column assignment [df[c] = ...], one row at a time. *)
Definition set_altitude_ft (r : Row) (v : option Q) : Row :=
  mkRow (origin_country r) (longitude r) (latitude r) (baro_altitude r)
    (on_ground r) (velocity r) (category r) (other_columns r)
    v (speed_knots r) (altitude_category r) (speed_category r)
    (aircraft_type r).

Definition set_speed_knots (r : Row) (v : option Q) : Row :=
  mkRow (origin_country r) (longitude r) (latitude r) (baro_altitude r)
    (on_ground r) (velocity r) (category r) (other_columns r)
    (altitude_ft r) v (altitude_category r) (speed_category r)
    (aircraft_type r).

Definition set_altitude_category (r : Row) (v : option string) : Row :=
  mkRow (origin_country r) (longitude r) (latitude r) (baro_altitude r)
    (on_ground r) (velocity r) (category r) (other_columns r)
    (altitude_ft r) (speed_knots r) v (speed_category r)
    (aircraft_type r).

Definition set_speed_category (r : Row) (v : option string) : Row :=
  mkRow (origin_country r) (longitude r) (latitude r) (baro_altitude r)
    (on_ground r) (velocity r) (category r) (other_columns r)
    (altitude_ft r) (speed_knots r) (altitude_category r) v
    (aircraft_type r).

Definition set_aircraft_type (r : Row) (v : option string) : Row :=
  mkRow (origin_country r) (longitude r) (latitude r) (baro_altitude r)
    (on_ground r) (velocity r) (category r) (other_columns r)
    (altitude_ft r) (speed_knots r) (altitude_category r)
    (speed_category r) v.

(** [df.dropna(subset=cols)]. *)
Definition dropna (subset : list (Row -> option Q)) (df : DataFrame)
  : DataFrame :=
  filter (fun r => forallb (fun c => notna (c r)) subset) df.

Definition altitude_bins : list Q := [0; 10000; 20000; 30000; 45000; 100000].
Definition altitude_labels : list string :=
  ["Low"; "Medium"; "High"; "Very High"; "Extreme"].

Definition speed_bins : list Q := [0; 200; 350; 500; 1000].
Definition speed_labels : list string :=
  ["Slow"; "Medium"; "Fast"; "Very Fast"].

Definition aircraft_types : list (Z * string) :=
  [ (0, "No Info Available");
    (1, "No ADS-B Info");
    (2, "Light (<15.5k lbs)");
    (3, "Small (15.5k-75k lbs)");
    (4, "Large (75k-300k lbs)");
    (5, "High Vortex Large (B-757)");
    (6, "Heavy (>300k lbs)");
    (7, "High Performance");
    (8, "Rotorcraft");
    (9, "Glider");
    (10, "Lighter-than-air");
    (11, "Parachutist");
    (12, "Ultralight");
    (13, "Reserved");
    (14, "UAV");
    (15, "Space Vehicle");
    (16, "Emergency Vehicle");
    (17, "Service Vehicle");
    (18, "Point Obstacle");
    (19, "Cluster Obstacle");
    (20, "Line Obstacle") ]%Z.

(** [series.map(table)]: a cell that is null or not a key becomes null. *)
Definition map_dict (table : list (Z * string)) (x : option Z)
  : option string :=
  match x with
  | None => None
  | Some c =>
      match find (fun e => Z.eqb (fst e) c) table with
      | Some e => Some (snd e)
      | None => None
      end
  end.

Definition transform_states (df : DataFrame) : DataFrame :=
  if empty df then df
  else
    (* Remove aircraft on ground for airborne analysis *)
    let df_airborne := filter (fun r => negb (on_ground r)) df in
    (* Calculate derived metrics *)
    let df_airborne :=
      map (fun r => set_altitude_ft r (mul_scalar (baro_altitude r) 3.28084))
        df_airborne in
    let df_airborne :=
      map (fun r => set_speed_knots r (mul_scalar (velocity r) 1.94384))
        df_airborne in
    (* Remove rows with NaN in essential columns *)
    let df_airborne :=
      dropna [latitude; longitude; velocity; baro_altitude] df_airborne in
    (* Fill any remaining NaN values *)
    let df_airborne :=
      map (fun r =>
             set_speed_knots r (clip_lower 1 (fillna 0 (speed_knots r))))
        df_airborne in
    let df_airborne :=
      map (fun r => set_altitude_ft r (fillna 0 (altitude_ft r)))
        df_airborne in
    (* Categorize altitude *)
    let df_airborne :=
      map (fun r =>
             set_altitude_category r
               (cut altitude_bins altitude_labels (altitude_ft r)))
        df_airborne in
    (* Categorize speed *)
    let df_airborne :=
      map (fun r =>
             set_speed_category r
               (cut speed_bins speed_labels (speed_knots r)))
        df_airborne in
    (* Aircraft type from category code *)
    let df_airborne :=
      map (fun r =>
             set_aircraft_type r
               (fillna "Unknown" (map_dict aircraft_types (category r))))
        df_airborne in
    df_airborne.

(** The row-wise reading of [transform_states], used to state its
    properties: [keep] is the conjunction of the two filters and [enrich]
    the composition of the column assignments on one row. *)
Definition keep (r : Row) : bool :=
  (negb (on_ground r)
   && (notna (latitude r) && (notna (longitude r)
       && (notna (velocity r) && (notna (baro_altitude r) && true)))))%bool.

(** What the column assignments make of one surviving row. *)
Definition enrich (r : Row) : Row :=
  let r := set_altitude_ft r (mul_scalar (baro_altitude r) 3.28084) in
  let r := set_speed_knots r (mul_scalar (velocity r) 1.94384) in
  let r := set_speed_knots r (clip_lower 1 (fillna 0 (speed_knots r))) in
  let r := set_altitude_ft r (fillna 0 (altitude_ft r)) in
  let r :=
    set_altitude_category r
      (cut altitude_bins altitude_labels (altitude_ft r)) in
  let r :=
    set_speed_category r (cut speed_bins speed_labels (speed_knots r)) in
  set_aircraft_type r
    (fillna "Unknown" (map_dict aircraft_types (category r))).

(** The values of the dictionary [aggregate_metrics] returns. *)
Inductive metric : Type :=
| Count (n : nat)
| Number (x : option Q)
| Breakdown (d : list (string * nat)).

(** A Python [dict] with string keys, in insertion order. *)
Definition dict : Type := list (string * metric).

(** [d.get(k)]. *)
Fixpoint get (d : dict) (k : string) : option metric :=
  match d with
  | [] => None
  | (k', v) :: d' => if String.eqb k k' then Some v else get d' k
  end.

(** [d.get(k, default)]. *)
Definition get_default (d : dict) (k : string) (default : metric) : metric :=
  match get d k with
  | Some v => v
  | None => default
  end.

Definition aggregate_metrics (df : DataFrame) : dict :=
  if empty df then []
  else
    [ ("total_flights", Count (List.length df));
      ("countries", Count (nunique (map origin_country df)));
      ("avg_altitude_ft", Number (mean (map altitude_ft df)));
      ("avg_speed_knots", Number (mean (map speed_knots df)));
      ("max_altitude_ft", Number (max (map altitude_ft df)));
      ("max_speed_knots", Number (max (map speed_knots df)));
      ("flights_by_country",
        Breakdown (head 10 (value_counts (map origin_country df))));
      ("flights_by_altitude",
        Breakdown
          (value_counts_categorical altitude_labels
             (map altitude_category df)));
      ("flights_by_type",
        Breakdown (value_counts (map aircraft_type df))) ].

End FlightDataPipeline.

(* ===================================================================== *)
(** * Python values and strings                                          *)
(* ===================================================================== *)

Module Py.

Definition is_nil {A} (l : list A) : bool :=
  match l with
  | [] => true
  | _ :: _ => false
  end.

(** Truth value of an object, as [if x], [not x] and [and] test it. *)
Definition truthy (j : json) : bool :=
  match j with
  | JNull => false
  | JBool b => b
  | JNum q => negb (Qeq_bool q 0)
  | JStr s => negb (String.eqb s "")
  | JArr l => negb (is_nil l)
  | JObj o => negb (is_nil o)
  end.

(** ASCII whitespace, as [str.strip()] and [int()] skip it. *)
Definition is_space (c : ascii) : bool :=
  let n := nat_of_ascii c in
  ((Nat.leb 9 n && Nat.leb n 13) || (Nat.leb 28 n && Nat.leb n 32))%bool.

Fixpoint lstrip (s : string) : string :=
  match s with
  | String c s' => if is_space c then lstrip s' else s
  | EmptyString => EmptyString
  end.

Fixpoint rstrip (s : string) : string :=
  match s with
  | String c s' =>
      match rstrip s' with
      | EmptyString => if is_space c then EmptyString else String c EmptyString
      | t => String c t
      end
  | EmptyString => EmptyString
  end.

(** [s.strip()]. *)
Definition strip (s : string) : string := rstrip (lstrip s).

Definition is_digit (c : ascii) : bool :=
  let n := nat_of_ascii c in (Nat.leb 48 n && Nat.leb n 57)%bool.

(** Decimal digits with single underscores between them. *)
Fixpoint digits (s : string) (acc : Z) (after_digit : bool) : option Z :=
  match s with
  | EmptyString => if after_digit then Some acc else None
  | String c s' =>
      if is_digit c
      then digits s' (10 * acc + Z.of_nat (nat_of_ascii c - 48))%Z true
      else if (Ascii.eqb c "_" && after_digit)%bool
           then digits s' acc false
           else None
  end.

(** [int(s)] for a string of ASCII characters; [None] is [ValueError]. *)
Definition int_of_str (s : string) : option Z :=
  match strip s with
  | String "-" t => option_map Z.opp (digits t 0%Z false)
  | String "+" t => digits t 0%Z false
  | t => digits t 0%Z false
  end.

(** [str(n)] for an integer, as an f-string interpolates it. *)
Definition str_of_int (n : Z) : string :=
  NilZero.string_of_int (Z.to_int n).

Definition lower (c : ascii) : ascii :=
  let n := nat_of_ascii c in
  if (Nat.leb 65 n && Nat.leb n 90)%bool then ascii_of_nat (n + 32) else c.

Fixpoint lower_str (s : string) : string :=
  match s with
  | String c s' => String (lower c) (lower_str s')
  | EmptyString => EmptyString
  end.

(** [d.get(k)] on a dictionary with string keys. *)
Fixpoint lookup {A} (d : list (string * A)) (k : string) : option A :=
  match d with
  | [] => None
  | (k', v) :: d' => if String.eqb k k' then Some v else lookup d' k
  end.

(** [d[k] = v]: an existing key keeps its place. *)
Fixpoint store {A} (d : list (string * A)) (k : string) (v : A)
  : list (string * A) :=
  match d with
  | [] => [(k, v)]
  | (k', v') :: d' =>
      if String.eqb k k' then (k', v) :: d' else (k', v') :: store d' k v
  end.

(** [d.update(e)]. *)
Definition update {A} (d e : list (string * A)) : list (string * A) :=
  fold_left (fun acc kv => store acc (fst kv) (snd kv)) e d.

End Py.

(* ===================================================================== *)
(** * [OpenSkyClient]                                                    *)
(* ===================================================================== *)

Module OpenSkyClient.
Import Py.

(** ** Exceptions, HTTP and the outside world *)

(** The exceptions the client meets; all derive from [Exception]. *)
Inductive exn : Type :=
| HTTPError (status : Z)      (* [response.raise_for_status()] *)
| RequestException            (* the exchange itself failed *)
| JSONDecodeError             (* [response.json()] on a body that is not JSON *)
| KeyError (key : string)
| TypeError
| ValueError
| AttributeError
| Exception (msg : string).   (* [raise Exception(msg)] *)

Inductive result (A : Type) : Type :=
| Ok (a : A)
| Raise (e : exn).

Arguments Ok {A} a.
Arguments Raise {A} e.

Inductive method : Type := GET | POST.

(** A request as [requests.post(url, data=...)] and
    [requests.get(url, headers=..., params=...)] issue it.  [req_bearer]
    is the token interpolated into the header
    [Authorization: Bearer <token>]; [None] when there is no such header. *)
Record Request : Type := mkRequest {
  req_method : method;
  req_url : string;
  req_bearer : option json;
  req_data : list (string * string);
  req_params : list (string * json)
}.

(** [body] is [None] when the payload is not JSON. *)
Record Response : Type := mkResponse {
  status_code : Z;
  headers : list (string * string);
  body : option json
}.

(** What the client does not control: [clock n] is the value of the
    [n]-th call of [time.time()], [peer n req] the outcome of sending
    [req] as the [n]-th request; [ticks] counts the clock readings and
    [sent] records the requests, oldest first. *)
Record World : Type := mkWorld {
  clock : nat -> Q;
  ticks : nat;
  peer : nat -> Request -> result Response;
  sent : list Request
}.

(** The fields [__init__] sets up. *)
Record t : Type := mk {
  client_id : string;
  client_secret : string;
  auth_url : string;
  api_base : string;
  access_token : json;
  token_expires_at : option Q
}.

Definition __init__ (client_id client_secret : string) : t :=
  mk client_id client_secret
    "https://auth.opensky-network.org/auth/realms/opensky-network/protocol/openid-connect/token"
    "https://opensky-network.org/api"
    JNull None.

(** ** The monad of methods: state of the object and of the world, and
    exceptions.  Assignments made before a [raise] stay made. *)
Definition M (A : Type) : Type := t -> World -> result A * t * World.

Definition ret {A} (a : A) : M A := fun self w => (Ok a, self, w).

Definition raise {A} (e : exn) : M A := fun self w => (Raise e, self, w).

Definition bind {A B} (m : M A) (k : A -> M B) : M B :=
  fun self w =>
    match m self w with
    | (Ok a, self', w') => k a self' w'
    | (Raise e, self', w') => (Raise e, self', w')
    end.

Notation "x <- m ;; k" := (bind m (fun x => k))
  (at level 61, m at next level, right associativity).
Notation "m ;;; k" := (bind m (fun _ => k))
  (at level 61, right associativity).

Definition lift {A} (r : result A) : M A := fun self w => (r, self, w).

(** [try: m  except Exception as e: h e]. *)
Definition try_except {A} (m : M A) (h : exn -> M A) : M A :=
  fun self w =>
    match m self w with
    | (Ok a, self', w') => (Ok a, self', w')
    | (Raise e, self', w') => h e self' w'
    end.

Definition get_self : M t := fun self w => (Ok self, self, w).

Definition set_access_token (v : json) : M unit :=
  fun self w =>
    (Ok tt,
     mk (client_id self) (client_secret self) (auth_url self) (api_base self)
       v (token_expires_at self),
     w).

Definition set_token_expires_at (v : Q) : M unit :=
  fun self w =>
    (Ok tt,
     mk (client_id self) (client_secret self) (auth_url self) (api_base self)
       (access_token self) (Some v),
     w).

(** [time.time()]. *)
Definition time_time : M Q :=
  fun self w =>
    (Ok (clock w (ticks w)), self,
     mkWorld (clock w) (S (ticks w)) (peer w) (sent w)).

Definition send (req : Request) : M Response :=
  fun self w =>
    (peer w (List.length (sent w)) req, self,
     mkWorld (clock w) (ticks w) (peer w) (sent w ++ [req])%list).

(** [requests.post(url, data=data)]. *)
Definition requests_post (url : string) (data : list (string * string))
  : M Response :=
  send (mkRequest POST url None data []).

(** [requests.get(url, headers={"Authorization": f"Bearer {token}"},
    params=params)]. *)
Definition requests_get (url : string) (token : json)
    (params : list (string * json)) : M Response :=
  send (mkRequest GET url (Some token) [] params).

(** [response.raise_for_status()]. *)
Definition raise_for_status (response : Response) : result unit :=
  if (Z.leb 400 (status_code response) && Z.ltb (status_code response) 600)%bool
  then Raise (HTTPError (status_code response))
  else Ok tt.

(** [response.json()]. *)
Definition response_json (response : Response) : result json :=
  match body response with
  | Some j => Ok j
  | None => Raise JSONDecodeError
  end.

(** [response.headers.get(name)]: header names compare without case. *)
Fixpoint headers_get (h : list (string * string)) (name : string)
  : option string :=
  match h with
  | [] => None
  | (k, v) :: h' =>
      if String.eqb (lower_str k) (lower_str name) then Some v
      else headers_get h' name
  end.

(** [d[k]] for a string key: only dictionaries can be indexed so. *)
Definition subscript (d : json) (k : string) : result json :=
  match d with
  | JObj o =>
      match lookup o k with
      | Some v => Ok v
      | None => Raise (KeyError k)
      end
  | _ => Raise TypeError
  end.

(** [d.get(k, default)]: only dictionaries have the method. *)
Definition dict_get (d : json) (k : string) (default : json) : result json :=
  match d with
  | JObj o =>
      match lookup o k with
      | Some v => Ok v
      | None => Ok default
      end
  | _ => Raise AttributeError
  end.

(** The number a value stands for in [float + value]; booleans are the
    integers 1 and 0, anything else is a [TypeError]. *)
Definition number (v : json) : result Q :=
  match v with
  | JNum q => Ok q
  | JBool true => Ok 1
  | JBool false => Ok 0
  | _ => Raise TypeError
  end.

(** ** Authentication *)

(** The first two conjuncts of the guard of [_get_access_token]:
    a token and an expiry instant are stored. *)
Definition has_cached_token (self : t) : bool :=
  (truthy (access_token self)
   && match token_expires_at self with
      | Some e => negb (Qeq_bool e 0)
      | None => false
      end)%bool.

(** The test [time.time() < self.token_expires_at]. *)
Definition before_expiry (self : t) (now : Q) : bool :=
  match token_expires_at self with
  | Some e => Pandas.Qlt_bool now e
  | None => false
  end.

Definition _get_access_token : M json :=
  self <- get_self ;;
  fresh <- (if has_cached_token self
            then now <- time_time ;; ret (before_expiry self now)
            else ret false) ;;
  if fresh then ret (access_token self)
  else
    let data :=
      [ ("grant_type", "client_credentials");
        ("client_id", client_id self);
        ("client_secret", client_secret self) ] in
    response <- requests_post (auth_url self) data ;;
    lift (raise_for_status response) ;;;
    token_data <- lift (response_json response) ;;
    token <- lift (subscript token_data "access_token") ;;
    set_access_token token ;;;
    (* Token expires in 30 minutes, refresh 5 minutes early *)
    now <- time_time ;;
    expires_in_value <- lift (dict_get token_data "expires_in" (JNum 1800)) ;;
    expires_in <- lift (number expires_in_value) ;;
    set_token_expires_at (now + expires_in - 300) ;;;
    self' <- get_self ;;
    ret (access_token self').

(** The request [_get_access_token] posts, and the request
    [_make_request] sends with the token it got. *)
Definition token_request (self : t) : Request :=
  mkRequest POST (auth_url self) None
    [ ("grant_type", "client_credentials");
      ("client_id", client_id self);
      ("client_secret", client_secret self) ] [].

Definition data_request (self : t) (token : json) (endpoint : string)
    (params : list (string * json)) : Request :=
  mkRequest GET (api_base self ++ endpoint) (Some token) [] params.

(** ** Authenticated requests *)

(** The text of the exception raised on HTTP 429. *)
Definition rate_limited (retry_after : Z) : string :=
  "Rate limited. Retry after " ++ str_of_int retry_after ++ " seconds".

(** [int(response.headers.get('X-Rate-Limit-Retry-After-Seconds', 60))]. *)
Definition retry_after_of (response : Response) : result Z :=
  match headers_get (headers response) "X-Rate-Limit-Retry-After-Seconds" with
  | None => Ok 60%Z
  | Some s =>
      match int_of_str s with
      | Some n => Ok n
      | None => Raise ValueError
      end
  end.

Definition _make_request (endpoint : string) (params : list (string * json))
  : M json :=
  token <- _get_access_token ;;
  self <- get_self ;;
  let url := api_base self ++ endpoint in
  response <- requests_get url token params ;;
  (* Check rate limiting *)
  if Z.eqb (status_code response) 429
  then
    retry_after <- lift (retry_after_of response) ;;
    raise (Exception (rate_limited retry_after))
  else
    lift (raise_for_status response) ;;;
    lift (response_json response).

(** ** Frames

    A frame as [get_states] builds it: the column labels and, for each
    row, one cell per column. *)
Record DataFrame : Type := mkFrame {
  columns : list string;
  rows : list (list json)
}.

(** [pd.DataFrame()]. *)
Definition empty_frame : DataFrame := mkFrame [] [].

Definition pad (width : nat) (row : list json) : list json :=
  (row ++ repeat JNull (width - List.length row))%list.

(** [pd.DataFrame(data, columns=labels)] for a list of rows: short rows
    are filled with nulls up to the longest one; a number of labels other
    than that width is a [ValueError]. *)
Definition new_frame (data : list (list json)) (labels : list string)
  : result DataFrame :=
  let width := fold_right Nat.max O (map (@List.length json) data) in
  if Nat.eqb (List.length labels) width
  then Ok (mkFrame labels (map (pad width) data))
  else Raise ValueError.

Fixpoint index_of (label : string) (labels : list string) : option nat :=
  match labels with
  | [] => None
  | l :: labels' =>
      if String.eqb label l then Some O
      else option_map S (index_of label labels')
  end.

(** [df[label]]. *)
Definition getitem (df : DataFrame) (label : string) : result (list json) :=
  match index_of label (columns df) with
  | Some i => Ok (map (fun row => nth i row JNull) (rows df))
  | None => Raise (KeyError label)
  end.

Fixpoint replace_nth {A} (i : nat) (v : A) (l : list A) : list A :=
  match l, i with
  | [], _ => []
  | _ :: l', O => v :: l'
  | x :: l', S i' => x :: replace_nth i' v l'
  end.

(** [df[label] = cells]: an existing column is overwritten in place, a
    new one is appended. *)
Definition setitem (df : DataFrame) (label : string) (cells : list json)
  : DataFrame :=
  match index_of label (columns df) with
  | Some i =>
      mkFrame (columns df)
        (map (fun rc => replace_nth i (snd rc) (fst rc))
           (combine (rows df) cells))
  | None =>
      mkFrame (columns df ++ [label])%list
        (map (fun rc => fst rc ++ [snd rc])%list (combine (rows df) cells))
  end.

(** [df[label] = v] for a scalar [v]. *)
Definition setitem_scalar (df : DataFrame) (label : string) (v : json)
  : DataFrame :=
  setitem df label (map (fun _ => v) (rows df)).

Definition is_null (c : json) : bool :=
  match c with JNull => true | _ => false end.

Definition is_num (c : json) : bool :=
  match c with JNum _ => true | _ => false end.

Definition is_bool (c : json) : bool :=
  match c with JBool _ => true | _ => false end.

Definition present (col : list json) : list json :=
  filter (fun c => negb (is_null c)) col.

(** [series.str.strip()]: strings are stripped and every other cell
    becomes null; the accessor is refused ([AttributeError]) on a column
    whose cells, nulls apart, are all numbers or all booleans. *)
Definition strip_cell (c : json) : json :=
  match c with
  | JStr s => JStr (strip s)
  | _ => JNull
  end.

Definition str_strip (col : list json) : result (list json) :=
  if (is_nil (present col)
      || negb (forallb is_num (present col) || forallb is_bool (present col)))%bool
  then Ok (map strip_cell col)
  else Raise AttributeError.

(** [series.astype(bool)]: the truth value of each cell; the NaN of a
    column of numbers is true, the [None] of any other column is false. *)
Definition bool_cell (numeric : bool) (c : json) : json :=
  match c with
  | JNull => JBool numeric
  | _ => JBool (truthy c)
  end.

Definition astype_bool (col : list json) : list json :=
  let numeric :=
    (negb (is_nil (present col)) && forallb is_num (present col))%bool in
  map (bool_cell numeric) col.

(** [pd.to_datetime(v, unit='s')] on one cell; a timestamp is kept as its
    number of seconds since the epoch.  Numbers beyond the range of
    nanosecond timestamps are refused. *)
Definition to_datetime (v : json) : result json :=
  match v with
  | JNum s =>
      if (Qle_bool (-9223372036.854775807) s
          && Qle_bool s 9223372036.854775807)%bool
      then Ok (JNum s) else Raise ValueError
  | JNull => Ok JNull
  | _ => Raise TypeError
  end.

(** The rows of [data['states']]: an array of arrays.  Any other shape is
    outside the service's schema and the embedding stops there with
    [TypeError]. *)
Definition as_rows (states : json) : result (list (list json)) :=
  match states with
  | JArr l =>
      fold_right
        (fun x acc =>
           match x, acc with
           | JArr row, Ok rs => Ok (row :: rs)
           | _, _ => Raise TypeError
           end)
        (Ok []) l
  | _ => Raise TypeError
  end.

(** ** State vectors *)

(** Column names for state vectors. *)
Definition state_columns : list string :=
  [ "icao24"; "callsign"; "origin_country"; "time_position";
    "last_contact"; "longitude"; "latitude"; "baro_altitude";
    "on_ground"; "velocity"; "true_track"; "vertical_rate";
    "sensors"; "geo_altitude"; "squawk"; "spi"; "position_source" ].

(** The query parameters [get_states] builds. *)
Definition states_params
    (time_secs : option Z) (icao24 : option (list string))
    (bbox : option (list (string * Q))) (extended : Z)
  : list (string * json) :=
  let params := [("extended", JNum (inject_Z extended))] in
  let params :=
    match time_secs with
    | Some ts =>
        if Z.eqb ts 0 then params
        else store params "time" (JNum (inject_Z ts))
    | None => params
    end in
  let params :=
    match icao24 with
    | Some (a :: l) => store params "icao24" (JArr (map JStr (a :: l)))
    | _ => params
    end in
  match bbox with
  | Some box => update params (map (fun kv => (fst kv, JNum (snd kv))) box)
  | None => params
  end.

Definition get_states
    (time_secs : option Z) (icao24 : option (list string))
    (bbox : option (list (string * Q))) (extended : Z) : M DataFrame :=
  let params := states_params time_secs icao24 bbox extended in
  data <- _make_request "/states/all" params ;;
  states <- lift (dict_get data "states" JNull) ;;
  if negb (truthy states) then ret empty_frame
  else
    (* Check how many columns we actually got *)
    table <- lift (as_rows states) ;;
    let first_row := hd [] table in
    let num_columns := List.length first_row in
    (* If we have 18 columns, the last one is category *)
    let column_names :=
      if Nat.eqb num_columns 18
      then (state_columns ++ ["category"])%list
      else state_columns in
    df <- lift (new_frame table (firstn num_columns column_names)) ;;
    request_time <- lift (subscript data "time") ;;
    let df := setitem_scalar df "request_time" request_time in
    request_datetime <- lift (to_datetime request_time) ;;
    let df := setitem_scalar df "request_datetime" request_datetime in
    (* Clean data types *)
    callsign <- lift (getitem df "callsign") ;;
    callsign <- lift (str_strip callsign) ;;
    let df := setitem df "callsign" callsign in
    on_ground <- lift (getitem df "on_ground") ;;
    let df := setitem df "on_ground" (astype_bool on_ground) in
    (* Add default category if not present *)
    let df :=
      match index_of "category" (columns df) with
      | None => setitem_scalar df "category" (JNum 0)
      | Some _ => df
      end in
    ret df.

(** ** Auxiliary fetches *)

Section Flights.

(** [pd.DataFrame(data)] on the decoded reply of a flights endpoint: the
    constructor either builds a frame or raises. *)
Variable frame_of_json : json -> result DataFrame.

Definition get_flights_interval (begin end_ : Z) : M DataFrame :=
  let params :=
    [("begin", JNum (inject_Z begin)); ("end", JNum (inject_Z end_))] in
  try_except
    (data <- _make_request "/flights/all" params ;;
     if negb (truthy data) then ret empty_frame
     else lift (frame_of_json data))
    (fun e => ret empty_frame).

Definition get_arrivals (airport : string) (begin end_ : Z) : M DataFrame :=
  let params :=
    [("airport", JStr airport);
     ("begin", JNum (inject_Z begin)); ("end", JNum (inject_Z end_))] in
  try_except
    (data <- _make_request "/flights/arrival" params ;;
     if negb (truthy data) then ret empty_frame
     else lift (frame_of_json data))
    (fun e => ret empty_frame).

Definition get_departures (airport : string) (begin end_ : Z) : M DataFrame :=
  let params :=
    [("airport", JStr airport);
     ("begin", JNum (inject_Z begin)); ("end", JNum (inject_Z end_))] in
  try_except
    (data <- _make_request "/flights/departure" params ;;
     if negb (truthy data) then ret empty_frame
     else lift (frame_of_json data))
    (fun e => ret empty_frame).

End Flights.

End OpenSkyClient.

(* ===================================================================== *)
(** * Sample inputs                                                      *)
(* ===================================================================== *)

Module Samples.
Import FlightDataPipeline.

(** A raw row: no derived column yet. *)
Definition raw_row (country : string) (on_ground : bool)
    (latitude baro_altitude velocity : option Q) (category : Z) : Row :=
  mkRow (Some country) (Some (-73.5)) latitude baro_altitude on_ground
    velocity (Some category) [("icao24", JStr "a1b2c3")]
    None None None None None.

(** Three rows: one airborne and complete, one on the ground, one
    without latitude. *)
Definition three_rows : DataFrame :=
  [ raw_row "USA" false (Some 40.7) (Some 3048) (Some 51.4) 3;
    raw_row "USA" true (Some 40.7) (Some 0) (Some 0) 3;
    raw_row "Canada" false None (Some 9000) (Some 230) 4 ].

(** Two airborne rows whose altitude in feet falls on the edges 10000
    and 0. *)
Definition edge_rows : DataFrame :=
  [ raw_row "USA" false (Some 40.7) (Some (1000000000 # 328084)) (Some 100) 3;
    raw_row "USA" false (Some 40.7) (Some 0) (Some 100) 3 ].

(** Eleven airborne rows with the category codes 0 to 10. *)
Definition eleven_types : DataFrame :=
  map (fun c => raw_row "USA" false (Some 40.7) (Some 3048) (Some 100) c)
    [0; 1; 2; 3; 4; 5; 6; 7; 8; 9; 10]%Z.

(** A client that has not authenticated yet, and one holding a token
    that expires at clock reading 2500. *)
Definition client : OpenSkyClient.t := OpenSkyClient.__init__ "id" "secret".

Definition cached_client : OpenSkyClient.t :=
  OpenSkyClient.mk "id" "secret"
    (OpenSkyClient.auth_url client) (OpenSkyClient.api_base client)
    (JStr "token-1") (Some 2500).

(** A clock that starts at [t0] and advances one second per reading, and
    a peer that answers the successive requests with the given replies. *)
Definition clock_from (t0 : Q) (n : nat) : Q := t0 + inject_Z (Z.of_nat n).

Definition script (replies : list (OpenSkyClient.result OpenSkyClient.Response))
    (n : nat) (_ : OpenSkyClient.Request)
  : OpenSkyClient.result OpenSkyClient.Response :=
  nth n replies (OpenSkyClient.Raise OpenSkyClient.RequestException).

Definition world (t0 : Q)
    (replies : list (OpenSkyClient.result OpenSkyClient.Response))
  : OpenSkyClient.World :=
  OpenSkyClient.mkWorld (clock_from t0) 0 (script replies) [].

Definition token_reply : OpenSkyClient.Response :=
  OpenSkyClient.mkResponse 200 []
    (Some (JObj [("access_token", JStr "token-2"); ("expires_in", JNum 1800)])).

Definition bare_token_reply : OpenSkyClient.Response :=
  OpenSkyClient.mkResponse 200 []
    (Some (JObj [("access_token", JStr "token-2")])).

Definition rate_limit_reply : OpenSkyClient.Response :=
  OpenSkyClient.mkResponse 429
    [("x-rate-limit-retry-after-seconds", "37")] None.

(** A 429 whose header does not hold an integer. *)
Definition malformed_rate_limit_reply : OpenSkyClient.Response :=
  OpenSkyClient.mkResponse 429
    [("x-rate-limit-retry-after-seconds", "1.5")] None.

Definition unauthorized_reply : OpenSkyClient.Response :=
  OpenSkyClient.mkResponse 401 [] None.

(** A state vector of 17 cells, and the same with a category code. *)
Definition state17 (callsign : string) : list json :=
  [ JStr "a1b2c3"; JStr callsign; JStr "USA"; JNum 1700000000;
    JNum 1700000000; JNum (-73.5); JNum 40.7; JNum 3048; JBool false;
    JNum 51.4; JNum 90; JNum 0; JNull; JNum 3100; JNull; JBool false;
    JNum 0 ].

Definition state18 (callsign : string) (category : Q) : list json :=
  (state17 callsign ++ [JNum category])%list.

Definition states_reply (table : list (list json)) : OpenSkyClient.Response :=
  OpenSkyClient.mkResponse 200 []
    (Some (JObj [("time", JNum 1700000000); ("states", JArr (map JArr table))])).

(** A frame constructor that accepts nothing: every reply of a flights
    endpoint is refused. *)
Definition no_frame (_ : json)
  : OpenSkyClient.result OpenSkyClient.DataFrame :=
  OpenSkyClient.Raise OpenSkyClient.ValueError.

End Samples.

(* ===================================================================== *)
(** * Readings of frames and summaries                                   *)
(* ===================================================================== *)

Module Reading.
Import FlightDataPipeline.

(** The columns of a row that [transform_states] reads but never
    assigns. *)
Definition input_columns (r : Row)
  : option string * option Q * option Q * option Q * bool * option Q
    * option Z * list (string * json) :=
  (origin_country r, longitude r, latitude r, baro_altitude r,
   on_ground r, velocity r, category r, other_columns r).

(** The sum of the counts of a breakdown. *)
Definition total (d : list (string * nat)) : nat :=
  fold_right (fun e s => (snd e + s)%nat) O d.

(** The count a breakdown holds for a key, 0 when the key is absent. *)
Definition count_of (d : list (string * nat)) (k : string) : nat :=
  match Py.lookup d k with
  | Some n => n
  | None => O
  end.

(** The frame [get_states] builds from the decoded reply: the steps of
    [get_states] that follow the request, which touch neither the client
    nor the world. *)
Definition frame_of_reply (data : json)
  : OpenSkyClient.result OpenSkyClient.DataFrame :=
  let step {A B} (r : OpenSkyClient.result A)
      (k : A -> OpenSkyClient.result B) : OpenSkyClient.result B :=
    match r with
    | OpenSkyClient.Ok a => k a
    | OpenSkyClient.Raise e => OpenSkyClient.Raise e
    end in
  step (OpenSkyClient.dict_get data "states" JNull) (fun states =>
  if negb (Py.truthy states) then OpenSkyClient.Ok OpenSkyClient.empty_frame
  else
  step (OpenSkyClient.as_rows states) (fun table =>
  let num_columns := List.length (hd [] table) in
  let column_names :=
    if Nat.eqb num_columns 18
    then (OpenSkyClient.state_columns ++ ["category"])%list
    else OpenSkyClient.state_columns in
  step (OpenSkyClient.new_frame table (firstn num_columns column_names))
    (fun df =>
  step (OpenSkyClient.subscript data "time") (fun request_time =>
  let df := OpenSkyClient.setitem_scalar df "request_time" request_time in
  step (OpenSkyClient.to_datetime request_time) (fun request_datetime =>
  let df :=
    OpenSkyClient.setitem_scalar df "request_datetime" request_datetime in
  step (OpenSkyClient.getitem df "callsign") (fun callsign =>
  step (OpenSkyClient.str_strip callsign) (fun callsign =>
  let df := OpenSkyClient.setitem df "callsign" callsign in
  step (OpenSkyClient.getitem df "on_ground") (fun on_ground =>
  let df :=
    OpenSkyClient.setitem df "on_ground"
      (OpenSkyClient.astype_bool on_ground) in
  OpenSkyClient.Ok
    match OpenSkyClient.index_of "category" (OpenSkyClient.columns df) with
    | None => OpenSkyClient.setitem_scalar df "category" (JNum 0)
    | Some _ => df
    end)))))))).

End Reading.

(* ===================================================================== *)
(** * config/config.py                                                   *)
(* ===================================================================== *)

Module Config.
Import Py.

Definition starts_with_slash (s : string) : bool :=
  match s with
  | String c _ => Ascii.eqb c "/"
  | EmptyString => false
  end.

Fixpoint ends_with_slash (s : string) : bool :=
  match s with
  | EmptyString => false
  | String c EmptyString => Ascii.eqb c "/"
  | String _ s' => ends_with_slash s'
  end.

(** [os.path.join(a, b)] of [posixpath]: an absolute [b] replaces [a];
    otherwise the two are joined by one slash, which an empty [a] or an
    [a] that ends in a slash does not need. *)
Definition path_join (a b : string) : string :=
  if starts_with_slash b then b
  else if (String.eqb a "" || ends_with_slash a)%bool then a ++ b
  else a ++ "/" ++ b.

(** Data storage *)
Definition DATA_DIR : string := "data".
Definition RAW_DATA_DIR : string := path_join DATA_DIR "raw".
Definition PROCESSED_DATA_DIR : string := path_join DATA_DIR "processed".

(** Bounding boxes for areas of interest *)
Definition REGIONS : list (string * list (string * Q)) :=
  [ ("north_america",
     [("lamin", 24); ("lamax", 71); ("lomin", -170); ("lomax", -50)]);
    ("europe",
     [("lamin", 36); ("lamax", 71); ("lomin", -10); ("lomax", 40)]);
    ("asia",
     [("lamin", -10); ("lamax", 55); ("lomin", 60); ("lomax", 150)]) ].

End Config.

(* ===================================================================== *)
(** * etl/data_pipeline.py: the collection methods                       *)
(* ===================================================================== *)

(** The collection methods of [FlightDataPipeline] call the client,
    read the wall clock and write to the disk.  The disk is a second
    piece of the world, kept beside the one the client talks to: the
    operations attempted so far, and what the n-th attempt answers. *)
Module Collection.
Import Py OpenSkyClient.

Inductive operation : Type :=
| Makedirs (path : string)                     (* [os.makedirs(path, exist_ok=True)] *)
| ToParquet (path : string) (df : DataFrame).  (* [df.to_parquet(path, index=False)] *)

Record Disk : Type := mkDisk {
  outcome : nat -> operation -> result unit;
  attempted : list operation
}.

(** A method of the pipeline: the state of its client, the world and
    the disk go in and come out. *)
Definition K (A : Type) : Type :=
  t -> World -> Disk -> result A * t * World * Disk.

Definition retK {A} (a : A) : K A := fun self w d => (Ok a, self, w, d).

Definition raiseK {A} (e : exn) : K A :=
  fun self w d => (Raise e, self, w, d).

Definition bindK {A B} (m : K A) (k : A -> K B) : K B :=
  fun self w d =>
    match m self w d with
    | (Ok a, self', w', d') => k a self' w' d'
    | (Raise e, self', w', d') => (Raise e, self', w', d')
    end.

Notation "x <~ m ;; k" := (bindK m (fun x => k))
  (at level 61, m at next level, right associativity).
Notation "m ;;~ k" := (bindK m (fun _ => k))
  (at level 61, right associativity).

(** A method of [self.client]. *)
Definition call {A} (m : M A) : K A :=
  fun self w d =>
    match m self w with
    | (r, self', w') => (r, self', w', d)
    end.

Definition perform (o : operation) : K unit :=
  fun self w d =>
    (outcome d (List.length (attempted d)) o, self, w,
     mkDisk (outcome d) (attempted d ++ [o])%list).

Definition os_makedirs (path : string) : K unit := perform (Makedirs path).

Definition to_parquet (df : DataFrame) (path : string) : K unit :=
  perform (ToParquet path df).

(** [datetime.now()] reads the wall clock, as [time.time()] does; the
    instant is kept as its number of seconds since the epoch. *)
Definition datetime_now : K Q := call time_time.

(** [int(x)] of a float: towards zero. *)
Definition int (x : Q) : Z := Z.quot (Qnum x) (Zpos (Qden x)).

(** [df.empty]: no column or no row. *)
Definition empty (df : DataFrame) : bool :=
  (is_nil (columns df) || is_nil (rows df))%bool.

(** [not bbox] for the result of [REGIONS.get(region)]. *)
Definition no_box (bbox : option (list (string * Q))) : bool :=
  match bbox with
  | Some box => is_nil box
  | None => true
  end.

Section Methods.

(** [instant.strftime("%Y%m%d_%H%M%S")] in the local time zone. *)
Variable strftime : Q -> string.

(** [pd.DataFrame(data)] on the reply of a flights endpoint. *)
Variable frame_of_json : json -> result DataFrame.

(** Collect live flight states for a region *)
Definition collect_live_states (region : string) : K DataFrame :=
  let bbox := lookup Config.REGIONS region in
  if no_box bbox then raiseK ValueError
  else
    df <~ call (get_states None None bbox 1) ;;
    if negb (empty df) then
      (* Save raw data *)
      os_makedirs Config.RAW_DATA_DIR ;;~
      now <~ datetime_now ;;
      let timestamp := strftime now in
      let filepath :=
        Config.path_join Config.RAW_DATA_DIR
          ("states_" ++ region ++ "_" ++ timestamp ++ ".parquet") in
      to_parquet df filepath ;;~
      retK df
    else retK df.

(** Collect arrivals and departures for an airport *)
Definition collect_airport_traffic (airport : string) (days_back : Z)
  : K (list (string * DataFrame)) :=
  now <~ datetime_now ;;
  let end_time := int now in
  let begin_time := (end_time - days_back * 86400)%Z in
  arrivals <~
    call (get_arrivals frame_of_json airport begin_time end_time) ;;
  departures <~
    call (get_departures frame_of_json airport begin_time end_time) ;;
  retK [("arrivals", arrivals); ("departures", departures)].

End Methods.

(** A disk on which everything succeeds and nothing was done yet. *)
Definition blank_disk : Disk := mkDisk (fun _ _ => Ok tt) [].

(** A calendar for the examples: the instant as a count of seconds. *)
Definition seconds_text (x : Q) : string := str_of_int (int x).

End Collection.

(* ===================================================================== *)
(** * Properties of the pipeline                                         *)
(* ===================================================================== *)

Section Pipeline.
Import Pandas FlightDataPipeline.

(** ** Lists *)

Lemma filter_map_swap {A B} (f : A -> B) (p : B -> bool) (l : list A) :
  filter p (map f l) = map f (filter (fun x => p (f x)) l).
Proof.
  induction l as [|x l IH]; simpl; [reflexivity|].
  destruct (p (f x)); simpl; now rewrite IH.
Qed.

Lemma filter_all {A} (p : A -> bool) (l : list A) :
  (forall x, In x l -> p x = true) -> filter p l = l.
Proof.
  induction l as [|x l IH]; simpl; intros H; [reflexivity|].
  rewrite (H x (or_introl eq_refl)). f_equal. apply IH.
  intros y Hy. apply H. now right.
Qed.

Lemma filter_twice {A} (p q : A -> bool) (l : list A) :
  filter p (filter q l) = filter (fun x => (q x && p x)%bool) l.
Proof.
  induction l as [|x l IH]; simpl; [reflexivity|].
  destruct (q x); simpl; [destruct (p x)|]; now rewrite IH.
Qed.

(** ** Order on rationals, as the comparisons of the code decide it *)

Lemma Qle_bool_false (x y : Q) : Qle_bool x y = false <-> y < x.
Proof.
  split; intros H.
  - apply Qnot_le_lt. intros Hle. apply Qle_bool_iff in Hle. congruence.
  - destruct (Qle_bool x y) eqn:E; [|reflexivity].
    apply Qle_bool_iff in E. exfalso. exact (Qlt_not_le _ _ H E).
Qed.

Lemma Qle_bool_true (x y : Q) : x <= y -> Qle_bool x y = true.
Proof. intros H. now apply Qle_bool_iff. Qed.

(** ** The row-wise reading of [transform_states] *)

Lemma transform_states_rows (df : DataFrame) :
  transform_states df = map enrich (filter keep df).
Proof.
  destruct df as [|r0 df]; [reflexivity|].
  unfold transform_states, dropna.
  change (empty (r0 :: df)) with false. cbv iota zeta.
  rewrite !filter_map_swap, !map_map, filter_twice.
  reflexivity.
Qed.

Lemma in_transform_states (df : DataFrame) (r : Row) :
  In r (transform_states df) <->
  exists r0, In r0 df /\ keep r0 = true /\ r = enrich r0.
Proof.
  rewrite transform_states_rows, in_map_iff. split.
  - intros (r0 & <- & Hin). apply filter_In in Hin. exists r0. tauto.
  - intros (r0 & Hin & Hk & ->). exists r0. split; [reflexivity|].
    apply filter_In. tauto.
Qed.

Lemma keep_enrich (r : Row) : keep (enrich r) = keep r.
Proof. reflexivity. Qed.

Lemma enrich_enrich (r : Row) : enrich (enrich r) = enrich r.
Proof. reflexivity. Qed.

End Pipeline.

Section PipelineClaims.
Import Pandas FlightDataPipeline.

(** ** Binning *)

(** [pd.cut] on the altitude edges, one comparison at a time. *)
Lemma cut_altitude (a : Q) :
  cut altitude_bins altitude_labels (Some a) =
  if Qle_bool a 0 then None
  else if Qle_bool a 10000 then Some "Low"
  else if Qle_bool a 20000 then Some "Medium"
  else if Qle_bool a 30000 then Some "High"
  else if Qle_bool a 45000 then Some "Very High"
  else if Qle_bool a 100000 then Some "Extreme"
  else None.
Proof.
  unfold cut, altitude_bins, altitude_labels, searchsorted_left, Qlt_bool.
  destruct (Qle_bool a 0); [reflexivity|].
  destruct (Qle_bool a 10000); [reflexivity|].
  destruct (Qle_bool a 20000); [reflexivity|].
  destruct (Qle_bool a 30000); [reflexivity|].
  destruct (Qle_bool a 45000); [reflexivity|].
  destruct (Qle_bool a 100000); reflexivity.
Qed.

Ltac order_cases :=
  repeat match goal with
    | |- context [Qle_bool ?x ?y] =>
        let E := fresh "E" in
        destruct (Qle_bool x y) eqn:E;
        [apply Qle_bool_iff in E | apply Qle_bool_false in E]
    end;
  try reflexivity; try (exfalso; lra).

(** The altitude bins are open on the left and closed on the right. *)
Lemma cut_altitude_intervals (a : Q) :
  let c := cut altitude_bins altitude_labels (Some a) in
  (a <= 0 -> c = None) /\
  (0 < a /\ a <= 10000 -> c = Some "Low") /\
  (10000 < a /\ a <= 20000 -> c = Some "Medium") /\
  (20000 < a /\ a <= 30000 -> c = Some "High") /\
  (30000 < a /\ a <= 45000 -> c = Some "Very High") /\
  (45000 < a /\ a <= 100000 -> c = Some "Extreme") /\
  (100000 < a -> c = None).
Proof.
  cbv zeta. rewrite cut_altitude.
  repeat split; intros; order_cases.
Qed.

(** The speed bins likewise. *)
Lemma cut_speed_intervals (v : Q) :
  let c := cut speed_bins speed_labels (Some v) in
  (v <= 0 -> c = None) /\
  (0 < v /\ v <= 200 -> c = Some "Slow") /\
  (200 < v /\ v <= 350 -> c = Some "Medium") /\
  (350 < v /\ v <= 500 -> c = Some "Fast") /\
  (500 < v /\ v <= 1000 -> c = Some "Very Fast") /\
  (1000 < v -> c = None).
Proof.
  cbv zeta.
  unfold cut, speed_bins, speed_labels, searchsorted_left, Qlt_bool.
  repeat split; intros; order_cases.
Qed.

(** C1 (as the code has it).  In every transformed record the altitude
    category is the bin of [altitude_ft] among the edges 0, 10000, 20000,
    30000, 45000, 100000, each bin excluding its left edge and including
    its right edge: 10000 ft is "Low" and the values above 10000 up to
    20000 are "Medium"; 0 ft, like every value at or below 0 or above
    100000, is left unlabelled. *)
Theorem transform_states_altitude_bins (df : DataFrame) (r : Row) :
  In r (transform_states df) ->
  exists a,
    altitude_ft r = Some a /\
    (a == 10000 -> altitude_category r = Some "Low") /\
    (a == 0 -> altitude_category r = None) /\
    (a <= 0 -> altitude_category r = None) /\
    (0 < a /\ a <= 10000 -> altitude_category r = Some "Low") /\
    (10000 < a /\ a <= 20000 -> altitude_category r = Some "Medium") /\
    (20000 < a /\ a <= 30000 -> altitude_category r = Some "High") /\
    (30000 < a /\ a <= 45000 -> altitude_category r = Some "Very High") /\
    (45000 < a /\ a <= 100000 -> altitude_category r = Some "Extreme") /\
    (100000 < a -> altitude_category r = None).
Proof.
  intros Hin. apply in_transform_states in Hin.
  destruct Hin as (r0 & _ & Hk & ->).
  unfold keep in Hk. repeat (apply andb_prop in Hk; destruct Hk as [? Hk]).
  destruct (baro_altitude r0) as [b|] eqn:Eb; [|discriminate].
  exists (b * 3.28084).
  assert (Ha : altitude_ft (enrich r0) = Some (b * 3.28084)).
  { unfold enrich. simpl. rewrite Eb. reflexivity. }
  assert (Hc : altitude_category (enrich r0)
               = cut altitude_bins altitude_labels (Some (b * 3.28084))).
  { unfold enrich. simpl. rewrite Eb. reflexivity. }
  rewrite Hc. split; [exact Ha|].
  destruct (cut_altitude_intervals (b * 3.28084))
    as (B0 & B1 & B2 & B3 & B4 & B5 & B6).
  repeat split; intros; auto.
  - apply B1. lra.
  - apply B0. lra.
Qed.

Lemma transform_states_altitude_bins_witness :
  exists a,
    altitude_ft (enrich (hd (Samples.raw_row "" false None None None 0)
                           Samples.three_rows)) = Some a /\
    (10000 < a /\ a <= 20000 ->
     altitude_category (enrich (hd (Samples.raw_row "" false None None None 0)
                                  Samples.three_rows)) = Some "Medium").
Proof.
  destruct (transform_states_altitude_bins Samples.three_rows
              (enrich (hd (Samples.raw_row "" false None None None 0)
                         Samples.three_rows)))
    as (a & Ha & _ & _ & _ & _ & Hm & _).
  - left. reflexivity.
  - exists a. split; [exact Ha | exact Hm].
Defined.

(** C1 (as stated) fails on both edges.  The row of barometric altitude
    0 has [altitude_ft = 0] and gets no category, not "Low".  The value
    10000 is binned "Low", not "Medium", and so is the row whose
    barometric altitude is 10000 / 3.28084 metres. *)
Lemma transform_states_bin_edges_counterexample :
  exists r1 r2,
    transform_states Samples.edge_rows = [r1; r2] /\
    (exists a, altitude_ft r2 = Some a /\ a == 0) /\
    altitude_category r2 = None /\
    altitude_category r2 <> Some "Low" /\
    cut altitude_bins altitude_labels (Some 10000) = Some "Low" /\
    (exists a, altitude_ft r1 = Some a /\ a == 10000) /\
    altitude_category r1 = Some "Low" /\
    altitude_category r1 <> Some "Medium".
Proof.
  do 2 eexists. split; [reflexivity|]. simpl.
  repeat split; try discriminate.
  - eexists. split; reflexivity.
  - eexists. split; reflexivity.
Qed.

(** ** The scenario of three rows *)

(** Of an airborne complete row, a row on the ground and a row without
    latitude only the first is kept; its type is read from category 3. *)
Example transform_states_three_rows :
  map aircraft_type (transform_states Samples.three_rows)
  = [Some "Small (15.5k-75k lbs)"] /\
  get (aggregate_metrics (transform_states Samples.three_rows)) "total_flights"
  = Some (Count 1) /\
  get (aggregate_metrics (transform_states Samples.three_rows)) "countries"
  = Some (Count 1).
Proof. repeat split. Qed.

(** ** Idempotence *)

(** C6.  Transforming a transformed frame changes nothing: no further
    row is dropped and the derived columns keep their values. *)
Theorem transform_states_idempotent (df : DataFrame) :
  transform_states (transform_states df) = transform_states df.
Proof.
  rewrite !transform_states_rows.
  rewrite filter_map_swap, map_map.
  rewrite (filter_all (fun r => keep (enrich r)) (filter keep df)).
  - apply map_ext. intros r. apply enrich_enrich.
  - intros r Hr. rewrite keep_enrich. apply filter_In in Hr. tauto.
Qed.

(** ** The surviving rows *)

(** C7.  Every record of the output is airborne, has latitude,
    longitude, velocity and barometric altitude, has
    [altitude_ft = baro_altitude * 3.28084] and has for [speed_knots] the
    product [velocity * 1.94384] raised to 1 when it is below 1, so that
    [speed_knots >= 1]; and a row without latitude contributes nothing:
    the output is the same with and without it. *)
Theorem transform_states_airborne_complete (df : DataFrame) :
  (forall r, In r (transform_states df) ->
     on_ground r = false /\
     exists lat lon v b s,
       latitude r = Some lat /\ longitude r = Some lon /\
       velocity r = Some v /\ baro_altitude r = Some b /\
       altitude_ft r = Some (b * 3.28084) /\
       speed_knots r = Some s /\
       (1 <= v * 1.94384 -> s = v * 1.94384) /\
       (v * 1.94384 < 1 -> s = 1) /\
       1 <= s) /\
  (forall df1 r0 df2,
     df = (df1 ++ r0 :: df2)%list -> latitude r0 = None ->
     transform_states df = transform_states (df1 ++ df2)%list).
Proof.
  split.
  - intros r Hin. apply in_transform_states in Hin.
    destruct Hin as (r0 & _ & Hk & ->).
    unfold keep in Hk. repeat (apply andb_prop in Hk; destruct Hk as [? Hk]).
    destruct (on_ground r0) eqn:Eg; [discriminate|].
    destruct (latitude r0) as [lat|] eqn:Elat; [|discriminate].
    destruct (longitude r0) as [lon|] eqn:Elon; [|discriminate].
    destruct (velocity r0) as [v|] eqn:Ev; [|discriminate].
    destruct (baro_altitude r0) as [b|] eqn:Eb; [|discriminate].
    split; [exact Eg|].
    exists lat, lon, v, b, (if Qle_bool 1 (v * 1.94384) then v * 1.94384 else 1).
    unfold enrich. simpl. rewrite Elat, Elon, Ev, Eb. simpl.
    repeat split.
    + intros Hle. now rewrite (Qle_bool_true _ _ Hle).
    + intros Hlt. apply Qle_bool_false in Hlt. now rewrite Hlt.
    + destruct (Qle_bool 1 (v * 1.94384)) eqn:E.
      * now apply Qle_bool_iff.
      * apply Qle_refl.
  - intros df1 r0 df2 -> Hlat. rewrite !transform_states_rows.
    rewrite !filter_app. simpl.
    replace (keep r0) with false; [reflexivity|].
    unfold keep. rewrite Hlat. simpl. now rewrite andb_false_r.
Qed.

Lemma transform_states_airborne_complete_witness :
  on_ground (enrich (hd (Samples.raw_row "" false None None None 0)
                       Samples.three_rows)) = false /\
  transform_states Samples.three_rows
  = transform_states (firstn 2 Samples.three_rows).
Proof.
  split.
  - apply (proj1 (transform_states_airborne_complete Samples.three_rows)).
    left. reflexivity.
  - apply (proj2 (transform_states_airborne_complete Samples.three_rows)
             (firstn 2 Samples.three_rows)
             (Samples.raw_row "Canada" false None (Some 9000) (Some 230) 4)
             []).
    + reflexivity.
    + reflexivity.
Defined.

(** ** Counting and sorting *)

Lemma in_insert_desc (e x : string * nat) (l : list (string * nat)) :
  In x (insert_desc e l) <-> x = e \/ In x l.
Proof.
  induction l as [|e' l IH]; simpl.
  - intuition.
  - destruct (Nat.ltb (snd e) (snd e')); simpl; rewrite ?IH; intuition.
Qed.

Lemma insert_desc_descending (e : string * nat) (l : list (string * nat)) :
  descending l -> descending (insert_desc e l).
Proof.
  unfold descending. induction 1 as [|e' l Hs IH Hall]; simpl.
  - constructor; constructor.
  - destruct (Nat.ltb (snd e) (snd e')) eqn:E.
    + apply Nat.ltb_lt in E. constructor; [exact IH|].
      apply Forall_forall. intros x Hx. apply in_insert_desc in Hx.
      destruct Hx as [->|Hx]; [lia|].
      rewrite Forall_forall in Hall. now apply Hall.
    + apply Nat.ltb_ge in E. constructor.
      * constructor; assumption.
      * constructor; [exact E|].
        apply Forall_forall. intros x Hx.
        rewrite Forall_forall in Hall. specialize (Hall x Hx). lia.
Qed.

Lemma length_insert_desc (e : string * nat) (l : list (string * nat)) :
  List.length (insert_desc e l) = S (List.length l).
Proof.
  induction l as [|e' l IH]; simpl; [reflexivity|].
  destruct (Nat.ltb (snd e) (snd e')); simpl; now rewrite ?IH.
Qed.

Lemma sort_desc_descending (l : list (string * nat)) :
  descending (sort_desc l).
Proof.
  induction l as [|e l IH]; simpl.
  - constructor.
  - now apply insert_desc_descending.
Qed.

Lemma in_sort_desc (x : string * nat) (l : list (string * nat)) :
  In x (sort_desc l) <-> In x l.
Proof.
  induction l as [|e l IH]; simpl; [tauto|].
  rewrite in_insert_desc, IH. intuition.
Qed.

Lemma length_sort_desc (l : list (string * nat)) :
  List.length (sort_desc l) = List.length l.
Proof.
  induction l as [|e l IH]; simpl; [reflexivity|].
  now rewrite length_insert_desc, IH.
Qed.

Lemma descending_firstn (n : nat) (l : list (string * nat)) :
  descending l -> descending (firstn n l).
Proof.
  unfold descending. intros H. revert n.
  induction H as [|e l Hs IH Hall]; intros [|n]; simpl; try constructor.
  - apply IH.
  - apply Forall_forall. intros x Hx.
    rewrite Forall_forall in Hall. apply Hall.
    rewrite <- (firstn_skipn n l). apply in_or_app. now left.
Qed.

Lemma in_keys_bump (k k' : string) (acc : list (string * nat)) :
  In k (map fst (bump k' acc)) <-> k = k' \/ In k (map fst acc).
Proof.
  induction acc as [|[k0 n] acc IH]; simpl.
  - intuition.
  - destruct (String.eqb_spec k' k0) as [->|Hne]; simpl.
    + intuition.
    + rewrite IH. intuition.
Qed.

Lemma in_keys_tally_from (col : list (option string))
    (acc : list (string * nat)) (k : string) :
  In k (map fst
          (fold_left
             (fun acc x =>
                match x with Some k => bump k acc | None => acc end)
             col acc))
  <-> In (Some k) col \/ In k (map fst acc).
Proof.
  revert acc. induction col as [|[k'|] col IH]; intros acc; simpl.
  - tauto.
  - rewrite IH, in_keys_bump. split.
    + intros [H|[->|H]]; auto.
    + intros [[H|H]|H]; auto. injection H as ->. auto.
  - rewrite IH. split.
    + intros [H|H]; auto.
    + intros [[H|H]|H]; auto. discriminate.
Qed.

(** The keys of [value_counts] are the non-null cells of the column. *)
Lemma in_keys_value_counts (col : list (option string)) (k : string) :
  In k (map fst (value_counts col)) <-> In (Some k) col.
Proof.
  unfold value_counts, tally. rewrite in_map_iff. split.
  - intros (e & <- & He). apply (proj1 (in_sort_desc _ _)) in He.
    apply (in_map fst) in He.
    apply (proj1 (in_keys_tally_from _ _ _)) in He.
    simpl in He. tauto.
  - intros H.
    assert (Hk : In k (map fst
               (fold_left
                  (fun acc x =>
                     match x with Some k => bump k acc | None => acc end)
                  col []))) by (apply in_keys_tally_from; auto).
    apply in_map_iff in Hk. destruct Hk as (e & He & Hin).
    exists e. split; [exact He|]. now apply (proj2 (in_sort_desc _ _)).
Qed.

(** ** The breakdowns of [aggregate_metrics] *)

(** C2 (as the code has it).  For a non-empty frame the three breakdowns
    are in decreasing order of count.  The one by country is cut to the
    first ten entries of the full count.  The one by altitude category
    has one entry for each of the five categories.  The one by aircraft
    type is not cut: it lists every type that occurs in the frame. *)
Theorem aggregate_metrics_breakdowns (df : DataFrame) :
  df <> [] ->
  exists by_country by_altitude by_type,
    get (aggregate_metrics df) "flights_by_country"
    = Some (Breakdown by_country) /\
    get (aggregate_metrics df) "flights_by_altitude"
    = Some (Breakdown by_altitude) /\
    get (aggregate_metrics df) "flights_by_type"
    = Some (Breakdown by_type) /\
    (List.length by_country <= 10)%nat /\
    by_country = firstn 10 (value_counts (map origin_country df)) /\
    descending (value_counts (map origin_country df)) /\
    descending by_country /\
    List.length by_altitude = 5%nat /\
    descending by_altitude /\
    descending by_type /\
    (forall t, In t (map fst by_type) <-> In (Some t) (map aircraft_type df)).
Proof.
  intros Hne. destruct df as [|r df]; [congruence|].
  do 3 eexists. unfold aggregate_metrics.
  change (empty (r :: df)) with false. cbv iota.
  split; [reflexivity|]. split; [reflexivity|]. split; [reflexivity|].
  repeat split.
  - apply firstn_le_length.
  - apply sort_desc_descending.
  - apply descending_firstn, sort_desc_descending.
  - unfold value_counts_categorical. now rewrite length_sort_desc, length_map.
  - apply sort_desc_descending.
  - apply sort_desc_descending.
  - apply in_keys_value_counts.
  - apply in_keys_value_counts.
Qed.

Lemma aggregate_metrics_breakdowns_witness :
  exists by_country by_altitude by_type,
    get (aggregate_metrics (transform_states Samples.three_rows))
      "flights_by_country" = Some (Breakdown by_country) /\
    get (aggregate_metrics (transform_states Samples.three_rows))
      "flights_by_altitude" = Some (Breakdown by_altitude) /\
    get (aggregate_metrics (transform_states Samples.three_rows))
      "flights_by_type" = Some (Breakdown by_type) /\
    (List.length by_country <= 10)%nat /\
    List.length by_altitude = 5%nat.
Proof.
  destruct (aggregate_metrics_breakdowns
              (transform_states Samples.three_rows))
    as (bc & ba & bt & H1 & H2 & H3 & H4 & _ & _ & _ & H5 & _).
  - discriminate.
  - exists bc, ba, bt. auto.
Defined.

(** C2 (as stated) fails for the aircraft types: eleven records of
    eleven different types give a breakdown of eleven entries. *)
Lemma aggregate_metrics_types_counterexample :
  exists by_type,
    get (aggregate_metrics (transform_states Samples.eleven_types))
      "flights_by_type" = Some (Breakdown by_type) /\
    List.length by_type = 11%nat /\
    ~ (List.length by_type <= 10)%nat.
Proof.
  eexists. split; [reflexivity|]. split; [reflexivity|].
  simpl. lia.
Qed.

(** ** The empty frame *)

(** C3 (as the code has it).  On the empty frame [aggregate_metrics]
    returns the empty dictionary without computing anything: no key is
    present, [total_flights] included; read with the default 0, as the
    callers read it, [total_flights] gives 0. *)
Theorem aggregate_metrics_empty :
  aggregate_metrics [] = [] /\
  (forall k, get (aggregate_metrics []) k = None) /\
  get_default (aggregate_metrics []) "total_flights" (Count 0) = Count 0.
Proof. repeat split. Qed.

(** C3 (as stated) fails: the summary of the empty frame has no
    [total_flights] field, so it does not hold 0. *)
Lemma aggregate_metrics_empty_counterexample :
  get (aggregate_metrics []) "total_flights" = None /\
  get (aggregate_metrics []) "total_flights" <> Some (Count 0).
Proof. split; [reflexivity | discriminate]. Qed.

End PipelineClaims.

(* ===================================================================== *)
(** * Properties of the client                                           *)
(* ===================================================================== *)

Section ClientClaims.
Import Py OpenSkyClient.

(** ** The token cache *)

Lemma before_expiry_iff (self : t) (now e : Q) :
  token_expires_at self = Some e ->
  before_expiry self now = true <-> now < e.
Proof.
  intros He. unfold before_expiry, Pandas.Qlt_bool. rewrite He.
  rewrite negb_true_iff. apply Qle_bool_false.
Qed.

Lemma get_access_token_fresh (self : t) (w : World) :
  has_cached_token self = true ->
  before_expiry self (clock w (ticks w)) = true ->
  _get_access_token self w
  = (Ok (access_token self), self,
     mkWorld (clock w) (S (ticks w)) (peer w) (sent w)).
Proof.
  intros Hc Hb. unfold _get_access_token, bind, get_self, time_time, ret.
  rewrite Hc. simpl. rewrite Hb. reflexivity.
Qed.

Lemma get_access_token_stale (self : t) (w : World) :
  (has_cached_token self && before_expiry self (clock w (ticks w)))%bool
  = false ->
  forall resp token_data token expires_in_value expires_in,
  let n := if has_cached_token self then S (ticks w) else ticks w in
  peer w (List.length (sent w)) (token_request self) = Ok resp ->
  raise_for_status resp = Ok tt ->
  response_json resp = Ok token_data ->
  subscript token_data "access_token" = Ok token ->
  dict_get token_data "expires_in" (JNum 1800) = Ok expires_in_value ->
  number expires_in_value = Ok expires_in ->
  _get_access_token self w
  = (Ok token,
     mk (client_id self) (client_secret self) (auth_url self) (api_base self)
       token (Some (clock w n + expires_in - 300)),
     mkWorld (clock w) (S n) (peer w) (sent w ++ [token_request self])%list).
Proof.
  intros Hg resp token_data token v e n Hp Hs Hj Ht Hv He.
  unfold _get_access_token, bind, get_self, time_time, ret, lift,
    requests_post, send, set_access_token, set_token_expires_at.
  unfold token_request in *.
  subst n. destruct (has_cached_token self); simpl in *.
  - rewrite Hg. simpl. rewrite Hp. simpl. rewrite Hs. simpl.
    rewrite Hj. simpl. rewrite Ht. simpl. rewrite Hv. simpl.
    rewrite He. reflexivity.
  - rewrite Hp, Hs, Hj, Ht, Hv, He. reflexivity.
Qed.

Ltac outcome := do 3 eexists; (split; [reflexivity|]); simpl; auto.

Lemma get_access_token_posts (self : t) (w : World) :
  (has_cached_token self && before_expiry self (clock w (ticks w)))%bool
  = false ->
  exists r self' w',
    _get_access_token self w = (r, self', w') /\
    peer w' = peer w /\ clock w' = clock w /\
    sent w' = (sent w ++ [token_request self])%list.
Proof.
  intros Hg.
  unfold _get_access_token, bind, get_self, time_time, ret, lift,
    requests_post, send, set_access_token, set_token_expires_at.
  unfold token_request.
  destruct (has_cached_token self); simpl in *; rewrite ?Hg; simpl;
    match goal with
    | |- context [peer w ?n ?r] => destruct (peer w n r) as [resp|]
    end;
    try (outcome; fail);
    destruct (raise_for_status resp); try (outcome; fail);
    destruct (response_json resp) as [td|]; try (outcome; fail);
    destruct (subscript td "access_token"); try (outcome; fail);
    destruct (dict_get td "expires_in" (JNum 1800)) as [v|];
    try (outcome; fail);
    destruct (number v); outcome.
Qed.

Lemma get_access_token_world (self : t) (w : World) :
  exists r self' w',
    _get_access_token self w = (r, self', w') /\
    peer w' = peer w /\ clock w' = clock w /\
    (sent w' = sent w \/ sent w' = (sent w ++ [token_request self])%list).
Proof.
  destruct (has_cached_token self && before_expiry self (clock w (ticks w)))%bool
    eqn:Hg.
  - apply andb_prop in Hg. destruct Hg as [Hc Hb].
    do 3 eexists. split; [apply get_access_token_fresh; assumption|].
    simpl. auto.
  - destruct (get_access_token_posts self w Hg)
      as (r & s' & w' & H & ? & ? & ?).
    exists r, s', w'. auto.
Qed.

(** C5.  A call of [_get_access_token] at clock reading [now]:
    - when a token and an expiry instant are stored and [now] is
      strictly before that instant, the stored token is returned, the
      object is unchanged and no request is sent;
    - otherwise exactly one request is sent, the client-credentials POST,
      and when it succeeds the new token is stored with the expiry
      instant [now' + expires_in - 300], [now'] being the clock reading
      taken once the reply is in;
    - hence, for a stored token with expiry instant [T - 300], the token
      is reused at any [now < T - 300] and fetched again at any
      [now >= T - 300]. *)
Theorem get_access_token_cache (self : t) (w : World) :
  let now := clock w (ticks w) in
  (has_cached_token self = true ->
   forall e, token_expires_at self = Some e -> now < e ->
   exists w',
     _get_access_token self w = (Ok (access_token self), self, w') /\
     sent w' = sent w) /\
  ((has_cached_token self = false \/
    exists e, token_expires_at self = Some e /\ e <= now) ->
   (exists r self' w',
      _get_access_token self w = (r, self', w') /\
      sent w' = (sent w ++ [token_request self])%list) /\
   (forall resp token_data token expires_in,
      peer w (List.length (sent w)) (token_request self) = Ok resp ->
      raise_for_status resp = Ok tt ->
      response_json resp = Ok token_data ->
      subscript token_data "access_token" = Ok token ->
      dict_get token_data "expires_in" (JNum 1800) = Ok (JNum expires_in) ->
      let now' :=
        clock w (if has_cached_token self then S (ticks w) else ticks w) in
      exists self' w',
        _get_access_token self w = (Ok token, self', w') /\
        access_token self' = token /\
        token_expires_at self' = Some (now' + expires_in - 300))) /\
  (forall T, token_expires_at self = Some (T - 300) ->
     (has_cached_token self = true -> now < T - 300 ->
      exists w',
        _get_access_token self w = (Ok (access_token self), self, w') /\
        sent w' = sent w) /\
     (T - 300 <= now ->
      exists r self' w',
        _get_access_token self w = (r, self', w') /\
        sent w' = (sent w ++ [token_request self])%list)).
Proof.
  cbv zeta.
  assert (Reuse : has_cached_token self = true ->
            forall e, token_expires_at self = Some e ->
            clock w (ticks w) < e ->
            exists w',
              _get_access_token self w = (Ok (access_token self), self, w') /\
              sent w' = sent w).
  { intros Hc e He Hlt. eexists. split.
    - apply get_access_token_fresh; [exact Hc|].
      now apply (before_expiry_iff self _ e He).
    - reflexivity. }
  assert (Stale : (has_cached_token self = false \/
            exists e, token_expires_at self = Some e /\
                      e <= clock w (ticks w)) ->
            (has_cached_token self
             && before_expiry self (clock w (ticks w)))%bool = false).
  { intros [Hc|(e & He & Hle)].
    - now rewrite Hc.
    - apply andb_false_iff. right.
      destruct (before_expiry self (clock w (ticks w))) eqn:Hb; [|reflexivity].
      apply (before_expiry_iff self _ e He) in Hb. lra. }
  split; [exact Reuse|]. split.
  - intros H. specialize (Stale H). split.
    + destruct (get_access_token_posts self w Stale)
        as (r & s' & w' & Hr & _ & _ & Hs).
      exists r, s', w'. auto.
    + intros resp td token e Hp Hs Hj Ht Hv.
      do 2 eexists. split.
      * apply (get_access_token_stale self w Stale resp td token (JNum e) e);
          auto.
      * split; reflexivity.
  - intros T HT. split.
    + intros Hc Hlt. exact (Reuse Hc _ HT Hlt).
    + intros Hle.
      destruct (get_access_token_posts self w)
        as (r & s' & w' & Hr & _ & _ & Hs).
      { apply Stale. right. exists (T - 300). auto. }
      exists r, s', w'. auto.
Qed.

(** C10.  When the reply to the token request is a success that carries
    a token and no [expires_in], the call succeeds and stores the token
    with the expiry instant [now' + 1800 - 300], that is [now' + 1500],
    [now'] being the clock reading taken once the reply is in; this
    instant lies after [now']. *)
Theorem get_access_token_default_lifetime (self : t) (w : World) :
  (has_cached_token self && before_expiry self (clock w (ticks w)))%bool
  = false ->
  forall resp o token,
  peer w (List.length (sent w)) (token_request self) = Ok resp ->
  raise_for_status resp = Ok tt ->
  response_json resp = Ok (JObj o) ->
  lookup o "access_token" = Some token ->
  lookup o "expires_in" = None ->
  let now' :=
    clock w (if has_cached_token self then S (ticks w) else ticks w) in
  exists self' w' e,
    _get_access_token self w = (Ok token, self', w') /\
    access_token self' = token /\
    token_expires_at self' = Some e /\
    e == now' + 1500 /\
    now' < e.
Proof.
  intros Hg resp o token Hp Hs Hj Ht He now'.
  do 3 eexists. split.
  - apply (get_access_token_stale self w Hg resp (JObj o) token
             (JNum 1800) 1800); auto.
    + simpl. now rewrite Ht.
    + simpl. now rewrite He.
  - simpl. split; [reflexivity|]. split; [reflexivity|].
    fold now'. split; lra.
Qed.

(** ** Rate limiting *)

Lemma length_append (a b : string) :
  String.length (a ++ b) = (String.length a + String.length b)%nat.
Proof. induction a as [|c a IH]; simpl; [reflexivity | now rewrite IH]. Qed.

Lemma append_cancel_l (p a b : string) : p ++ a = p ++ b -> a = b.
Proof.
  induction p as [|c p IH]; simpl; intros H; [exact H|].
  injection H as H. now apply IH.
Qed.

Lemma append_cancel_r (t a b : string) : a ++ t = b ++ t -> a = b.
Proof.
  revert b. induction a as [|c a IH]; intros [|c' b] H; simpl in H.
  - reflexivity.
  - apply (f_equal String.length) in H. simpl in H.
    rewrite length_append in H. lia.
  - apply (f_equal String.length) in H. simpl in H.
    rewrite length_append in H. lia.
  - injection H as -> H. f_equal. now apply IH.
Qed.

Lemma str_of_int_inj (n m : Z) : str_of_int n = str_of_int m -> n = m.
Proof.
  unfold str_of_int. intros H. apply DecimalZ.to_int_inj.
  assert (Back : forall z,
            NilZero.int_of_string (NilZero.string_of_int (Z.to_int z))
            = Some (Z.to_int z)).
  { intros z. apply NilZero.isi; destruct z; simpl; try discriminate;
      intros E; injection E; apply DecimalPos.Unsigned.to_uint_nonnil. }
  pose proof (Back n) as Hn. rewrite H, Back in Hn. congruence.
Qed.

(** The text of the exception determines the seconds it names. *)
Lemma rate_limited_inj (n m : Z) : rate_limited n = rate_limited m -> n = m.
Proof.
  unfold rate_limited. intros H.
  apply append_cancel_l, append_cancel_r in H. now apply str_of_int_inj.
Qed.

(** C8 (as the code has it).  When the token is at hand and the reply
    to the data request has status 429, [_make_request] sends nothing
    more and raises.  Without the header
    [X-Rate-Limit-Retry-After-Seconds], or with an integer in it, it
    raises the plain [Exception] whose text names the seconds to wait
    (60 without the header); texts for different numbers of seconds
    differ.  With a header that [int] does not read, it raises the
    [ValueError] of [int] and no seconds at all. *)
Theorem make_request_rate_limited
    (endpoint : string) (params : list (string * json))
    (self : t) (w : World) (token : json) (self1 : t) (w1 : World)
    (resp : Response) :
  _get_access_token self w = (Ok token, self1, w1) ->
  peer w1 (List.length (sent w1)) (data_request self1 token endpoint params)
  = Ok resp ->
  status_code resp = 429%Z ->
  let w2 :=
    mkWorld (clock w1) (ticks w1) (peer w1)
      (sent w1 ++ [data_request self1 token endpoint params])%list in
  (headers_get (headers resp) "X-Rate-Limit-Retry-After-Seconds" = None ->
   _make_request endpoint params self w
   = (Raise (Exception (rate_limited 60)), self1, w2)) /\
  (forall s n,
     headers_get (headers resp) "X-Rate-Limit-Retry-After-Seconds" = Some s ->
     int_of_str s = Some n ->
     _make_request endpoint params self w
     = (Raise (Exception (rate_limited n)), self1, w2)) /\
  (forall s,
     headers_get (headers resp) "X-Rate-Limit-Retry-After-Seconds" = Some s ->
     int_of_str s = None ->
     _make_request endpoint params self w = (Raise ValueError, self1, w2)) /\
  (forall n m, rate_limited n = rate_limited m -> n = m) /\
  (sent w1 = sent w \/ sent w1 = (sent w ++ [token_request self])%list).
Proof.
  intros Ha Hp Hs w2.
  assert (Run : forall n, retry_after_of resp = Ok n ->
            _make_request endpoint params self w
            = (Raise (Exception (rate_limited n)), self1, w2)).
  { intros n Hn.
    unfold _make_request, bind, get_self, requests_get, send, lift, raise.
    rewrite Ha. fold (data_request self1 token endpoint params).
    rewrite Hp, Hs. simpl. rewrite Hn. reflexivity. }
  split; [|split; [|split; [|split]]].
  - intros Hh. apply Run. unfold retry_after_of. now rewrite Hh.
  - intros s n Hh Hn. apply Run. unfold retry_after_of. now rewrite Hh, Hn.
  - intros s Hh Hn.
    unfold _make_request, bind, get_self, requests_get, send, lift, raise.
    rewrite Ha. fold (data_request self1 token endpoint params).
    rewrite Hp, Hs. simpl. unfold retry_after_of. rewrite Hh, Hn.
    reflexivity.
  - exact rate_limited_inj.
  - destruct (get_access_token_world self w)
      as (r & s' & w' & Hr & _ & _ & Hsent).
    rewrite Ha in Hr. injection Hr as _ _ <-. exact Hsent.
Qed.

(** ** The auxiliary fetches *)

(** C9.  The three auxiliary fetches never raise; whenever the request
    fails (authentication, rate limiting, HTTP status, transport or
    decoding), and also when the frame cannot be built from the reply,
    the result is the empty frame. *)
Theorem auxiliary_fetches_swallow
    (frame_of_json : json -> result DataFrame)
    (airport : string) (begin end_ : Z) (self : t) (w : World) :
  let swallowed (fetch : M DataFrame) (endpoint : string)
      (params : list (string * json)) :=
    exists df self' w',
      fetch self w = (Ok df, self', w') /\
      (forall e self1 w1,
         _make_request endpoint params self w = (Raise e, self1, w1) ->
         df = empty_frame /\ self' = self1 /\ w' = w1) /\
      (forall data self1 w1 e,
         _make_request endpoint params self w = (Ok data, self1, w1) ->
         truthy data = true -> frame_of_json data = Raise e ->
         df = empty_frame) in
  swallowed (get_flights_interval frame_of_json begin end_) "/flights/all"
    [("begin", JNum (inject_Z begin)); ("end", JNum (inject_Z end_))] /\
  swallowed (get_arrivals frame_of_json airport begin end_) "/flights/arrival"
    [("airport", JStr airport);
     ("begin", JNum (inject_Z begin)); ("end", JNum (inject_Z end_))] /\
  swallowed (get_departures frame_of_json airport begin end_)
    "/flights/departure"
    [("airport", JStr airport);
     ("begin", JNum (inject_Z begin)); ("end", JNum (inject_Z end_))].
Proof.
  cbv zeta.
  assert (Any : forall endpoint params,
            exists df self' w',
              try_except
                (data <- _make_request endpoint params ;;
                 if negb (truthy data) then ret empty_frame
                 else lift (frame_of_json data))
                (fun _ => ret empty_frame) self w = (Ok df, self', w') /\
              (forall e self1 w1,
                 _make_request endpoint params self w = (Raise e, self1, w1) ->
                 df = empty_frame /\ self' = self1 /\ w' = w1) /\
              (forall data self1 w1 e,
                 _make_request endpoint params self w = (Ok data, self1, w1) ->
                 truthy data = true -> frame_of_json data = Raise e ->
                 df = empty_frame)).
  { intros endpoint params. unfold try_except, bind, ret, lift.
    destruct (_make_request endpoint params self w) as [[[data|e] s1] w1].
    - destruct (truthy data) eqn:Ht; simpl.
      + destruct (frame_of_json data) as [df|e] eqn:Hf.
        * exists df, s1, w1. split; [reflexivity|].
          split; [discriminate|].
          intros d s2 w2 e H _ Hd. injection H as <- _ _. congruence.
        * exists empty_frame, s1, w1. repeat split; discriminate.
      + exists empty_frame, s1, w1. repeat split; discriminate.
    - exists empty_frame, s1, w1. split; [reflexivity|]. split.
      + intros e' s2 w2 H. injection H as _ <- <-. auto.
      + discriminate. }
  split; [apply Any | split; apply Any].
Qed.

(** ** Frames and column binding *)

Lemma nth_replace_nth_other {A} (i j : nat) (v d : A) (l : list A) :
  i <> j -> nth i (replace_nth j v l) d = nth i l d.
Proof.
  revert i j.
  induction l as [|x l IH]; intros [|i] [|j] H; simpl; auto; congruence.
Qed.

Lemma length_replace_nth {A} (i : nat) (v : A) (l : list A) :
  List.length (replace_nth i v l) = List.length l.
Proof.
  revert i. induction l as [|x l IH]; intros [|i]; simpl; auto.
Qed.

Lemma nth_pad (width i : nat) (row : list json) :
  nth i (pad width row) JNull = nth i row JNull.
Proof.
  unfold pad. destruct (Nat.lt_ge_cases i (List.length row)) as [H|H].
  - now apply app_nth1.
  - rewrite app_nth2 by exact H. rewrite (nth_overflow row) by exact H.
    apply nth_repeat.
Qed.

Lemma length_pad (width : nat) (row : list json) :
  (List.length row <= width)%nat -> List.length (pad width row) = width.
Proof.
  intros H. unfold pad. rewrite length_app, repeat_length. lia.
Qed.

Lemma width_of_table (n : nat) (first : list json) (rest : list (list json)) :
  List.length first = n ->
  Forall (fun row => (List.length row <= n)%nat) rest ->
  fold_right Nat.max O (map (@List.length json) (first :: rest)) = n.
Proof.
  intros Hf Hr. simpl. rewrite Hf.
  induction Hr as [|row rest Hrow _ IH]; simpl; lia.
Qed.

Lemma str_strip_strings (col : list json) :
  Forall (fun c => c = JNull \/ exists s, c = JStr s) col ->
  str_strip col = Ok (map strip_cell col).
Proof.
  intros H. unfold str_strip.
  assert (E : (is_nil (present col)
               || negb (forallb is_num (present col)
                        || forallb is_bool (present col)))%bool = true).
  { induction H as [|c col [->|[s ->]] _ IH]; simpl; auto. }
  now rewrite E.
Qed.


Lemma as_rows_nonempty (states : json) (first : list json)
    (rest : list (list json)) :
  as_rows states = Ok (first :: rest) -> truthy states = true.
Proof.
  destruct states as [| | | |l|]; try discriminate.
  destruct l; [discriminate | reflexivity].
Qed.


Lemma combine_maps {A B C} (f : A -> B) (g : A -> C) (l : list A) :
  combine (map f l) (map g l) = map (fun x => (f x, g x)) l.
Proof. induction l as [|x l IH]; simpl; [reflexivity | now rewrite IH]. Qed.

(** Frames whose rows are computed from a table, row by row. *)
Lemma setitem_scalar_new {A} (labels : list string) (R : A -> list json)
    (table : list A) (label : string) (v : json) :
  index_of label labels = None ->
  setitem_scalar (mkFrame labels (map R table)) label v
  = mkFrame (labels ++ [label])%list
      (map (fun x => R x ++ [v])%list table).
Proof.
  intros H. unfold setitem_scalar, setitem. cbn [columns rows]. rewrite H.
  now rewrite map_map, combine_maps, map_map.
Qed.

Lemma setitem_existing {A} (labels : list string) (R : A -> list json)
    (c : A -> json) (table : list A) (label : string) (i : nat) :
  index_of label labels = Some i ->
  setitem (mkFrame labels (map R table)) label (map c table)
  = mkFrame labels (map (fun x => replace_nth i (c x) (R x)) table).
Proof.
  intros H. unfold setitem. cbn [columns rows]. rewrite H.
  now rewrite combine_maps, map_map.
Qed.

Lemma getitem_at {A} (labels : list string) (R : A -> list json)
    (table : list A) (label : string) (i : nat) :
  index_of label labels = Some i ->
  getitem (mkFrame labels (map R table)) label
  = Ok (map (fun x => nth i (R x) JNull) table).
Proof.
  intros H. unfold getitem. cbn [columns rows]. rewrite H.
  now rewrite map_map.
Qed.

Lemma nth_extended (n i : nat) (row : list json) (a b : json) :
  (List.length row <= n)%nat -> (i < n)%nat ->
  nth i ((pad n row ++ [a]) ++ [b])%list JNull = nth i row JNull.
Proof.
  intros Hrow Hi. pose proof (length_pad n row Hrow) as Hp.
  rewrite app_nth1 by (rewrite length_app, Hp; simpl; lia).
  rewrite app_nth1 by lia. apply nth_pad.
Qed.

(** C4.  The width of the first row decides the columns of the frame.
    For a reply that is a table of rows with a time stamp and with
    string or null call signs: when the first row has 18 cells and no row
    has more, every record's [category] is the 18th cell of its row (null
    for a shorter row); when the first row has 17 cells and no row has
    more, no cell of the row reaches [category], which is 0 in every
    record. *)
Theorem get_states_category
    (time_secs : option Z) (icao24 : option (list string))
    (bbox : option (list (string * Q))) (extended : Z)
    (self : t) (w : World) (o : list (string * json)) (self1 : t) (w1 : World)
    (states tm dt : json) (first : list json) (rest : list (list json)) :
  _make_request "/states/all" (states_params time_secs icao24 bbox extended)
    self w = (Ok (JObj o), self1, w1) ->
  lookup o "states" = Some states ->
  as_rows states = Ok (first :: rest) ->
  lookup o "time" = Some tm ->
  to_datetime tm = Ok dt ->
  Forall (fun row => nth 1 row JNull = JNull \/
                     exists s, nth 1 row JNull = JStr s) (first :: rest) ->
  (List.length first = 18%nat ->
   Forall (fun row => (List.length row <= 18)%nat) rest ->
   exists df,
     get_states time_secs icao24 bbox extended self w = (Ok df, self1, w1) /\
     getitem df "category"
     = Ok (map (fun row => nth 17 row JNull) (first :: rest))) /\
  (List.length first = 17%nat ->
   Forall (fun row => (List.length row <= 17)%nat) rest ->
   exists df,
     get_states time_secs icao24 bbox extended self w = (Ok df, self1, w1) /\
     getitem df "category" = Ok (map (fun _ => JNum 0) (first :: rest))).
Proof.
  intros Hreq Hst Hrows Htm Hdt Hcs.
  pose proof (as_rows_nonempty _ _ _ Hrows) as Htruthy.
  assert (Run : forall n labels,
            List.length first = n ->
            Forall (fun row => (List.length row <= n)%nat) rest ->
            (2 <= n)%nat ->
            firstn n (if Nat.eqb n 18
                      then (state_columns ++ ["category"])%list
                      else state_columns) = labels ->
            List.length labels = n ->
            index_of "request_time" labels = None ->
            index_of "request_datetime" (labels ++ ["request_time"]) = None ->
            index_of "callsign"
              ((labels ++ ["request_time"]) ++ ["request_datetime"])
            = Some 1%nat ->
            index_of "on_ground"
              ((labels ++ ["request_time"]) ++ ["request_datetime"])
            = Some 8%nat ->
            exists numeric,
              get_states time_secs icao24 bbox extended self w
              = (Ok (let df :=
                       mkFrame
                         ((labels ++ ["request_time"])
                          ++ ["request_datetime"])%list
                         (map (fun row =>
                                 let r := ((pad n row ++ [tm]) ++ [dt])%list in
                                 let r :=
                                   replace_nth 1 (strip_cell (nth 1 r JNull)) r in
                                 replace_nth 8
                                   (bool_cell numeric (nth 8 r JNull)) r)
                            (first :: rest)) in
                     match index_of "category" (columns df) with
                     | Some _ => df
                     | None => setitem_scalar df "category" (JNum 0)
                     end),
                 self1, w1)).
  { intros n labels Hlen Hrest Hn Hlabels Hwidth I1 I2 I3 I4.
    unfold get_states. unfold bind at 1. rewrite Hreq.
    unfold bind at 1. unfold lift at 1. unfold dict_get. rewrite Hst.
    rewrite Htruthy. cbn [negb].
    unfold bind at 1. unfold lift at 1. rewrite Hrows.
    cbn [hd]. rewrite Hlen, Hlabels.
    assert (Hnew : new_frame (first :: rest) labels
                   = Ok (mkFrame labels (map (pad n) (first :: rest)))).
    { unfold new_frame. rewrite (width_of_table n first rest Hlen Hrest).
      now rewrite Hwidth, Nat.eqb_refl. }
    unfold bind at 1. unfold lift at 1. rewrite Hnew.
    unfold bind at 1. unfold lift at 1. unfold subscript. rewrite Htm.
    unfold bind at 1. unfold lift at 1. rewrite Hdt.
    rewrite (setitem_scalar_new labels) by exact I1.
    rewrite (setitem_scalar_new (labels ++ ["request_time"])) by exact I2.
    rewrite (getitem_at _ _ _ "callsign" 1) by exact I3.
    assert (Hall : Forall (fun row => (List.length row <= n)%nat)
                     (first :: rest)).
    { constructor; [lia | exact Hrest]. }
    rewrite Forall_forall in Hall.
    unfold bind at 1. unfold lift at 1.
    rewrite str_strip_strings.
    2:{ apply Forall_forall. intros c Hc. apply in_map_iff in Hc.
        destruct Hc as (row & <- & Hrow).
        rewrite nth_extended by (auto; lia).
        rewrite Forall_forall in Hcs. now apply Hcs. }
    unfold bind at 1. unfold lift at 1.
    rewrite map_map.
    rewrite (setitem_existing _ _ _ _ "callsign" 1) by exact I3.
    rewrite (getitem_at _ _ _ "on_ground" 8) by exact I4.
    unfold bind at 1. unfold lift at 1.
    unfold astype_bool. cbv zeta. rewrite map_map.
    rewrite (setitem_existing _ _ _ _ "on_ground" 8) by exact I4.
    unfold ret. eexists. reflexivity. }
  split.
  - intros Hlen Hrest.
    destruct (Run 18%nat (state_columns ++ ["category"])%list Hlen Hrest)
      as (numeric & Hrun); try reflexivity; [lia|].
    eexists. split; [exact Hrun|].
    cbv zeta. cbn [columns].
    change (index_of "category"
              (((state_columns ++ ["category"]) ++ ["request_time"])
               ++ ["request_datetime"])%list)
      with (Some 17%nat).
    cbv iota.
    rewrite (getitem_at _ _ _ "category" 17) by reflexivity.
    f_equal. apply map_ext_in. intros row Hrow.
    rewrite !nth_replace_nth_other by lia.
    apply nth_extended; [|lia].
    destruct Hrow as [<-|Hrow]; [lia|].
    rewrite Forall_forall in Hrest. now apply Hrest.
  - intros Hlen Hrest.
    destruct (Run 17%nat state_columns Hlen Hrest)
      as (numeric & Hrun); try reflexivity; [lia|].
    eexists. split; [exact Hrun|].
    cbv zeta. cbn [columns].
    change (index_of "category"
              ((state_columns ++ ["request_time"])
               ++ ["request_datetime"])%list)
      with (@None nat).
    cbv iota.
    rewrite (setitem_scalar_new _ _ _ "category") by reflexivity.
    rewrite (getitem_at _ _ _ "category" 19) by reflexivity.
    f_equal. apply map_ext_in. intros row Hrow.
    assert (Hr : (List.length row <= 17)%nat).
    { destruct Hrow as [<-|Hrow]; [lia|].
      rewrite Forall_forall in Hrest. now apply Hrest. }
    rewrite app_nth2;
      rewrite !length_replace_nth, !length_app, (length_pad 17 row Hr);
      simpl; [reflexivity | lia].
Qed.

(** ** Runs on the sample inputs *)

Lemma get_access_token_cache_witness :
  exists w',
    _get_access_token Samples.cached_client (Samples.world 1000 [])
    = (Ok (JStr "token-1"), Samples.cached_client, w') /\
    sent w' = [].
Proof.
  apply (proj1 (get_access_token_cache Samples.cached_client
                  (Samples.world 1000 [])) eq_refl 2500 eq_refl).
  reflexivity.
Defined.

Lemma get_access_token_default_lifetime_witness :
  exists self' w' e,
    _get_access_token Samples.client
      (Samples.world 1000 [Ok Samples.bare_token_reply])
    = (Ok (JStr "token-2"), self', w') /\
    access_token self' = JStr "token-2" /\
    token_expires_at self' = Some e /\
    e == Samples.clock_from 1000 0 + 1500 /\
    Samples.clock_from 1000 0 < e.
Proof.
  apply (get_access_token_default_lifetime Samples.client
           (Samples.world 1000 [Ok Samples.bare_token_reply]) eq_refl
           Samples.bare_token_reply
           [("access_token", JStr "token-2")] (JStr "token-2")
           eq_refl eq_refl eq_refl eq_refl eq_refl).
Defined.

Lemma make_request_rate_limited_witness :
  fst (fst (_make_request "/states/all" [] Samples.cached_client
              (Samples.world 1000 [Ok Samples.rate_limit_reply])))
  = Raise (Exception "Rate limited. Retry after 37 seconds").
Proof.
  destruct (make_request_rate_limited "/states/all" []
              Samples.cached_client
              (Samples.world 1000 [Ok Samples.rate_limit_reply])
              (JStr "token-1") Samples.cached_client
              (mkWorld (Samples.clock_from 1000) 1
                 (Samples.script [Ok Samples.rate_limit_reply]) [])
              Samples.rate_limit_reply eq_refl eq_refl eq_refl)
    as (_ & Hheader & _).
  rewrite (Hheader "37" 37%Z eq_refl eq_refl). reflexivity.
Defined.

(** A 429 whose header reads "1.5": what is raised is the [ValueError]
    of [int], not the rate-limit exception, and it carries no seconds. *)
Lemma make_request_retry_after_counterexample :
  status_code Samples.malformed_rate_limit_reply = 429%Z /\
  fst (fst (_make_request "/states/all" [] Samples.cached_client
              (Samples.world 1000 [Ok Samples.malformed_rate_limit_reply])))
  = Raise ValueError /\
  forall n,
    fst (fst (_make_request "/states/all" [] Samples.cached_client
                (Samples.world 1000
                   [Ok Samples.malformed_rate_limit_reply])))
    <> Raise (Exception (rate_limited n)).
Proof.
  split; [reflexivity|]. split; [reflexivity|].
  intros n H. vm_compute in H. discriminate H.
Qed.

Lemma auxiliary_fetches_swallow_witness :
  exists df self' w',
    get_flights_interval Samples.no_frame 0 3600 Samples.client
      (Samples.world 1000 [Ok Samples.unauthorized_reply])
    = (Ok df, self', w') /\
    df = empty_frame.
Proof.
  destruct (proj1 (auxiliary_fetches_swallow Samples.no_frame "KJFK" 0 3600
                     Samples.client
                     (Samples.world 1000 [Ok Samples.unauthorized_reply])))
    as (df & self' & w' & Hrun & Hraise & _).
  exists df, self', w'. split; [exact Hrun|].
  eapply Hraise. reflexivity.
Defined.

Lemma get_states_category_witness :
  exists df self1 w1,
    get_states None None None 1 Samples.cached_client
      (Samples.world 1000
         [Ok (Samples.states_reply
                [Samples.state18 "UAL1  " 3; Samples.state18 "DLH2" 6])])
    = (Ok df, self1, w1) /\
    getitem df "category" = Ok [JNum 3; JNum 6].
Proof.
  pose (table := [Samples.state18 "UAL1  " 3; Samples.state18 "DLH2" 6]).
  pose (w := Samples.world 1000 [Ok (Samples.states_reply table)]).
  destruct (get_states_category None None None 1 Samples.cached_client w
              [("time", JNum 1700000000); ("states", JArr (map JArr table))]
              Samples.cached_client
              (mkWorld (clock w) 1 (peer w)
                 [data_request Samples.cached_client (JStr "token-1")
                    "/states/all" (states_params None None None 1)])
              (JArr (map JArr table)) (JNum 1700000000) (JNum 1700000000)
              (Samples.state18 "UAL1  " 3) [Samples.state18 "DLH2" 6]
              eq_refl eq_refl eq_refl eq_refl eq_refl)
    as [H18 _].
  - constructor; [right; eexists; reflexivity|].
    constructor; [right; eexists; reflexivity|]. constructor.
  - destruct H18 as (df & Hrun & Hcat).
    + reflexivity.
    + constructor; [apply Nat.le_refl | constructor].
    + exists df. do 2 eexists. split; [exact Hrun | exact Hcat].
Defined.

End ClientClaims.

(* ===================================================================== *)
(** * Further properties of the pipeline                                 *)
(* ===================================================================== *)

Section PipelineMore.
Import Pandas FlightDataPipeline Reading.

(** ** Rows kept and rows dropped *)

Lemma length_filter_le {A} (p : A -> bool) (l : list A) :
  (List.length (filter p l) <= List.length l)%nat.
Proof.
  induction l as [|x l IH]; simpl; [lia|]. destruct (p x); simpl; lia.
Qed.

Lemma length_filter_all {A} (p : A -> bool) (l : list A) :
  List.length (filter p l) = List.length l <->
  forall x, In x l -> p x = true.
Proof.
  induction l as [|x l IH]; simpl.
  - split; [intros _ y [] | reflexivity].
  - pose proof (length_filter_le p l) as Hle. destruct (p x) eqn:E; simpl.
    + split.
      * intros H y [<-|Hy]; [exact E|]. apply IH; [lia | exact Hy].
      * intros H. f_equal. apply IH. intros y Hy. apply H. now right.
    + split; [lia|]. intros H. specialize (H x (or_introl eq_refl)).
      congruence.
Qed.

(** The rows of the output are the airborne rows of the input that have
    latitude, longitude, velocity and barometric altitude, in the order
    of the input and with their input columns unchanged; the output is as
    long as the input exactly when no row is dropped. *)
Theorem transform_states_keeps_input (df : DataFrame) :
  map input_columns (transform_states df)
  = map input_columns (filter keep df) /\
  (List.length (transform_states df) <= List.length df)%nat /\
  (List.length (transform_states df) = List.length df <->
   forall r, In r df ->
     on_ground r = false /\ latitude r <> None /\ longitude r <> None /\
     velocity r <> None /\ baro_altitude r <> None).
Proof.
  rewrite transform_states_rows. rewrite map_map, length_map.
  split; [reflexivity|]. split; [apply length_filter_le|].
  rewrite length_filter_all. split; intros H r Hr; specialize (H r Hr).
  - unfold keep in H.
    destruct (on_ground r), (latitude r), (longitude r), (velocity r),
      (baro_altitude r); try discriminate; repeat split; discriminate.
  - destruct H as (Hg & Hlat & Hlon & Hv & Hb). unfold keep. rewrite Hg.
    destruct (latitude r), (longitude r), (velocity r), (baro_altitude r);
      try reflexivity; congruence.
Qed.

(** Frames can be transformed in pieces: transforming the concatenation
    of two frames gives the concatenation of their transforms. *)
Theorem transform_states_app (df1 df2 : DataFrame) :
  transform_states (df1 ++ df2)%list
  = (transform_states df1 ++ transform_states df2)%list.
Proof.
  rewrite !transform_states_rows. now rewrite filter_app, map_app.
Qed.

(** ** Speed category and aircraft type *)

Ltac by_order :=
  repeat match goal with
    | |- context [Qle_bool ?x ?y] =>
        let E := fresh "E" in
        destruct (Qle_bool x y) eqn:E;
        [apply Qle_bool_iff in E | apply Qle_bool_false in E]
    end;
  try reflexivity; try discriminate; try (exfalso; lra); try lra.

Lemma cut_speed (v : Q) :
  cut speed_bins speed_labels (Some v) =
  if Qle_bool v 0 then None
  else if Qle_bool v 200 then Some "Slow"
  else if Qle_bool v 350 then Some "Medium"
  else if Qle_bool v 500 then Some "Fast"
  else if Qle_bool v 1000 then Some "Very Fast"
  else None.
Proof.
  unfold cut, speed_bins, speed_labels, searchsorted_left, Qlt_bool.
  destruct (Qle_bool v 0); [reflexivity|].
  destruct (Qle_bool v 200); [reflexivity|].
  destruct (Qle_bool v 350); [reflexivity|].
  destruct (Qle_bool v 500); [reflexivity|].
  destruct (Qle_bool v 1000); reflexivity.
Qed.

(** In every transformed record the speed category is the bin of
    [speed_knots] among the edges 0, 200, 350, 500, 1000, each bin closed
    on the right.  As [speed_knots] is at least 1, a record at rest is
    "Slow", and the only records without a speed category are those
    faster than 1000 knots. *)
Theorem transform_states_speed_bins (df : DataFrame) (r : Row) :
  In r (transform_states df) ->
  exists s,
    speed_knots r = Some s /\
    (s <= 200 -> speed_category r = Some "Slow") /\
    (200 < s /\ s <= 350 -> speed_category r = Some "Medium") /\
    (350 < s /\ s <= 500 -> speed_category r = Some "Fast") /\
    (500 < s /\ s <= 1000 -> speed_category r = Some "Very Fast") /\
    (speed_category r = None <-> 1000 < s).
Proof.
  intros Hin. apply in_transform_states in Hin.
  destruct Hin as (r0 & _ & Hk & ->).
  unfold keep in Hk. repeat (apply andb_prop in Hk; destruct Hk as [? Hk]).
  destruct (velocity r0) as [v|] eqn:Ev; [|discriminate].
  set (s := if Qle_bool 1 (v * 1.94384) then v * 1.94384 else 1).
  assert (Hs : 1 <= s).
  { subst s. destruct (Qle_bool 1 (v * 1.94384)) eqn:E.
    - now apply Qle_bool_iff.
    - apply Qle_refl. }
  assert (Hsp : speed_knots (enrich r0) = Some s).
  { unfold enrich. simpl. rewrite Ev. reflexivity. }
  assert (Hc : speed_category (enrich r0)
               = cut speed_bins speed_labels (Some s)).
  { unfold enrich. simpl. rewrite Ev. reflexivity. }
  exists s. rewrite Hc, cut_speed. clearbody s.
  split; [exact Hsp|].
  repeat split; by_order; intros; by_order.
Qed.

Lemma transform_states_speed_bins_witness :
  exists s,
    speed_knots (enrich (hd (Samples.raw_row "" false None None None 0)
                           Samples.three_rows)) = Some s /\
    (s <= 200 ->
     speed_category (enrich (hd (Samples.raw_row "" false None None None 0)
                               Samples.three_rows)) = Some "Slow").
Proof.
  destruct (transform_states_speed_bins Samples.three_rows
              (enrich (hd (Samples.raw_row "" false None None None 0)
                         Samples.three_rows)))
    as (s & Hs & Hslow & _).
  - left. reflexivity.
  - exists s. split; [exact Hs | exact Hslow].
Defined.

Lemma map_dict_outside (c : Z) :
  (c < 0 \/ 20 < c)%Z -> map_dict aircraft_types (Some c) = None.
Proof.
  intros H. unfold map_dict, aircraft_types. cbn [find fst].
  repeat match goal with
    | |- context [Z.eqb ?a c] => destruct (Z.eqb_spec a c); [lia|]
    end.
  reflexivity.
Qed.

Ltac in_table :=
  eexists; split; [reflexivity|]; split;
  [intros ? E _; injection E as <-; simpl; tauto|];
  split; [discriminate|];
  intros [E|(? & E & Hout)]; [discriminate|];
  injection E as <-; lia.

(** In every transformed record the aircraft type is set: it is the
    entry of the table for a category code from 0 to 20 and "Unknown"
    exactly when the code is missing or outside that range. *)
Theorem transform_states_aircraft_type (df : DataFrame) (r : Row) :
  In r (transform_states df) ->
  exists t,
    aircraft_type r = Some t /\
    (forall c, category r = Some c -> (0 <= c <= 20)%Z ->
               In (c, t) aircraft_types) /\
    (t = "Unknown" <->
     category r = None \/
     exists c, category r = Some c /\ (c < 0 \/ 20 < c)%Z).
Proof.
  intros Hin. apply in_transform_states in Hin.
  destruct Hin as (r0 & _ & _ & ->).
  assert (Ht : aircraft_type (enrich r0)
               = fillna "Unknown" (map_dict aircraft_types (category r0)))
    by reflexivity.
  assert (Hc : category (enrich r0) = category r0) by reflexivity.
  rewrite Ht, Hc. destruct (category r0) as [c|].
  - destruct (Z_lt_dec c 0) as [Hneg|Hpos];
      [|destruct (Z_lt_dec 20 c) as [Hbig|Hin]].
    + exists "Unknown". split.
      * rewrite map_dict_outside by auto. reflexivity.
      * split; [intros c' E; injection E as <-; lia|].
        split; [|reflexivity]. intros _. right. exists c. split; auto.
    + exists "Unknown". split.
      * rewrite map_dict_outside by auto. reflexivity.
      * split; [intros c' E; injection E as <-; lia|].
        split; [|reflexivity]. intros _. right. exists c. split; auto.
    + assert (Hcases : (c = 0 \/ c = 1 \/ c = 2 \/ c = 3 \/ c = 4 \/ c = 5
                       \/ c = 6 \/ c = 7 \/ c = 8 \/ c = 9 \/ c = 10
                       \/ c = 11 \/ c = 12 \/ c = 13 \/ c = 14 \/ c = 15
                       \/ c = 16 \/ c = 17 \/ c = 18 \/ c = 19
                       \/ c = 20)%Z) by lia.
      repeat (destruct Hcases as [E0|Hcases]; [subst c; in_table|]).
      subst c; in_table.
  - exists "Unknown". split; [reflexivity|].
    split; [discriminate|]. split; auto.
Qed.

Lemma transform_states_aircraft_type_witness :
  exists t,
    aircraft_type (enrich (hd (Samples.raw_row "" false None None None 0)
                             Samples.three_rows)) = Some t /\
    In (3%Z, t) aircraft_types.
Proof.
  destruct (transform_states_aircraft_type Samples.three_rows
              (enrich (hd (Samples.raw_row "" false None None None 0)
                         Samples.three_rows)))
    as (t & Ht & Hin & _).
  - left. reflexivity.
  - exists t. split; [exact Ht|]. apply Hin; [reflexivity | lia].
Defined.

(** ** Counting *)

Lemma count_of_bump (k k' : string) (acc : list (string * nat)) :
  count_of (bump k' acc) k
  = if String.eqb k k' then S (count_of acc k) else count_of acc k.
Proof.
  unfold count_of. induction acc as [|[k0 n] acc IH]; simpl.
  - destruct (String.eqb k k'); reflexivity.
  - destruct (String.eqb_spec k' k0) as [->|Hne]; simpl.
    + destruct (String.eqb k k0); reflexivity.
    + destruct (String.eqb_spec k k0) as [->|Hne'].
      * destruct (String.eqb_spec k0 k'); [congruence | reflexivity].
      * exact IH.
Qed.

Lemma count_of_tally_from (col : list (option string))
    (acc : list (string * nat)) (k : string) :
  count_of
    (fold_left
       (fun acc x => match x with Some k => bump k acc | None => acc end)
       col acc) k
  = (count_label k col + count_of acc k)%nat.
Proof.
  revert acc. unfold count_label.
  induction col as [|[k'|] col IH]; intros acc; simpl.
  - reflexivity.
  - rewrite IH, count_of_bump. rewrite (String.eqb_sym k' k).
    destruct (String.eqb k k'); simpl; lia.
  - apply IH.
Qed.

Lemma nodup_keys_bump (k : string) (acc : list (string * nat)) :
  NoDup (map fst acc) -> NoDup (map fst (bump k acc)).
Proof.
  induction acc as [|[k0 n] acc IH]; simpl; intros H.
  - constructor; [intros [] | constructor].
  - inversion H as [|? ? Hnin Hnd]; subst.
    destruct (String.eqb_spec k k0) as [->|Hne]; simpl.
    + constructor; assumption.
    + constructor; [|now apply IH].
      rewrite in_keys_bump. intros [->|Hin]; [congruence | contradiction].
Qed.

Lemma nodup_keys_tally_from (col : list (option string))
    (acc : list (string * nat)) :
  NoDup (map fst acc) ->
  NoDup (map fst
           (fold_left
              (fun acc x => match x with Some k => bump k acc | None => acc end)
              col acc)).
Proof.
  revert acc. induction col as [|[k|] col IH]; intros acc H; simpl.
  - exact H.
  - apply IH. now apply nodup_keys_bump.
  - now apply IH.
Qed.

Lemma total_bump (k : string) (acc : list (string * nat)) :
  total (bump k acc) = S (total acc).
Proof.
  unfold total. induction acc as [|[k0 n] acc IH]; simpl; [reflexivity|].
  destruct (String.eqb k k0); simpl; [lia|]. rewrite IH. lia.
Qed.

Lemma total_tally_from (col : list (option string))
    (acc : list (string * nat)) :
  total
    (fold_left
       (fun acc x => match x with Some k => bump k acc | None => acc end)
       col acc)
  = (List.length (filter notna col) + total acc)%nat.
Proof.
  revert acc. induction col as [|[k|] col IH]; intros acc; simpl.
  - reflexivity.
  - rewrite IH, total_bump. lia.
  - apply IH.
Qed.

Lemma length_bump (k : string) (acc : list (string * nat)) :
  (List.length (bump k acc) <= S (List.length acc))%nat.
Proof.
  induction acc as [|[k0 n] acc IH]; simpl; [lia|].
  destruct (String.eqb k k0); simpl; lia.
Qed.

Lemma length_tally_from (col : list (option string))
    (acc : list (string * nat)) :
  (List.length
     (fold_left
        (fun acc x => match x with Some k => bump k acc | None => acc end)
        col acc)
   <= List.length col + List.length acc)%nat.
Proof.
  revert acc. induction col as [|[k|] col IH]; intros acc; simpl.
  - lia.
  - specialize (IH (bump k acc)). pose proof (length_bump k acc). lia.
  - specialize (IH acc). lia.
Qed.

Lemma total_insert_desc (e : string * nat) (l : list (string * nat)) :
  total (insert_desc e l) = (snd e + total l)%nat.
Proof.
  unfold total. induction l as [|e' l IH]; simpl; [reflexivity|].
  destruct (Nat.ltb (snd e) (snd e')); simpl; [rewrite IH|]; lia.
Qed.

Lemma total_sort_desc (l : list (string * nat)) :
  total (sort_desc l) = total l.
Proof.
  induction l as [|e l IH]; simpl; [reflexivity|].
  rewrite total_insert_desc. unfold total in *. simpl. now rewrite IH.
Qed.

Lemma in_keys_insert_desc (e : string * nat) (l : list (string * nat))
    (k : string) :
  In k (map fst (insert_desc e l)) <-> k = fst e \/ In k (map fst l).
Proof.
  rewrite !in_map_iff. split.
  - intros (x & <- & Hx). apply (proj1 (in_insert_desc _ _ _)) in Hx.
    destruct Hx as [->|Hx]; [now left | right; now exists x].
  - intros [->|(x & <- & Hx)].
    + exists e. split; [reflexivity|].
      apply (proj2 (in_insert_desc _ _ _)). now left.
    + exists x. split; [reflexivity|].
      apply (proj2 (in_insert_desc _ _ _)). now right.
Qed.

Lemma nodup_keys_insert_desc (e : string * nat) (l : list (string * nat)) :
  NoDup (map fst (e :: l)) -> NoDup (map fst (insert_desc e l)).
Proof.
  induction l as [|e' l IH]; simpl; intros H; [exact H|].
  destruct (Nat.ltb (snd e) (snd e')); [|exact H].
  inversion H as [|? ? Hnin Hnd]; subst.
  inversion Hnd as [|? ? Hnin' Hnd']; subst.
  simpl. constructor.
  - rewrite in_keys_insert_desc. intros [Heq|Hin].
    + apply Hnin. left. now symmetry.
    + contradiction.
  - apply IH. simpl. constructor; [|exact Hnd'].
    intros Hin. apply Hnin. now right.
Qed.

Lemma nodup_keys_sort_desc (l : list (string * nat)) :
  NoDup (map fst l) -> NoDup (map fst (sort_desc l)).
Proof.
  induction l as [|e l IH]; simpl; intros H; [constructor|].
  inversion H as [|? ? Hnin Hnd]; subst.
  apply nodup_keys_insert_desc. simpl. constructor; [|now apply IH].
  intros Hin. apply Hnin. apply in_map_iff in Hin.
  destruct Hin as (x & <- & Hx). apply (proj1 (in_sort_desc _ _)) in Hx.
  now apply in_map.
Qed.

Lemma lookup_in_nodup (d : list (string * nat)) (k : string) (n : nat) :
  NoDup (map fst d) -> In (k, n) d -> Py.lookup d k = Some n.
Proof.
  induction d as [|[k0 n0] d IH]; simpl; intros Hnd Hin; [contradiction|].
  inversion Hnd as [|? ? Hnin Hnd']; subst.
  destruct Hin as [E|Hin].
  - injection E as -> ->. now rewrite String.eqb_refl.
  - destruct (String.eqb_spec k k0) as [->|Hne]; [|now apply IH].
    exfalso. apply Hnin. change k0 with (fst (k0, n)). now apply in_map.
Qed.

Lemma count_of_in (d : list (string * nat)) (k : string) (n : nat) :
  NoDup (map fst d) -> In (k, n) d -> count_of d k = n.
Proof.
  intros Hnd Hin. unfold count_of. now rewrite (lookup_in_nodup d k n).
Qed.

(** [value_counts] counts: its keys are distinct, and the count of a key
    is the number of cells that hold it, which is at least 1. *)
Lemma value_counts_exact (col : list (option string)) :
  NoDup (map fst (value_counts col)) /\
  forall k n, In (k, n) (value_counts col) ->
              n = count_label k col /\ (1 <= n)%nat.
Proof.
  assert (Hnd : NoDup (map fst (tally col))).
  { unfold tally. apply nodup_keys_tally_from. constructor. }
  split; [now apply nodup_keys_sort_desc|].
  intros k n Hin. apply (proj1 (in_sort_desc _ _)) in Hin.
  assert (Hn : n = count_label k col).
  { rewrite <- (count_of_in _ _ _ Hnd Hin). unfold tally.
    rewrite count_of_tally_from. unfold count_of. simpl. lia. }
  split; [exact Hn|].
  assert (Hk : In (Some k) col).
  { apply in_keys_value_counts. apply in_map_iff. exists (k, n).
    split; [reflexivity|]. now apply (proj2 (in_sort_desc _ _)). }
  rewrite Hn. unfold count_label. clear - Hk.
  induction col as [|x col IH]; [contradiction|].
  destruct Hk as [->|Hk]; simpl.
  - rewrite String.eqb_refl. simpl. lia.
  - specialize (IH Hk). destruct x as [k'|]; [|exact IH].
    destruct (String.eqb k' k); simpl; lia.
Qed.

(** ** The breakdowns, entry by entry *)

(** In the summary of a non-empty frame the keys of each breakdown are
    distinct and each count is the number of records that hold the key:
    at least 1 by country and by aircraft type, possibly 0 by altitude
    category, whose keys are category labels. *)
Theorem aggregate_metrics_counts (df : DataFrame) :
  df <> [] ->
  exists by_country by_altitude by_type,
    get (aggregate_metrics df) "flights_by_country"
    = Some (Breakdown by_country) /\
    get (aggregate_metrics df) "flights_by_altitude"
    = Some (Breakdown by_altitude) /\
    get (aggregate_metrics df) "flights_by_type"
    = Some (Breakdown by_type) /\
    NoDup (map fst by_country) /\
    NoDup (map fst by_altitude) /\
    NoDup (map fst by_type) /\
    (forall k n, In (k, n) by_country ->
       n = count_label k (map origin_country df) /\ (1 <= n)%nat) /\
    (forall k n, In (k, n) by_type ->
       n = count_label k (map aircraft_type df) /\ (1 <= n)%nat) /\
    (forall c n, In (c, n) by_altitude ->
       In c altitude_labels /\
       n = count_label c (map altitude_category df)).
Proof.
  intros Hne. destruct df as [|r df]; [congruence|].
  do 3 eexists. unfold aggregate_metrics.
  change (empty (r :: df)) with false. cbv iota.
  split; [reflexivity|]. split; [reflexivity|]. split; [reflexivity|].
  set (rows := r :: df).
  destruct (value_counts_exact (map origin_country rows)) as [Nc Ec].
  destruct (value_counts_exact (map aircraft_type rows)) as [Nt Et].
  split; [|split; [|split; [|split; [|split]]]].
  - unfold head.
    rewrite <- (firstn_skipn 10 (value_counts (map origin_country rows))) in Nc.
    rewrite map_app in Nc. now apply NoDup_app_remove_r in Nc.
  - unfold value_counts_categorical. apply nodup_keys_sort_desc.
    rewrite map_map. simpl.
    repeat constructor; simpl; intuition discriminate.
  - exact Nt.
  - intros k n Hin. apply Ec. unfold head in Hin.
    rewrite <- (firstn_skipn 10 (value_counts (map origin_country rows))).
    apply in_or_app. now left.
  - exact Et.
  - intros c n Hin. unfold value_counts_categorical in Hin.
    apply (proj1 (in_sort_desc _ _)) in Hin. apply in_map_iff in Hin.
    destruct Hin as (c' & E & Hc). injection E as <- <-. auto.
Qed.

Lemma aggregate_metrics_counts_witness :
  exists by_type,
    get (aggregate_metrics (transform_states Samples.eleven_types))
      "flights_by_type" = Some (Breakdown by_type) /\
    NoDup (map fst by_type).
Proof.
  destruct (aggregate_metrics_counts (transform_states Samples.eleven_types))
    as (bc & ba & bt & _ & _ & Ht & _ & _ & Hn & _).
  - discriminate.
  - exists bt. auto.
Defined.

Lemma descending_app (l1 l2 : list (string * nat)) :
  descending (l1 ++ l2) ->
  forall x y, In x l1 -> In y l2 -> (snd y <= snd x)%nat.
Proof.
  unfold descending. induction l1 as [|e l1 IH]; simpl; intros H x y Hx Hy.
  - contradiction.
  - inversion H as [|? ? Hs Hall]; subst. destruct Hx as [<-|Hx].
    + rewrite Forall_forall in Hall. apply Hall. apply in_or_app. now right.
    + now apply (IH Hs x y).
Qed.

(** The country breakdown is the top of the count: it has as many
    entries as there are distinct countries, ten at most, and a country
    of the frame that it leaves out occurs no more often than any country
    that it lists. *)
Theorem aggregate_metrics_top_countries (df : DataFrame) :
  df <> [] ->
  exists by_country countries,
    get (aggregate_metrics df) "flights_by_country"
    = Some (Breakdown by_country) /\
    get (aggregate_metrics df) "countries" = Some (Count countries) /\
    List.length by_country = Nat.min 10 countries /\
    (countries <= List.length df)%nat /\
    (forall k n k',
       In (k, n) by_country ->
       In (Some k') (map origin_country df) ->
       ~ In k' (map fst by_country) ->
       (count_label k' (map origin_country df) <= n)%nat).
Proof.
  intros Hne. destruct df as [|r df]; [congruence|].
  do 2 eexists. unfold aggregate_metrics.
  change (empty (r :: df)) with false. cbv iota.
  split; [reflexivity|]. split; [reflexivity|].
  set (col := map origin_country (r :: df)).
  split; [|split].
  - unfold head, nunique, value_counts.
    now rewrite length_firstn, length_sort_desc.
  - unfold nunique, tally.
    pose proof (length_tally_from col []) as H.
    assert (Hl : List.length col = List.length (r :: df))
      by (unfold col; apply length_map).
    rewrite Hl in H. simpl in *. lia.
  - intros k n k' Hin Hpresent Hout. unfold head in *.
    apply in_keys_value_counts in Hpresent. apply in_map_iff in Hpresent.
    destruct Hpresent as ([k0 n'] & E & Hfull). simpl in E. subst k0.
    destruct (value_counts_exact col) as [_ Exact].
    destruct (Exact k' n' Hfull) as [-> _].
    rewrite <- (firstn_skipn 10 (value_counts col)) in Hfull.
    apply in_app_or in Hfull. destruct Hfull as [Hfirst|Hrest].
    + exfalso. apply Hout. apply in_map_iff. now exists (k', count_label k' col).
    + apply (descending_app (firstn 10 (value_counts col))
               (skipn 10 (value_counts col))
               ltac:(rewrite firstn_skipn; apply sort_desc_descending)
               (k, n) (k', count_label k' col) Hin Hrest).
Qed.

Lemma aggregate_metrics_top_countries_witness :
  exists by_country countries,
    get (aggregate_metrics (transform_states Samples.three_rows))
      "flights_by_country" = Some (Breakdown by_country) /\
    get (aggregate_metrics (transform_states Samples.three_rows))
      "countries" = Some (Count countries) /\
    List.length by_country = Nat.min 10 countries.
Proof.
  destruct (aggregate_metrics_top_countries
              (transform_states Samples.three_rows))
    as (bc & n & H1 & H2 & H3 & _).
  - discriminate.
  - exists bc, n. auto.
Defined.

(** ** Summaries of transformed frames *)

Lemma total_value_counts (col : list (option string)) :
  total (value_counts col) = List.length (filter notna col).
Proof.
  unfold value_counts, tally. rewrite total_sort_desc, total_tally_from.
  unfold total. simpl. lia.
Qed.

Lemma cut_in_labels {L} (bins : list Q) (labels : list L) (x : option Q)
    (k : L) :
  cut bins labels x = Some k -> In k labels.
Proof.
  unfold cut. destruct x as [v|]; [|discriminate].
  destruct (Nat.eqb _ _ || Nat.eqb _ _)%bool; [discriminate|].
  apply nth_error_In.
Qed.

Lemma total_altitude_categories (col : list (option string)) :
  Forall (fun x => match x with
                   | Some k => In k altitude_labels
                   | None => True
                   end) col ->
  total (map (fun c => (c, count_label c col)) altitude_labels)
  = List.length (filter notna col).
Proof.
  unfold total, count_label, altitude_labels.
  induction 1 as [|x col Hx _ IH]; [reflexivity|].
  simpl in IH |- *. destruct x as [k|]; [|exact IH].
  simpl in Hx.
  repeat (destruct Hx as [<-|Hx]; [simpl; lia|]). contradiction.
Qed.

(** In the summary of a transformed frame that is not empty,
    [total_flights] is the number of records, the counts by aircraft type
    add up to it, and the counts by altitude category add up to the
    number of records that have an altitude category. *)
Theorem aggregate_metrics_totals (raw : DataFrame) :
  transform_states raw <> [] ->
  exists by_altitude by_type,
    get (aggregate_metrics (transform_states raw)) "total_flights"
    = Some (Count (List.length (transform_states raw))) /\
    get (aggregate_metrics (transform_states raw)) "flights_by_type"
    = Some (Breakdown by_type) /\
    get (aggregate_metrics (transform_states raw)) "flights_by_altitude"
    = Some (Breakdown by_altitude) /\
    total by_type = List.length (transform_states raw) /\
    total by_altitude
    = List.length (filter (fun r => notna (altitude_category r))
                     (transform_states raw)).
Proof.
  intros Hne.
  assert (Htype : forall r, In r (transform_states raw) ->
                            notna (aircraft_type r) = true).
  { intros r Hr. apply in_transform_states in Hr.
    destruct Hr as (r0 & _ & _ & ->). unfold enrich. simpl.
    destruct (map_dict aircraft_types (category r0)); reflexivity. }
  assert (Halt : forall r, In r (transform_states raw) ->
                   match altitude_category r with
                   | Some k => In k altitude_labels
                   | None => True
                   end).
  { intros r Hr. apply in_transform_states in Hr.
    destruct Hr as (r0 & _ & _ & ->).
    destruct (altitude_category (enrich r0)) as [k|] eqn:E; [|exact I].
    unfold enrich in E. simpl in E. now apply cut_in_labels in E. }
  destruct (transform_states raw) as [|r df] eqn:Ed; [congruence|].
  do 2 eexists. unfold aggregate_metrics.
  change (empty (r :: df)) with false. cbv iota.
  split; [reflexivity|]. split; [reflexivity|]. split; [reflexivity|].
  split.
  - rewrite total_value_counts, filter_map_swap, length_map.
    now rewrite (filter_all _ _ Htype).
  - unfold value_counts_categorical.
    rewrite total_sort_desc, total_altitude_categories.
    + now rewrite filter_map_swap, length_map.
    + apply Forall_forall. intros x Hx. apply in_map_iff in Hx.
      destruct Hx as (r' & <- & Hr'). now apply Halt.
Qed.

Lemma aggregate_metrics_totals_witness :
  exists by_type,
    get (aggregate_metrics (transform_states Samples.eleven_types))
      "flights_by_type" = Some (Breakdown by_type) /\
    total by_type = List.length (transform_states Samples.eleven_types).
Proof.
  destruct (aggregate_metrics_totals Samples.eleven_types)
    as (ba & bt & _ & Ht & _ & Hsum & _).
  - discriminate.
  - exists bt. auto.
Defined.

(** ** Maximum and mean *)

Lemma in_valid (col : list (option Q)) (a : Q) :
  In a (valid col) <-> In (Some a) col.
Proof.
  induction col as [|[v|] col IH]; simpl.
  - tauto.
  - rewrite IH. split; intros [H|H]; auto; [left; congruence|].
    left. congruence.
  - rewrite IH. split; [auto|]. intros [H|H]; [discriminate | exact H].
Qed.

Lemma fold_max_bounds (vs : list Q) (v : Q) :
  let m := fold_left (fun m x => if Qle_bool m x then x else m) vs v in
  (forall x, In x (v :: vs) -> x <= m) /\ In m (v :: vs).
Proof.
  cbv zeta. revert v. induction vs as [|y vs IH]; intros v; simpl.
  - split; [intros x [<-|[]]; apply Qle_refl | now left].
  - destruct (Qle_bool v y) eqn:E.
    + apply Qle_bool_iff in E. destruct (IH y) as [Hb Hin]. split.
      * intros x [<-|Hx]; [|now apply Hb].
        apply Qle_trans with y; [exact E|]. apply Hb. now left.
      * right. exact Hin.
    + apply Qle_bool_false in E. destruct (IH v) as [Hb Hin]. split.
      * intros x [<-|[<-|Hx]].
        -- apply Hb. now left.
        -- apply Qle_trans with v; [now apply Qlt_le_weak|].
           apply Hb. now left.
        -- apply Hb. now right.
      * destruct Hin as [Hin|Hin]; [now left | right; now right].
Qed.

Lemma length_succ_Q {A} (x : A) (l : list A) :
  inject_Z (Z.of_nat (List.length (x :: l)))
  == 1 + inject_Z (Z.of_nat (List.length l)).
Proof.
  cbn [List.length]. rewrite Nat2Z.inj_succ. unfold Z.succ.
  rewrite inject_Z_plus. change (inject_Z 1) with 1. ring.
Qed.

Lemma fold_sum_ge (lo : Q) (vs : list Q) (a : Q) :
  (forall x, In x vs -> lo <= x) ->
  a + lo * inject_Z (Z.of_nat (List.length vs)) <= fold_left Qplus vs a.
Proof.
  revert a. induction vs as [|y vs IH]; intros a H.
  - simpl. ring_simplify. apply Qle_refl.
  - cbn [fold_left]. rewrite length_succ_Q.
    pose proof (H y (or_introl eq_refl)) as Hy.
    eapply Qle_trans; [|apply IH; intros x Hx; apply H; now right].
    set (n := inject_Z (Z.of_nat (List.length vs))). lra.
Qed.

(** The maximum of a column is one of its cells and bounds them all.
    [series.max()] only compares, so this is as true of floats. *)
Lemma max_bounds (col : list (option Q)) (a : Q) :
  In (Some a) col ->
  exists mx,
    Pandas.max col = Some mx /\ a <= mx /\ In (Some mx) col.
Proof.
  intros Ha. apply in_valid in Ha. unfold Pandas.max.
  destruct (valid col) as [|v vs] eqn:Ev; [contradiction|].
  eexists. split; [reflexivity|].
  destruct (fold_max_bounds vs v) as [Hb Hin].
  split; [now apply Hb|]. apply in_valid. now rewrite Ev.
Qed.

(** The mean of a column whose cells are all at least 1 is at least 1.
    No more is stated of the mean: the sum of n cells that are at least
    1 is at least n and n / n is 1 whatever the rounding, whereas the
    rounding of [series.mean()] can carry it past another bound of the
    cells, and past their maximum. *)
Lemma mean_at_least_one (col : list (option Q)) (a : Q) :
  In (Some a) col ->
  (forall x, In (Some x) col -> 1 <= x) ->
  exists avg, mean col = Some avg /\ 1 <= avg.
Proof.
  intros Ha Hlo. apply in_valid in Ha. unfold mean.
  destruct (valid col) as [|v vs] eqn:Ev; [contradiction|].
  eexists. split; [reflexivity|].
  assert (Hn : 0 < inject_Z (Z.of_nat (List.length (v :: vs)))).
  { change 0 with (inject_Z 0). rewrite <- Zlt_Qlt. simpl. lia. }
  pose proof (length_succ_Q v vs) as Hlen.
  set (n := inject_Z (Z.of_nat (List.length vs))) in *.
  assert (Hv : forall x, In x (v :: vs) -> 1 <= x).
  { intros x Hx. apply Hlo. apply in_valid. now rewrite Ev. }
  apply Qle_shift_div_l; [exact Hn|]. rewrite Hlen.
  eapply Qle_trans.
  - assert (E : 1 * (1 + n) <= v + 1 * n)
      by (pose proof (Hv v (or_introl eq_refl)); lra).
    exact E.
  - apply (fold_sum_ge 1). intros x Hx. apply Hv. now right.
Qed.

(** The maxima of the summary are attained by a record and bound every
    record. *)
Theorem aggregate_metrics_extremes (df : DataFrame) (r : Row) (a s : Q) :
  In r df -> altitude_ft r = Some a -> speed_knots r = Some s ->
  exists max_a max_s,
    get (aggregate_metrics df) "max_altitude_ft" = Some (Number (Some max_a)) /\
    get (aggregate_metrics df) "max_speed_knots" = Some (Number (Some max_s)) /\
    a <= max_a /\
    (exists r', In r' df /\ altitude_ft r' = Some max_a) /\
    s <= max_s /\
    (exists r', In r' df /\ speed_knots r' = Some max_s).
Proof.
  intros Hr Ha Hs.
  destruct (max_bounds (map altitude_ft df) a) as (max_a & Ma & Ba & Ia).
  { rewrite <- Ha. now apply in_map. }
  destruct (max_bounds (map speed_knots df) s) as (max_s & Ms & Bs & Is).
  { rewrite <- Hs. now apply in_map. }
  exists max_a, max_s.
  destruct df as [|r0 df]; [contradiction|].
  unfold aggregate_metrics. change (empty (r0 :: df)) with false. cbv iota.
  cbn [get String.eqb Ascii.eqb Bool.eqb].
  rewrite Ma, Ms.
  repeat split; auto.
  - apply in_map_iff in Ia. destruct Ia as (r' & E & Hr'). now exists r'.
  - apply in_map_iff in Is. destruct Is as (r' & E & Hr'). now exists r'.
Qed.

Lemma aggregate_metrics_extremes_witness :
  exists max_s,
    get (aggregate_metrics (transform_states Samples.edge_rows))
      "max_speed_knots" = Some (Number (Some max_s)) /\
    100 * 1.94384 <= max_s.
Proof.
  destruct (aggregate_metrics_extremes (transform_states Samples.edge_rows)
              (enrich (hd (Samples.raw_row "" false None None None 0)
                         Samples.edge_rows))
              ((1000000000 # 328084) * 3.28084) (100 * 1.94384))
    as (_ & mx & _ & Hm & _ & _ & Hle & _).
  - left. reflexivity.
  - reflexivity.
  - reflexivity.
  - exists mx. split; [exact Hm | exact Hle].
Defined.

Lemma speed_knots_floor (raw : DataFrame) (r : Row) :
  In r (transform_states raw) -> exists s, speed_knots r = Some s /\ 1 <= s.
Proof.
  intros Hr. apply in_transform_states in Hr.
  destruct Hr as (r0 & _ & Hk & ->).
  unfold keep in Hk. repeat (apply andb_prop in Hk; destruct Hk as [? Hk]).
  destruct (velocity r0) as [v|] eqn:Ev; [|discriminate].
  exists (if Qle_bool 1 (v * 1.94384) then v * 1.94384 else 1). split.
  - unfold enrich. simpl. rewrite Ev. reflexivity.
  - destruct (Qle_bool 1 (v * 1.94384)) eqn:E.
    + now apply Qle_bool_iff.
    + apply Qle_refl.
Qed.

(** In the summary of a transformed frame that is not empty the mean
    and the maximum of the speed are numbers, both at least 1: every
    speed of the frame was clipped to at least 1. *)
Theorem aggregate_metrics_speed_floor (raw : DataFrame) :
  transform_states raw <> [] ->
  exists avg_s max_s,
    get (aggregate_metrics (transform_states raw)) "avg_speed_knots"
    = Some (Number (Some avg_s)) /\
    get (aggregate_metrics (transform_states raw)) "max_speed_knots"
    = Some (Number (Some max_s)) /\
    1 <= avg_s /\ 1 <= max_s.
Proof.
  intros Hne.
  pose proof (speed_knots_floor raw) as Hsp.
  destruct (transform_states raw) as [|r df] eqn:Ed; [congruence|].
  destruct (Hsp r (or_introl eq_refl)) as (s & Hs & Hs1).
  assert (Hin : In (Some s) (map speed_knots (r :: df))).
  { rewrite <- Hs. apply in_map. now left. }
  destruct (mean_at_least_one (map speed_knots (r :: df)) s Hin)
    as (avg_s & Es & Ls).
  { intros x Hx. apply in_map_iff in Hx.
    destruct Hx as (r' & E & Hr'). destruct (Hsp r' Hr') as (s' & Hs' & H1).
    congruence. }
  destruct (max_bounds (map speed_knots (r :: df)) s Hin)
    as (max_s & Ms & Bs & _).
  exists avg_s, max_s.
  unfold aggregate_metrics. change (empty (r :: df)) with false. cbv iota.
  cbn [get String.eqb Ascii.eqb Bool.eqb].
  rewrite Es, Ms. repeat split; auto.
  apply Qle_trans with s; assumption.
Qed.

Lemma aggregate_metrics_speed_floor_witness :
  exists avg_s,
    get (aggregate_metrics (transform_states Samples.three_rows))
      "avg_speed_knots" = Some (Number (Some avg_s)) /\
    1 <= avg_s.
Proof.
  destruct (aggregate_metrics_speed_floor Samples.three_rows)
    as (avg & mx & Ha & _ & H1 & _).
  - discriminate.
  - exists avg. auto.
Defined.

End PipelineMore.

(* ===================================================================== *)
(** * Further properties of the client                                   *)
(* ===================================================================== *)

Section ClientMore.
Import Py OpenSkyClient.

(** ** Failed authentication *)

Ltac run_token_request Hg :=
  unfold _get_access_token, bind, get_self, time_time, ret, lift,
    requests_post, send, set_access_token, set_token_expires_at;
  unfold token_request in *;
  destruct (has_cached_token _); simpl in *; rewrite ?Hg; simpl.

(** When the token request fails before a token is read from the reply
    (the exchange fails, the status is an error, the body is not JSON, or
    it holds no [access_token]), [_get_access_token] raises that failure
    after one request and leaves the client as it was: what was cached
    stays cached. *)
Theorem get_access_token_failure (self : t) (w : World) (e : exn) :
  (has_cached_token self && before_expiry self (clock w (ticks w)))%bool
  = false ->
  (peer w (List.length (sent w)) (token_request self) = Raise e \/
   exists resp,
     peer w (List.length (sent w)) (token_request self) = Ok resp /\
     (raise_for_status resp = Raise e \/
      raise_for_status resp = Ok tt /\
      (response_json resp = Raise e \/
       exists token_data,
         response_json resp = Ok token_data /\
         subscript token_data "access_token" = Raise e))) ->
  exists w',
    _get_access_token self w = (Raise e, self, w') /\
    sent w' = (sent w ++ [token_request self])%list.
Proof.
  intros Hg H.
  destruct H as [Hp|(resp & Hp & [Hs|(Hs & [Hj|(td & Hj & Ht)])])];
    run_token_request Hg;
    rewrite Hp; simpl; rewrite ?Hs; simpl; rewrite ?Hj; simpl;
    rewrite ?Ht; simpl; eexists; split; reflexivity.
Qed.

Lemma get_access_token_failure_witness :
  exists w',
    _get_access_token Samples.client
      (Samples.world 1000 [Ok Samples.unauthorized_reply])
    = (Raise (HTTPError 401), Samples.client, w') /\
    sent w' = [token_request Samples.client].
Proof.
  apply (get_access_token_failure Samples.client
           (Samples.world 1000 [Ok Samples.unauthorized_reply])
           (HTTPError 401) eq_refl).
  right. exists Samples.unauthorized_reply. split; [reflexivity|].
  left. reflexivity.
Defined.

(** When the reply holds a token and an [expires_in] that is not a
    number, [_get_access_token] raises [TypeError] after it has replaced
    the stored token: the new token is kept with the old expiry
    instant. *)
Theorem get_access_token_bad_lifetime (self : t) (w : World)
    (resp : Response) (token_data token expires_in_value : json) :
  (has_cached_token self && before_expiry self (clock w (ticks w)))%bool
  = false ->
  peer w (List.length (sent w)) (token_request self) = Ok resp ->
  raise_for_status resp = Ok tt ->
  response_json resp = Ok token_data ->
  subscript token_data "access_token" = Ok token ->
  dict_get token_data "expires_in" (JNum 1800) = Ok expires_in_value ->
  number expires_in_value = Raise TypeError ->
  exists self' w',
    _get_access_token self w = (Raise TypeError, self', w') /\
    access_token self' = token /\
    token_expires_at self' = token_expires_at self.
Proof.
  intros Hg Hp Hs Hj Ht Hv Hn.
  run_token_request Hg;
    rewrite Hp; simpl; rewrite Hs; simpl; rewrite Hj; simpl;
    rewrite Ht; simpl; rewrite Hv; simpl; rewrite Hn;
    do 2 eexists; split; try reflexivity; split; reflexivity.
Qed.

Lemma get_access_token_bad_lifetime_witness :
  exists self' w',
    _get_access_token Samples.cached_client
      (Samples.world 3000
         [Ok (mkResponse 200 []
                (Some (JObj [("access_token", JStr "token-2");
                             ("expires_in", JStr "1800")])))])
    = (Raise TypeError, self', w') /\
    access_token self' = JStr "token-2" /\
    token_expires_at self' = Some 2500.
Proof.
  apply (get_access_token_bad_lifetime Samples.cached_client
           (Samples.world 3000
              [Ok (mkResponse 200 []
                     (Some (JObj [("access_token", JStr "token-2");
                                  ("expires_in", JStr "1800")])))])
           _ _ (JStr "token-2") (JStr "1800")
           eq_refl eq_refl eq_refl eq_refl eq_refl eq_refl eq_refl).
Defined.

(** ** Data requests *)

Lemma get_access_token_stored (self : t) (w : World) (token : json)
    (self1 : t) (w1 : World) :
  _get_access_token self w = (Ok token, self1, w1) ->
  access_token self1 = token /\ api_base self1 = api_base self.
Proof.
  destruct (has_cached_token self && before_expiry self (clock w (ticks w)))%bool
    eqn:Hg.
  - apply andb_prop in Hg. destruct Hg as [Hc Hb].
    rewrite (get_access_token_fresh self w Hc Hb).
    intros H. injection H as <- <- _. auto.
  - unfold _get_access_token, bind, get_self, time_time, ret, lift,
      requests_post, send, set_access_token, set_token_expires_at.
    destruct (has_cached_token self); simpl in *; rewrite ?Hg; simpl;
      match goal with
      | |- context [peer w ?n ?r] => destruct (peer w n r) as [resp|]
      end; try discriminate;
      destruct (raise_for_status resp); try discriminate;
      destruct (response_json resp) as [td|]; try discriminate;
      destruct (subscript td "access_token"); try discriminate;
      destruct (dict_get td "expires_in" (JNum 1800)) as [v|];
      try discriminate;
      destruct (number v); try discriminate;
      intros H; injection H as <- <- _; auto.
Qed.

(** Once the token is at hand, [_make_request] sends one request: a GET
    to the base address followed by the endpoint, with the given
    parameters and with the token that the client now stores.  A failed
    exchange is raised as it is; a reply with an error status other
    than 429 raises [HTTPError] with that status; any other reply gives
    its decoded body, or [JSONDecodeError] when the body is not JSON. *)
Theorem make_request_outcome
    (endpoint : string) (params : list (string * json))
    (self : t) (w : World) (token : json) (self1 : t) (w1 : World) :
  _get_access_token self w = (Ok token, self1, w1) ->
  let request :=
    mkRequest GET (api_base self ++ endpoint) (Some (access_token self1))
      [] params in
  let w2 :=
    mkWorld (clock w1) (ticks w1) (peer w1) (sent w1 ++ [request])%list in
  (forall e,
     peer w1 (List.length (sent w1)) request = Raise e ->
     _make_request endpoint params self w = (Raise e, self1, w2)) /\
  (forall resp,
     peer w1 (List.length (sent w1)) request = Ok resp ->
     status_code resp <> 429%Z ->
     ((400 <= status_code resp < 600)%Z ->
      _make_request endpoint params self w
      = (Raise (HTTPError (status_code resp)), self1, w2)) /\
     (~ (400 <= status_code resp < 600)%Z ->
      (forall j, body resp = Some j ->
         _make_request endpoint params self w = (Ok j, self1, w2)) /\
      (body resp = None ->
       _make_request endpoint params self w
       = (Raise JSONDecodeError, self1, w2)))).
Proof.
  intros Ha request w2.
  destruct (get_access_token_stored self w token self1 w1 Ha) as [Ht Hb].
  assert (Hreq : data_request self1 token endpoint params = request).
  { unfold data_request, request. now rewrite Ht, Hb. }
  split.
  - intros e Hp.
    unfold _make_request, bind, get_self, requests_get, send, lift, raise.
    rewrite Ha. fold (data_request self1 token endpoint params).
    rewrite Hreq, Hp. reflexivity.
  - intros resp Hp H429.
    assert (Run : _make_request endpoint params self w
                  = (match raise_for_status resp with
                     | Ok _ => response_json resp
                     | Raise e => Raise e
                     end, self1, w2)).
    { unfold _make_request, bind, get_self, requests_get, send, lift, raise.
      rewrite Ha. fold (data_request self1 token endpoint params).
      rewrite Hreq, Hp.
      destruct (Z.eqb_spec (status_code resp) 429); [contradiction|].
      destruct (raise_for_status resp); reflexivity. }
    rewrite Run. unfold raise_for_status, response_json. split.
    + intros [H1 H2].
      apply Z.leb_le in H1. apply Z.ltb_lt in H2. now rewrite H1, H2.
    + intros Hok.
      assert (E : (Z.leb 400 (status_code resp)
                   && Z.ltb (status_code resp) 600)%bool = false).
      { apply andb_false_iff.
        destruct (Z.leb_spec 400 (status_code resp)); [|now left].
        destruct (Z.ltb_spec (status_code resp) 600); [|now right].
        exfalso. apply Hok. lia. }
      rewrite E. split; [intros j Hj | intros Hj]; now rewrite Hj.
Qed.

Lemma make_request_outcome_witness :
  fst (fst (_make_request "/states/all" [] Samples.cached_client
              (Samples.world 1000 [Ok (Samples.states_reply [])])))
  = Ok (JObj [("time", JNum 1700000000); ("states", JArr [])]).
Proof.
  destruct (make_request_outcome "/states/all" [] Samples.cached_client
              (Samples.world 1000 [Ok (Samples.states_reply [])])
              (JStr "token-1") Samples.cached_client
              (mkWorld (Samples.clock_from 1000) 1
                 (Samples.script [Ok (Samples.states_reply [])]) [])
              eq_refl)
    as (_ & Hreply).
  destruct (Hreply (Samples.states_reply []) eq_refl) as (_ & Hok).
  - discriminate.
  - destruct Hok as (Hbody & _).
    + simpl. lia.
    + rewrite (Hbody _ eq_refl). reflexivity.
Defined.

(** Without a token there is no data request: when authentication
    raises, [_make_request] raises the same exception and the only
    request that may have been sent is the token request. *)
Theorem make_request_unauthenticated
    (endpoint : string) (params : list (string * json))
    (self : t) (w : World) (e : exn) (self1 : t) (w1 : World) :
  _get_access_token self w = (Raise e, self1, w1) ->
  _make_request endpoint params self w = (Raise e, self1, w1) /\
  (sent w1 = sent w \/ sent w1 = (sent w ++ [token_request self])%list) /\
  (forall request, In request (sent w1) ->
     In request (sent w) \/ req_method request = POST).
Proof.
  intros Ha. split; [|split].
  - unfold _make_request, bind. now rewrite Ha.
  - destruct (get_access_token_world self w)
      as (r & s' & w' & Hr & _ & _ & Hsent).
    rewrite Ha in Hr. injection Hr as _ _ <-. exact Hsent.
  - destruct (get_access_token_world self w)
      as (r & s' & w' & Hr & _ & _ & Hsent).
    rewrite Ha in Hr. injection Hr as _ _ <-.
    intros request Hin. destruct Hsent as [E|E]; rewrite E in Hin;
      [now left|].
    apply in_app_or in Hin. destruct Hin as [Hin|[<-|[]]]; [now left|].
    right. reflexivity.
Qed.

Lemma make_request_unauthenticated_witness :
  _make_request "/states/all" [] Samples.client
    (Samples.world 1000 [Ok Samples.unauthorized_reply])
  = (Raise (HTTPError 401), Samples.client,
     mkWorld (Samples.clock_from 1000) 0
       (Samples.script [Ok Samples.unauthorized_reply])
       [token_request Samples.client]).
Proof.
  apply (make_request_unauthenticated "/states/all" [] Samples.client
           (Samples.world 1000 [Ok Samples.unauthorized_reply])).
  reflexivity.
Defined.

(** Two data requests in a row share one token.  When the first needs
    a token and gets one that is still valid at the clock reading of the
    second, the two calls send three requests in all: the token request
    and the two data requests, both with that token. *)
Theorem make_request_shares_token
    (endpoint1 endpoint2 : string) (params1 params2 : list (string * json))
    (self : t) (w : World) (resp0 resp1 : Response)
    (token_data token data1 : json) (expires_in : Q) :
  (has_cached_token self && before_expiry self (clock w (ticks w)))%bool
  = false ->
  let n := if has_cached_token self then S (ticks w) else ticks w in
  let expiry := clock w n + expires_in - 300 in
  let get1 :=
    mkRequest GET (api_base self ++ endpoint1) (Some token) [] params1 in
  let get2 :=
    mkRequest GET (api_base self ++ endpoint2) (Some token) [] params2 in
  peer w (List.length (sent w)) (token_request self) = Ok resp0 ->
  raise_for_status resp0 = Ok tt ->
  response_json resp0 = Ok token_data ->
  subscript token_data "access_token" = Ok token ->
  dict_get token_data "expires_in" (JNum 1800) = Ok (JNum expires_in) ->
  truthy token = true ->
  ~ expiry == 0 ->
  clock w (S n) < expiry ->
  peer w (S (List.length (sent w))) get1 = Ok resp1 ->
  status_code resp1 <> 429%Z ->
  raise_for_status resp1 = Ok tt ->
  response_json resp1 = Ok data1 ->
  exists r self2 w2,
    (_ <- _make_request endpoint1 params1 ;;
     _make_request endpoint2 params2) self w = (r, self2, w2) /\
    sent w2 = (sent w ++ [token_request self; get1; get2])%list /\
    access_token self2 = token /\
    token_expires_at self2 = Some expiry.
Proof.
  intros Hg n expiry get1 get2 Hp0 Hs0 Hj0 Ht Hv Htruthy Hnz Hfresh
    Hp1 H429 Hs1 Hj1.
  pose proof (get_access_token_stale self w Hg resp0 token_data token
                (JNum expires_in) expires_in Hp0 Hs0 Hj0 Ht Hv eq_refl)
    as Hauth.
  fold n in Hauth. fold expiry in Hauth.
  set (self1 := mk (client_id self) (client_secret self) (auth_url self)
                  (api_base self) token (Some expiry)) in *.
  set (w1 := mkWorld (clock w) (S n) (peer w)
               (sent w ++ [token_request self])%list) in *.
  assert (Hlen : List.length (sent w1) = S (List.length (sent w))).
  { unfold w1. simpl. rewrite length_app. simpl. lia. }
  set (wa := mkWorld (clock w) (S n) (peer w) (sent w1 ++ [get1])%list).
  assert (First : _make_request endpoint1 params1 self w
                  = (Ok data1, self1, wa)).
  { unfold _make_request, bind, get_self, requests_get, send, lift, raise.
    rewrite Hauth. change (api_base self1) with (api_base self).
    fold get1. rewrite Hlen. change (peer w1) with (peer w).
    rewrite Hp1.
    destruct (Z.eqb_spec (status_code resp1) 429); [contradiction|].
    rewrite Hs1, Hj1. reflexivity. }
  assert (Hcached : has_cached_token self1 = true).
  { unfold has_cached_token, self1. simpl. rewrite Htruthy. simpl.
    destruct (Qeq_bool expiry 0) eqn:E; [|reflexivity].
    apply Qeq_bool_iff in E. contradiction. }
  assert (Hbefore : before_expiry self1 (clock wa (ticks wa)) = true).
  { apply (before_expiry_iff self1 _ expiry eq_refl). exact Hfresh. }
  pose proof (get_access_token_fresh self1 wa Hcached Hbefore) as Hagain.
  unfold bind at 1. rewrite First.
  unfold _make_request, bind, get_self, requests_get, send, lift, raise.
  rewrite Hagain. change (api_base self1) with (api_base self).
  change (access_token self1) with token. fold get2. cbn [sent peer ticks clock].
  assert (Hsent : (sent wa ++ [get2])%list
                  = (sent w ++ [token_request self; get1; get2])%list).
  { unfold wa, w1. cbn [sent]. now rewrite <- !app_assoc. }
  destruct (peer wa (List.length (sent wa)) get2) as [resp2|e2].
  - destruct (Z.eqb (status_code resp2) 429).
    + destruct (retry_after_of resp2);
        do 3 eexists; (split; [reflexivity|]); cbn [sent]; auto.
    + destruct (raise_for_status resp2);
        do 3 eexists; (split; [reflexivity|]); cbn [sent]; auto.
  - do 3 eexists. split; [reflexivity|]. cbn [sent]. auto.
Qed.

Lemma make_request_shares_token_witness :
  exists r self2 w2,
    (_ <- _make_request "/states/all" [] ;;
     _make_request "/flights/all" [])
      Samples.client
      (Samples.world 1000
         [Ok Samples.token_reply; Ok (Samples.states_reply []);
          Ok (Samples.states_reply [])])
    = (r, self2, w2) /\
    List.length (sent w2) = 3%nat /\
    access_token self2 = JStr "token-2".
Proof.
  destruct (make_request_shares_token "/states/all" "/flights/all" [] []
              Samples.client
              (Samples.world 1000
                 [Ok Samples.token_reply; Ok (Samples.states_reply []);
                  Ok (Samples.states_reply [])])
              Samples.token_reply (Samples.states_reply [])
              (JObj [("access_token", JStr "token-2");
                     ("expires_in", JNum 1800)])
              (JStr "token-2")
              (JObj [("time", JNum 1700000000); ("states", JArr [])])
              1800 eq_refl eq_refl eq_refl eq_refl eq_refl eq_refl eq_refl)
    as (r & self2 & w2 & Hrun & Hsent & Htoken & _).
  - intros H. vm_compute in H. discriminate H.
  - reflexivity.
  - reflexivity.
  - discriminate.
  - reflexivity.
  - reflexivity.
  - exists r, self2, w2. split; [exact Hrun|]. split; [|exact Htoken].
    rewrite Hsent. reflexivity.
Defined.

(** ** The frame of state vectors *)

Lemma get_states_run
    (time_secs : option Z) (icao24 : option (list string))
    (bbox : option (list (string * Q))) (extended : Z)
    (self : t) (w : World) :
  get_states time_secs icao24 bbox extended self w
  = match _make_request "/states/all"
            (states_params time_secs icao24 bbox extended) self w with
    | (Ok data, self1, w1) => (Reading.frame_of_reply data, self1, w1)
    | (Raise e, self1, w1) => (Raise e, self1, w1)
    end.
Proof.
  unfold get_states. unfold bind at 1.
  destruct (_make_request "/states/all"
              (states_params time_secs icao24 bbox extended) self w)
    as [[[data|e] self1] w1]; [|reflexivity].
  unfold Reading.frame_of_reply, bind, lift, ret.
  destruct (dict_get data "states" JNull) as [states|]; [|reflexivity].
  destruct (negb (truthy states)); [reflexivity|].
  destruct (as_rows states) as [table|]; [|reflexivity].
  cbv zeta.
  destruct (new_frame table _) as [df|]; [|reflexivity].
  destruct (subscript data "time") as [tm|]; [|reflexivity].
  destruct (to_datetime tm) as [dt|]; [|reflexivity].
  destruct (getitem _ "callsign") as [cs|]; [|reflexivity].
  destruct (str_strip cs) as [cs'|]; [|reflexivity].
  destruct (getitem _ "on_ground") as [og|]; reflexivity.
Qed.

Lemma frame_of_reply_rows
    (o : list (string * json)) (states tm dt : json)
    (first : list json) (rest : list (list json))
    (n : nat) (labels : list string) :
  lookup o "states" = Some states ->
  as_rows states = Ok (first :: rest) ->
  lookup o "time" = Some tm ->
  to_datetime tm = Ok dt ->
  Forall (fun row => nth 1 row JNull = JNull \/
                     exists s, nth 1 row JNull = JStr s) (first :: rest) ->
  List.length first = n ->
  Forall (fun row => (List.length row <= n)%nat) rest ->
  (9 <= n)%nat ->
  firstn n (if Nat.eqb n 18
            then (state_columns ++ ["category"])%list
            else state_columns) = labels ->
  List.length labels = n ->
  index_of "request_time" labels = None ->
  index_of "request_datetime" (labels ++ ["request_time"]) = None ->
  index_of "callsign" ((labels ++ ["request_time"]) ++ ["request_datetime"])
  = Some 1%nat ->
  index_of "on_ground" ((labels ++ ["request_time"]) ++ ["request_datetime"])
  = Some 8%nat ->
  let on_ground :=
    astype_bool (map (fun row => nth 8 row JNull) (first :: rest)) in
  exists numeric,
    on_ground
    = map (fun row => bool_cell numeric (nth 8 row JNull)) (first :: rest) /\
    Reading.frame_of_reply (JObj o)
    = Ok (let df :=
            mkFrame
              ((labels ++ ["request_time"]) ++ ["request_datetime"])%list
              (map (fun row =>
                      let r := ((pad n row ++ [tm]) ++ [dt])%list in
                      let r := replace_nth 1 (strip_cell (nth 1 row JNull)) r in
                      replace_nth 8 (bool_cell numeric (nth 8 row JNull)) r)
                 (first :: rest)) in
          match index_of "category" (columns df) with
          | Some _ => df
          | None => setitem_scalar df "category" (JNum 0)
          end).
Proof.
  intros Hst Hrows Htm Hdt Hcs Hlen Hrest Hn Hlabels Hwidth I1 I2 I3 I4.
  pose proof (as_rows_nonempty _ _ _ Hrows) as Htruthy.
  assert (Hall : Forall (fun row => (List.length row <= n)%nat)
                   (first :: rest)).
  { constructor; [lia | exact Hrest]. }
  rewrite Forall_forall in Hall.
  assert (Hcell : forall i, (i < n)%nat ->
            map (fun row => nth i ((pad n row ++ [tm]) ++ [dt])%list JNull)
              (first :: rest)
            = map (fun row => nth i row JNull) (first :: rest)).
  { intros i Hi. apply map_ext_in. intros row Hrow.
    apply nth_extended; auto. }
  cbv zeta. unfold astype_bool at 1. cbv zeta.
  eexists. split; [rewrite map_map; reflexivity|].
  unfold Reading.frame_of_reply. cbv zeta.
  unfold dict_get. rewrite Hst. rewrite Htruthy. cbn [negb]. rewrite Hrows.
  cbn [hd]. rewrite Hlen, Hlabels.
  assert (Hnew : new_frame (first :: rest) labels
                 = Ok (mkFrame labels (map (pad n) (first :: rest)))).
  { unfold new_frame. rewrite (width_of_table n first rest Hlen Hrest).
    now rewrite Hwidth, Nat.eqb_refl. }
  rewrite Hnew. unfold subscript. rewrite Htm, Hdt.
  rewrite (setitem_scalar_new labels) by exact I1.
  rewrite (setitem_scalar_new (labels ++ ["request_time"])) by exact I2.
  rewrite (getitem_at _ _ _ "callsign" 1) by exact I3.
  rewrite (Hcell 1%nat) by lia.
  rewrite str_strip_strings.
  2:{ apply Forall_forall. intros c Hc. apply in_map_iff in Hc.
      destruct Hc as (row & <- & Hrow).
      rewrite Forall_forall in Hcs. now apply Hcs. }
  rewrite map_map.
  rewrite (setitem_existing _ _ _ _ "callsign" 1) by exact I3.
  rewrite (getitem_at _ _ _ "on_ground" 8) by exact I4.
  assert (Hog : map (fun row =>
                       nth 8 (replace_nth 1 (strip_cell (nth 1 row JNull))
                                ((pad n row ++ [tm]) ++ [dt])%list) JNull)
                  (first :: rest)
                = map (fun row => nth 8 row JNull) (first :: rest)).
  { apply map_ext_in. intros row Hrow.
    rewrite nth_replace_nth_other by lia. apply nth_extended; auto. }
  rewrite Hog. unfold astype_bool. cbv zeta. rewrite map_map.
  rewrite (setitem_existing _ _ _ _ "on_ground" 8) by exact I4.
  reflexivity.
Qed.

Lemma bound_labels (n : nat) :
  (9 <= n <= 18)%nat ->
  let labels :=
    firstn n (if Nat.eqb n 18
              then (state_columns ++ ["category"])%list
              else state_columns) in
  List.length labels = n /\
  index_of "request_time" labels = None /\
  index_of "request_datetime" (labels ++ ["request_time"]) = None /\
  index_of "callsign" ((labels ++ ["request_time"]) ++ ["request_datetime"])
  = Some 1%nat /\
  index_of "on_ground" ((labels ++ ["request_time"]) ++ ["request_datetime"])
  = Some 8%nat /\
  index_of "category" ((labels ++ ["request_time"]) ++ ["request_datetime"])
  = (if Nat.eqb n 18 then Some 17%nat else None) /\
  index_of "request_time"
    ((labels ++ ["request_time"]) ++ ["request_datetime"]) = Some n /\
  index_of "request_datetime"
    ((labels ++ ["request_time"]) ++ ["request_datetime"]) = Some (S n) /\
  labels = (if Nat.eqb n 18
            then (state_columns ++ ["category"])%list
            else firstn n state_columns).
Proof.
  intros Hn.
  assert (H : (n = 9 \/ n = 10 \/ n = 11 \/ n = 12 \/ n = 13 \/ n = 14
               \/ n = 15 \/ n = 16 \/ n = 17 \/ n = 18)%nat) by lia.
  repeat (destruct H as [->|H]; [repeat split|]). subst n. repeat split.
Qed.

(** The frame built from a well-formed reply whose first row has [n]
    cells, [n] from 9 to 18, and whose other rows are no longer. *)
Lemma frame_of_reply_final
    (o : list (string * json)) (states tm dt : json)
    (first : list json) (rest : list (list json)) (n : nat) :
  lookup o "states" = Some states ->
  as_rows states = Ok (first :: rest) ->
  lookup o "time" = Some tm ->
  to_datetime tm = Ok dt ->
  Forall (fun row => nth 1 row JNull = JNull \/
                     exists s, nth 1 row JNull = JStr s) (first :: rest) ->
  List.length first = n ->
  Forall (fun row => (List.length row <= n)%nat) rest ->
  (9 <= n <= 18)%nat ->
  exists numeric,
    astype_bool (map (fun row => nth 8 row JNull) (first :: rest))
    = map (fun row => bool_cell numeric (nth 8 row JNull)) (first :: rest) /\
    Reading.frame_of_reply (JObj o)
    = Ok (mkFrame
            (if Nat.eqb n 18
             then (state_columns
                   ++ ["category"; "request_time"; "request_datetime"])%list
             else (firstn n state_columns
                   ++ ["request_time"; "request_datetime"; "category"])%list)
            (map (fun row =>
                    let r := ((pad n row ++ [tm]) ++ [dt])%list in
                    let r := replace_nth 1 (strip_cell (nth 1 row JNull)) r in
                    let r :=
                      replace_nth 8 (bool_cell numeric (nth 8 row JNull)) r in
                    if Nat.eqb n 18 then r else (r ++ [JNum 0])%list)
               (first :: rest))).
Proof.
  intros Hst Hrows Htm Hdt Hcs Hlen Hrest Hn.
  destruct (bound_labels n Hn)
    as (Hwidth & I1 & I2 & I3 & I4 & I5 & _ & _ & Hlab).
  destruct (frame_of_reply_rows o states tm dt first rest n _
              Hst Hrows Htm Hdt Hcs Hlen Hrest ltac:(lia) eq_refl
              Hwidth I1 I2 I3 I4)
    as (numeric & Hog & Hrun).
  exists numeric. split; [exact Hog|]. rewrite Hrun. cbv zeta.
  cbn [columns]. rewrite I5.
  destruct (Nat.eqb n 18) eqn:E.
  - rewrite Hlab, <- !app_assoc. reflexivity.
  - rewrite (setitem_scalar_new _ _ _ "category") by exact I5.
    rewrite <- !app_assoc. reflexivity.
Qed.

Lemma nth_replace_nth_same {A} (i : nat) (v d : A) (l : list A) :
  (i < List.length l)%nat -> nth i (replace_nth i v l) d = v.
Proof.
  revert i. induction l as [|x l IH]; intros [|i] H; simpl in *;
    try lia; [reflexivity|]. apply IH. lia.
Qed.

Lemma final_row_cells (n : nat) (row : list json) (tm dt c b : json)
    (tail : list json) :
  (List.length row <= n)%nat -> (9 <= n)%nat ->
  let r :=
    (replace_nth 8 b (replace_nth 1 c ((pad n row ++ [tm]) ++ [dt]))
     ++ tail)%list in
  List.length r = (n + 2 + List.length tail)%nat /\
  nth 1 r JNull = c /\
  nth 8 r JNull = b /\
  nth n r JNull = tm /\
  nth (S n) r JNull = dt /\
  (forall i, (i < n)%nat -> i <> 1%nat -> i <> 8%nat ->
             nth i r JNull = nth i row JNull) /\
  (forall x, tail = [x] -> nth (n + 2) r JNull = x).
Proof.
  intros Hrow Hn. cbv zeta.
  pose proof (length_pad n row Hrow) as Hp.
  assert (Hl2 : List.length ((pad n row ++ [tm]) ++ [dt])%list = (n + 2)%nat).
  { rewrite !length_app, Hp. simpl. lia. }
  assert (Hl4 : List.length
                  (replace_nth 8 b
                     (replace_nth 1 c ((pad n row ++ [tm]) ++ [dt])%list))
                = (n + 2)%nat).
  { now rewrite !length_replace_nth. }
  repeat split.
  - now rewrite length_app, Hl4.
  - rewrite app_nth1 by lia. rewrite nth_replace_nth_other by lia.
    apply nth_replace_nth_same. lia.
  - rewrite app_nth1 by lia. apply nth_replace_nth_same.
    rewrite length_replace_nth. lia.
  - rewrite app_nth1 by lia. rewrite !nth_replace_nth_other by lia.
    rewrite app_nth1 by (rewrite length_app, Hp; simpl; lia).
    rewrite app_nth2 by lia. rewrite Hp, Nat.sub_diag. reflexivity.
  - rewrite app_nth1 by lia. rewrite !nth_replace_nth_other by lia.
    rewrite app_nth2 by (rewrite length_app, Hp; simpl; lia).
    rewrite length_app, Hp. cbn [List.length].
    replace (S n - (n + 1))%nat with O by lia. reflexivity.
  - intros i Hi H1 H8. rewrite app_nth1 by lia.
    rewrite !nth_replace_nth_other by lia. now apply nth_extended.
  - intros x ->. rewrite app_nth2 by lia. rewrite Hl4, Nat.sub_diag.
    reflexivity.
Qed.

Lemma final_labels (n : nat) :
  (9 <= n <= 18)%nat ->
  let labels :=
    if Nat.eqb n 18
    then (state_columns
          ++ ["category"; "request_time"; "request_datetime"])%list
    else (firstn n state_columns
          ++ ["request_time"; "request_datetime"; "category"])%list in
  List.length labels = (if Nat.eqb n 18 then 20 else n + 3)%nat /\
  index_of "callsign" labels = Some 1%nat /\
  index_of "on_ground" labels = Some 8%nat /\
  index_of "request_time" labels
  = Some (if Nat.eqb n 18 then 18 else n)%nat /\
  index_of "request_datetime" labels
  = Some (if Nat.eqb n 18 then 19 else S n)%nat /\
  index_of "category" labels
  = Some (if Nat.eqb n 18 then 17 else n + 2)%nat /\
  (forall i label, nth_error state_columns i = Some label -> (i < n)%nat ->
                   index_of label labels = Some i).
Proof.
  intros Hn.
  assert (H : (n = 9 \/ n = 10 \/ n = 11 \/ n = 12 \/ n = 13 \/ n = 14
               \/ n = 15 \/ n = 16 \/ n = 17 \/ n = 18)%nat) by lia.
  assert (Cols : forall i label, nth_error state_columns i = Some label ->
            ((i = 0 /\ label = "icao24") \/ (i = 1 /\ label = "callsign")
            \/ (i = 2 /\ label = "origin_country")
            \/ (i = 3 /\ label = "time_position")
            \/ (i = 4 /\ label = "last_contact")
            \/ (i = 5 /\ label = "longitude")
            \/ (i = 6 /\ label = "latitude")
            \/ (i = 7 /\ label = "baro_altitude")
            \/ (i = 8 /\ label = "on_ground")
            \/ (i = 9 /\ label = "velocity")
            \/ (i = 10 /\ label = "true_track")
            \/ (i = 11 /\ label = "vertical_rate")
            \/ (i = 12 /\ label = "sensors")
            \/ (i = 13 /\ label = "geo_altitude")
            \/ (i = 14 /\ label = "squawk")
            \/ (i = 15 /\ label = "spi")
            \/ (i = 16 /\ label = "position_source"))%nat).
  { intros i label Hl.
    do 17 (destruct i as [|i];
           [injection Hl as <-; intuition auto|]).
    destruct i; discriminate. }
  repeat (destruct H as [->|H];
          [repeat split;
           intros i label Hl Hi; apply Cols in Hl;
           repeat (destruct Hl as [[-> ->]|Hl]; [first [reflexivity | lia]|]);
           destruct Hl as [-> ->]; first [reflexivity | lia]|]).
  subst n. repeat split.
  intros i label Hl Hi; apply Cols in Hl;
    repeat (destruct Hl as [[-> ->]|Hl]; [reflexivity|]);
    destruct Hl as [-> ->]; reflexivity.
Qed.

(** For a reply that is a table of rows with a time stamp and with
    string or null call signs, whose first row has from 9 to 18 cells and
    whose other rows are no longer, [get_states] returns a frame with one
    record per row and as many cells in each record as there are
    columns: the labels bound to the row, then the two request columns,
    and [category] last when it is defaulted; 20 columns for rows of 17
    or 18 cells. *)
Theorem get_states_shape
    (time_secs : option Z) (icao24 : option (list string))
    (bbox : option (list (string * Q))) (extended : Z)
    (self : t) (w : World) (o : list (string * json)) (self1 : t) (w1 : World)
    (states tm dt : json) (first : list json) (rest : list (list json))
    (n : nat) :
  _make_request "/states/all" (states_params time_secs icao24 bbox extended)
    self w = (Ok (JObj o), self1, w1) ->
  lookup o "states" = Some states ->
  as_rows states = Ok (first :: rest) ->
  lookup o "time" = Some tm ->
  to_datetime tm = Ok dt ->
  Forall (fun row => nth 1 row JNull = JNull \/
                     exists s, nth 1 row JNull = JStr s) (first :: rest) ->
  List.length first = n ->
  Forall (fun row => (List.length row <= n)%nat) rest ->
  (9 <= n <= 18)%nat ->
  exists df,
    get_states time_secs icao24 bbox extended self w = (Ok df, self1, w1) /\
    columns df
    = (if Nat.eqb n 18
       then (state_columns
             ++ ["category"; "request_time"; "request_datetime"])%list
       else (firstn n state_columns
             ++ ["request_time"; "request_datetime"; "category"])%list) /\
    List.length (columns df) = (if Nat.eqb n 18 then 20 else n + 3)%nat /\
    List.length (rows df) = S (List.length rest) /\
    Forall (fun record => List.length record = List.length (columns df))
      (rows df).
Proof.
  intros Hreq Hst Hrows Htm Hdt Hcs Hlen Hrest Hn.
  destruct (frame_of_reply_final o states tm dt first rest n
              Hst Hrows Htm Hdt Hcs Hlen Hrest Hn) as (numeric & _ & Hrun).
  destruct (final_labels n Hn) as (Hlabels & _).
  eexists. split; [rewrite get_states_run, Hreq, Hrun; reflexivity|].
  cbn [columns rows]. split; [reflexivity|]. split; [exact Hlabels|].
  split; [now rewrite length_map|].
  apply Forall_forall. intros record Hrec. apply in_map_iff in Hrec.
  destruct Hrec as (row & <- & Hrow). rewrite Hlabels. cbv zeta.
  assert (Hr : (List.length row <= n)%nat).
  { destruct Hrow as [<-|Hrow]; [lia|].
    rewrite Forall_forall in Hrest. now apply Hrest. }
  destruct (Nat.eqb n 18) eqn:E.
  - apply Nat.eqb_eq in E.
    destruct (final_row_cells n row tm dt
                (strip_cell (nth 1 row JNull))
                (bool_cell numeric (nth 8 row JNull)) [] Hr ltac:(lia))
      as (Hl & _).
    rewrite app_nil_r in Hl. rewrite Hl. simpl. lia.
  - destruct (final_row_cells n row tm dt
                (strip_cell (nth 1 row JNull))
                (bool_cell numeric (nth 8 row JNull)) [JNum 0] Hr ltac:(lia))
      as (Hl & _).
    rewrite Hl. simpl. lia.
Qed.

(** For such a reply every record holds: the call sign of its row
    stripped of surrounding white space (null when the row has none), the
    truth value of the ninth cell for [on_ground], the time stamp of the
    reply in both request columns, [category] as the 18th cell of a row
    of the extended schema and 0 otherwise, and in every other column the
    cell of its row, null where the row is too short. *)
Theorem get_states_cells
    (time_secs : option Z) (icao24 : option (list string))
    (bbox : option (list (string * Q))) (extended : Z)
    (self : t) (w : World) (o : list (string * json)) (self1 : t) (w1 : World)
    (states tm dt : json) (first : list json) (rest : list (list json))
    (n : nat) :
  _make_request "/states/all" (states_params time_secs icao24 bbox extended)
    self w = (Ok (JObj o), self1, w1) ->
  lookup o "states" = Some states ->
  as_rows states = Ok (first :: rest) ->
  lookup o "time" = Some tm ->
  to_datetime tm = Ok dt ->
  Forall (fun row => nth 1 row JNull = JNull \/
                     exists s, nth 1 row JNull = JStr s) (first :: rest) ->
  List.length first = n ->
  Forall (fun row => (List.length row <= n)%nat) rest ->
  (9 <= n <= 18)%nat ->
  exists df,
    get_states time_secs icao24 bbox extended self w = (Ok df, self1, w1) /\
    getitem df "callsign"
    = Ok (map (fun row => strip_cell (nth 1 row JNull)) (first :: rest)) /\
    getitem df "on_ground"
    = Ok (astype_bool (map (fun row => nth 8 row JNull) (first :: rest))) /\
    getitem df "request_time" = Ok (map (fun _ => tm) (first :: rest)) /\
    getitem df "request_datetime" = Ok (map (fun _ => dt) (first :: rest)) /\
    getitem df "category"
    = Ok (map (fun row => if Nat.eqb n 18 then nth 17 row JNull else JNum 0)
            (first :: rest)) /\
    (forall i label,
       nth_error state_columns i = Some label ->
       (i < n)%nat -> i <> 1%nat -> i <> 8%nat ->
       getitem df label = Ok (map (fun row => nth i row JNull) (first :: rest))).
Proof.
  intros Hreq Hst Hrows Htm Hdt Hcs Hlen Hrest Hn.
  destruct (frame_of_reply_final o states tm dt first rest n
              Hst Hrows Htm Hdt Hcs Hlen Hrest Hn) as (numeric & Hog & Hrun).
  destruct (final_labels n Hn) as (_ & I1 & I8 & It & Id & Ic & Iother).
  eexists. split; [rewrite get_states_run, Hreq, Hrun; reflexivity|].
  assert (Hall : forall row, In row (first :: rest) ->
                             (List.length row <= n)%nat).
  { intros row [<-|Hrow]; [lia|].
    rewrite Forall_forall in Hrest. now apply Hrest. }
  assert (Cells : forall row, In row (first :: rest) ->
            let r :=
              (let r := ((pad n row ++ [tm]) ++ [dt])%list in
               let r := replace_nth 1 (strip_cell (nth 1 row JNull)) r in
               let r :=
                 replace_nth 8 (bool_cell numeric (nth 8 row JNull)) r in
               if Nat.eqb n 18 then r else (r ++ [JNum 0])%list) in
            nth 1 r JNull = strip_cell (nth 1 row JNull) /\
            nth 8 r JNull = bool_cell numeric (nth 8 row JNull) /\
            nth (if Nat.eqb n 18 then 18 else n)%nat r JNull = tm /\
            nth (if Nat.eqb n 18 then 19 else S n)%nat r JNull = dt /\
            nth (if Nat.eqb n 18 then 17 else n + 2)%nat r JNull
            = (if Nat.eqb n 18 then nth 17 row JNull else JNum 0) /\
            (forall i, (i < n)%nat -> i <> 1%nat -> i <> 8%nat ->
                       nth i r JNull = nth i row JNull)).
  { intros row Hrow. cbv zeta. specialize (Hall row Hrow).
    destruct (Nat.eqb n 18) eqn:E.
    - apply Nat.eqb_eq in E.
      destruct (final_row_cells n row tm dt
                  (strip_cell (nth 1 row JNull))
                  (bool_cell numeric (nth 8 row JNull)) [] Hall ltac:(lia))
        as (_ & H1 & H8 & Ht & Hd & Ho & _).
      rewrite app_nil_r in *.
      repeat split; auto; try (rewrite <- E at 1; assumption).
      apply Ho; lia.
    - destruct (final_row_cells n row tm dt
                  (strip_cell (nth 1 row JNull))
                  (bool_cell numeric (nth 8 row JNull)) [JNum 0] Hall
                  ltac:(lia))
        as (_ & H1 & H8 & Ht & Hd & Ho & Hc).
      repeat split; auto. }
  assert (Col : forall label i (f : list json -> json),
            index_of label
              (if Nat.eqb n 18
               then (state_columns
                     ++ ["category"; "request_time"; "request_datetime"])%list
               else (firstn n state_columns
                     ++ ["request_time"; "request_datetime"; "category"])%list)
            = Some i ->
            (forall row, In row (first :: rest) ->
               nth i
                 (let r := ((pad n row ++ [tm]) ++ [dt])%list in
                  let r := replace_nth 1 (strip_cell (nth 1 row JNull)) r in
                  let r :=
                    replace_nth 8 (bool_cell numeric (nth 8 row JNull)) r in
                  if Nat.eqb n 18 then r else (r ++ [JNum 0])%list) JNull
               = f row) ->
            getitem
              (mkFrame
                 (if Nat.eqb n 18
                  then (state_columns
                        ++ ["category"; "request_time";
                            "request_datetime"])%list
                  else (firstn n state_columns
                        ++ ["request_time"; "request_datetime";
                            "category"])%list)
                 (map (fun row =>
                         let r := ((pad n row ++ [tm]) ++ [dt])%list in
                         let r :=
                           replace_nth 1 (strip_cell (nth 1 row JNull)) r in
                         let r :=
                           replace_nth 8
                             (bool_cell numeric (nth 8 row JNull)) r in
                         if Nat.eqb n 18 then r else (r ++ [JNum 0])%list)
                    (first :: rest))) label
            = Ok (map f (first :: rest))).
  { intros label i f Hi Hf. rewrite (getitem_at _ _ _ label i Hi).
    f_equal. apply map_ext_in. exact Hf. }
  split; [|split; [|split; [|split; [|split]]]].
  - apply (Col "callsign" 1%nat); [exact I1|].
    intros row Hrow. apply (Cells row Hrow).
  - rewrite Hog. apply (Col "on_ground" 8%nat); [exact I8|].
    intros row Hrow. apply (Cells row Hrow).
  - apply (Col "request_time" _ (fun _ => tm) It).
    intros row Hrow. apply (Cells row Hrow).
  - apply (Col "request_datetime" _ (fun _ => dt) Id).
    intros row Hrow. apply (Cells row Hrow).
  - apply (Col "category" _
             (fun row => if Nat.eqb n 18 then nth 17 row JNull else JNum 0)
             Ic).
    intros row Hrow. apply (Cells row Hrow).
  - intros i label Hl Hi H1 H8.
    apply (Col label i (fun row => nth i row JNull) (Iother i label Hl Hi)).
    intros row Hrow. apply (Cells row Hrow); assumption.
Qed.

Lemma get_states_shape_witness :
  exists df self1 w1,
    get_states None None None 1 Samples.cached_client
      (Samples.world 1000
         [Ok (Samples.states_reply
                [Samples.state17 "UAL1  "; Samples.state17 "DLH2"])])
    = (Ok df, self1, w1) /\
    List.length (columns df) = 20%nat /\
    List.length (rows df) = 2%nat.
Proof.
  pose (table := [Samples.state17 "UAL1  "; Samples.state17 "DLH2"]).
  pose (w := Samples.world 1000 [Ok (Samples.states_reply table)]).
  destruct (get_states_shape None None None 1 Samples.cached_client w
              [("time", JNum 1700000000); ("states", JArr (map JArr table))]
              Samples.cached_client
              (mkWorld (clock w) 1 (peer w)
                 [data_request Samples.cached_client (JStr "token-1")
                    "/states/all" (states_params None None None 1)])
              (JArr (map JArr table)) (JNum 1700000000) (JNum 1700000000)
              (Samples.state17 "UAL1  ") [Samples.state17 "DLH2"] 17
              eq_refl eq_refl eq_refl eq_refl eq_refl)
    as (df & Hrun & _ & Hcols & Hrows & _).
  - constructor; [right; eexists; reflexivity|].
    constructor; [right; eexists; reflexivity|]. constructor.
  - reflexivity.
  - constructor; [apply Nat.le_refl | constructor].
  - lia.
  - exists df. do 2 eexists. split; [exact Hrun|]. split; assumption.
Defined.

Lemma get_states_cells_witness :
  exists df self1 w1,
    get_states None None None 1 Samples.cached_client
      (Samples.world 1000
         [Ok (Samples.states_reply
                [Samples.state17 "UAL1  "; Samples.state17 "DLH2"])])
    = (Ok df, self1, w1) /\
    getitem df "callsign" = Ok [JStr "UAL1"; JStr "DLH2"] /\
    getitem df "origin_country" = Ok [JStr "USA"; JStr "USA"].
Proof.
  pose (table := [Samples.state17 "UAL1  "; Samples.state17 "DLH2"]).
  pose (w := Samples.world 1000 [Ok (Samples.states_reply table)]).
  destruct (get_states_cells None None None 1 Samples.cached_client w
              [("time", JNum 1700000000); ("states", JArr (map JArr table))]
              Samples.cached_client
              (mkWorld (clock w) 1 (peer w)
                 [data_request Samples.cached_client (JStr "token-1")
                    "/states/all" (states_params None None None 1)])
              (JArr (map JArr table)) (JNum 1700000000) (JNum 1700000000)
              (Samples.state17 "UAL1  ") [Samples.state17 "DLH2"] 17
              eq_refl eq_refl eq_refl eq_refl eq_refl)
    as (df & Hrun & Hcall & _ & _ & _ & _ & Hother).
  - constructor; [right; eexists; reflexivity|].
    constructor; [right; eexists; reflexivity|]. constructor.
  - reflexivity.
  - constructor; [apply Nat.le_refl | constructor].
  - lia.
  - exists df. do 2 eexists. split; [exact Hrun|]. split; [exact Hcall|].
    apply (Hother 2%nat "origin_country" eq_refl); lia.
Defined.

(** When the reply is an object whose [states] is missing, null or
    empty, [get_states] returns the empty frame, whatever else the reply
    holds; when the reply is not an object it raises
    [AttributeError]. *)
Theorem get_states_no_states
    (time_secs : option Z) (icao24 : option (list string))
    (bbox : option (list (string * Q))) (extended : Z)
    (self : t) (w : World) (data : json) (self1 : t) (w1 : World) :
  _make_request "/states/all" (states_params time_secs icao24 bbox extended)
    self w = (Ok data, self1, w1) ->
  (forall o,
     data = JObj o ->
     lookup o "states" = None \/ lookup o "states" = Some JNull
     \/ lookup o "states" = Some (JArr []) ->
     get_states time_secs icao24 bbox extended self w
     = (Ok empty_frame, self1, w1)) /\
  ((forall o, data <> JObj o) ->
   get_states time_secs icao24 bbox extended self w
   = (Raise AttributeError, self1, w1)).
Proof.
  intros Hreq. rewrite get_states_run, Hreq. split.
  - intros o -> H. unfold Reading.frame_of_reply. cbv zeta. simpl.
    destruct H as [H|[H|H]]; rewrite H; reflexivity.
  - intros H. destruct data; try reflexivity. exfalso. now apply (H o).
Qed.

Lemma get_states_no_states_witness :
  fst (fst (get_states None None None 1 Samples.cached_client
              (Samples.world 1000 [Ok (Samples.states_reply [])])))
  = Ok empty_frame.
Proof.
  destruct (get_states_no_states None None None 1 Samples.cached_client
              (Samples.world 1000 [Ok (Samples.states_reply [])])
              (JObj [("time", JNum 1700000000); ("states", JArr [])])
              Samples.cached_client
              (mkWorld (Samples.clock_from 1000) 1
                 (Samples.script [Ok (Samples.states_reply [])])
                 [data_request Samples.cached_client (JStr "token-1")
                    "/states/all" (states_params None None None 1)])
              eq_refl)
    as (Hempty & _).
  rewrite (Hempty _ eq_refl); [reflexivity|]. right. right. reflexivity.
Defined.

(** ** Replies that do not fit *)

Lemma length_le_width (table : list (list json)) (row : list json) :
  In row table ->
  (List.length row <= fold_right Nat.max O (map (@List.length json) table))%nat.
Proof.
  induction table as [|r table IH]; simpl; [tauto|].
  intros [->|H]; [lia|]. specialize (IH H). lia.
Qed.

(** Rows are not cut to the schema: when some row is longer than the
    first one, or the first one has more than 18 cells, [get_states]
    raises [ValueError]. *)
Theorem get_states_ragged
    (time_secs : option Z) (icao24 : option (list string))
    (bbox : option (list (string * Q))) (extended : Z)
    (self : t) (w : World) (o : list (string * json)) (self1 : t) (w1 : World)
    (states : json) (first : list json) (rest : list (list json)) :
  _make_request "/states/all" (states_params time_secs icao24 bbox extended)
    self w = (Ok (JObj o), self1, w1) ->
  lookup o "states" = Some states ->
  as_rows states = Ok (first :: rest) ->
  (18 < List.length first)%nat \/
  Exists (fun row => (List.length first < List.length row)%nat) rest ->
  get_states time_secs icao24 bbox extended self w
  = (Raise ValueError, self1, w1).
Proof.
  intros Hreq Hst Hrows Hbad.
  pose proof (as_rows_nonempty _ _ _ Hrows) as Htruthy.
  rewrite get_states_run, Hreq. f_equal. f_equal.
  unfold Reading.frame_of_reply. cbv zeta.
  unfold dict_get. rewrite Hst, Htruthy. cbn [negb]. rewrite Hrows. cbn [hd].
  set (n := List.length first).
  set (labels := firstn n _).
  assert (Hw : (n <= fold_right Nat.max O
                       (map (@List.length json) (first :: rest)))%nat).
  { apply (length_le_width (first :: rest) first). now left. }
  assert (Hl : (List.length labels <= n)%nat /\
               (18 < n -> List.length labels = 17)%nat).
  { unfold labels. split; [rewrite length_firstn; lia|].
    intros H. destruct (Nat.eqb_spec n 18); [lia|].
    rewrite length_firstn. simpl. lia. }
  assert (Hne : Nat.eqb (List.length labels)
                  (fold_right Nat.max O
                     (map (@List.length json) (first :: rest))) = false).
  { apply Nat.eqb_neq. destruct Hbad as [Hbig|Hlong].
    - destruct Hl as [_ Hl]. rewrite (Hl Hbig). fold n in Hbig. lia.
    - apply Exists_exists in Hlong. destruct Hlong as (row & Hin & Hrow).
      pose proof (length_le_width (first :: rest) row (or_intror Hin)).
      fold n in Hrow. lia. }
  unfold new_frame. now rewrite Hne.
Qed.

Lemma get_states_ragged_witness :
  fst (fst (get_states None None None 1 Samples.cached_client
              (Samples.world 1000
                 [Ok (Samples.states_reply
                        [Samples.state17 "UAL1";
                         Samples.state18 "DLH2" 6])])))
  = Raise ValueError.
Proof.
  pose (table := [Samples.state17 "UAL1"; Samples.state18 "DLH2" 6]).
  pose (w := Samples.world 1000 [Ok (Samples.states_reply table)]).
  assert (H := get_states_ragged None None None 1 Samples.cached_client w
             [("time", JNum 1700000000); ("states", JArr (map JArr table))]
             Samples.cached_client
             (mkWorld (clock w) 1 (peer w)
                [data_request Samples.cached_client (JStr "token-1")
                   "/states/all" (states_params None None None 1)])
             (JArr (map JArr table))
             (Samples.state17 "UAL1") [Samples.state18 "DLH2" 6]
             eq_refl eq_refl eq_refl).
  assert (Hlong : (18 < List.length (Samples.state17 "UAL1"))%nat \/
                  Exists (fun row =>
                            (List.length (Samples.state17 "UAL1")
                             < List.length row)%nat)
                    [Samples.state18 "DLH2" 6]).
  { right. constructor. apply Nat.le_refl. }
  exact (f_equal (fun x => fst (fst x)) (H Hlong)).
Defined.

(** Rows shorter than nine cells are not accepted either: with a first
    row of one cell [get_states] raises [KeyError] for [callsign], and
    with a first row of two to eight cells it raises [KeyError] for
    [on_ground]. *)
Theorem get_states_short
    (time_secs : option Z) (icao24 : option (list string))
    (bbox : option (list (string * Q))) (extended : Z)
    (self : t) (w : World) (o : list (string * json)) (self1 : t) (w1 : World)
    (states tm dt : json) (first : list json) (rest : list (list json)) :
  _make_request "/states/all" (states_params time_secs icao24 bbox extended)
    self w = (Ok (JObj o), self1, w1) ->
  lookup o "states" = Some states ->
  as_rows states = Ok (first :: rest) ->
  lookup o "time" = Some tm ->
  to_datetime tm = Ok dt ->
  Forall (fun row => nth 1 row JNull = JNull \/
                     exists s, nth 1 row JNull = JStr s) (first :: rest) ->
  Forall (fun row => (List.length row <= List.length first)%nat) rest ->
  (List.length first = 1%nat ->
   get_states time_secs icao24 bbox extended self w
   = (Raise (KeyError "callsign"), self1, w1)) /\
  ((2 <= List.length first <= 8)%nat ->
   get_states time_secs icao24 bbox extended self w
   = (Raise (KeyError "on_ground"), self1, w1)).
Proof.
  intros Hreq Hst Hrows Htm Hdt Hcs Hrest.
  pose proof (as_rows_nonempty _ _ _ Hrows) as Htruthy.
  set (n := List.length first) in *.
  assert (Start : forall labels,
            firstn n (if Nat.eqb n 18
                      then (state_columns ++ ["category"])%list
                      else state_columns) = labels ->
            List.length labels = n ->
            index_of "request_time" labels = None ->
            index_of "request_datetime" (labels ++ ["request_time"]) = None ->
            get_states time_secs icao24 bbox extended self w
            = (let df :=
                 mkFrame
                   ((labels ++ ["request_time"]) ++ ["request_datetime"])%list
                   (map (fun row => ((pad n row ++ [tm]) ++ [dt])%list)
                      (first :: rest)) in
               match getitem df "callsign" with
               | Raise e => Raise e
               | Ok callsign =>
                   match str_strip callsign with
                   | Raise e => Raise e
                   | Ok callsign =>
                       match getitem (setitem df "callsign" callsign)
                               "on_ground" with
                       | Raise e => Raise e
                       | Ok on_ground =>
                           Ok (let df :=
                                 setitem (setitem df "callsign" callsign)
                                   "on_ground" (astype_bool on_ground) in
                               match index_of "category" (columns df) with
                               | None =>
                                   setitem_scalar df "category" (JNum 0)
                               | Some _ => df
                               end)
                       end
                   end
               end, self1, w1)).
  { intros labels Hlabels Hwidth I1 I2.
    rewrite get_states_run, Hreq. f_equal. f_equal.
    unfold Reading.frame_of_reply. cbv zeta.
    unfold dict_get. rewrite Hst, Htruthy. cbn [negb]. rewrite Hrows.
    cbn [hd]. fold n. rewrite Hlabels.
    assert (Hnew : new_frame (first :: rest) labels
                   = Ok (mkFrame labels (map (pad n) (first :: rest)))).
    { unfold new_frame. rewrite (width_of_table n first rest eq_refl Hrest).
      now rewrite Hwidth, Nat.eqb_refl. }
    rewrite Hnew. unfold subscript. rewrite Htm, Hdt.
    rewrite (setitem_scalar_new labels) by exact I1.
    rewrite (setitem_scalar_new (labels ++ ["request_time"])) by exact I2.
    reflexivity. }
  split.
  - intros H1. rewrite (Start _ eq_refl); rewrite H1; reflexivity.
  - intros Hn.
    assert (Hcols : exists labels,
              firstn n (if Nat.eqb n 18
                        then (state_columns ++ ["category"])%list
                        else state_columns) = labels /\
              List.length labels = n /\
              index_of "request_time" labels = None /\
              index_of "request_datetime" (labels ++ ["request_time"]) = None /\
              index_of "callsign"
                ((labels ++ ["request_time"]) ++ ["request_datetime"])
              = Some 1%nat /\
              index_of "on_ground"
                ((labels ++ ["request_time"]) ++ ["request_datetime"])
              = None).
    { assert (H : (n = 2 \/ n = 3 \/ n = 4 \/ n = 5 \/ n = 6 \/ n = 7
                   \/ n = 8)%nat) by lia.
      eexists. split; [reflexivity|]. clearbody n.
      repeat (destruct H as [->|H]; [repeat split|]). subst n. repeat split. }
    destruct Hcols as (labels & Hlabels & Hwidth & I1 & I2 & I3 & I4).
    rewrite (Start labels Hlabels Hwidth I1 I2). cbv zeta.
    rewrite (getitem_at _ _ _ "callsign" 1 I3).
    rewrite str_strip_strings.
    + rewrite map_map.
      rewrite (setitem_existing _ _ _ _ "callsign" 1 I3).
      unfold getitem. cbn [columns]. rewrite I4. reflexivity.
    + apply Forall_forall. intros c Hc. apply in_map_iff in Hc.
      destruct Hc as (row & <- & Hrow).
      assert (Hr : (List.length row <= n)%nat).
      { destruct Hrow as [<-|Hrow]; [unfold n; lia|].
        rewrite Forall_forall in Hrest. now apply Hrest. }
      rewrite nth_extended by (auto; lia).
      rewrite Forall_forall in Hcs. now apply Hcs.
Qed.

Lemma get_states_short_witness :
  fst (fst (get_states None None None 1 Samples.cached_client
              (Samples.world 1000
                 [Ok (Samples.states_reply
                        [firstn 5 (Samples.state17 "UAL1")])])))
  = Raise (KeyError "on_ground").
Proof.
  pose (table := [firstn 5 (Samples.state17 "UAL1")]).
  pose (w := Samples.world 1000 [Ok (Samples.states_reply table)]).
  destruct (get_states_short None None None 1 Samples.cached_client w
              [("time", JNum 1700000000); ("states", JArr (map JArr table))]
              Samples.cached_client
              (mkWorld (clock w) 1 (peer w)
                 [data_request Samples.cached_client (JStr "token-1")
                    "/states/all" (states_params None None None 1)])
              (JArr (map JArr table)) (JNum 1700000000) (JNum 1700000000)
              (firstn 5 (Samples.state17 "UAL1")) []
              eq_refl eq_refl eq_refl eq_refl eq_refl)
    as (_ & Hshort).
  - constructor; [right; eexists; reflexivity | constructor].
  - constructor.
  - assert (H := Hshort (conj (le_S _ _ (le_S _ _ (le_S _ _ (le_n 2))))
                           (le_S _ _ (le_S _ _ (le_S _ _ (le_n 5)))))).
    exact (f_equal (fun x => fst (fst x)) H).
Defined.

(** ** Query parameters *)

Lemma lookup_store {A} (d : list (string * A)) (k k' : string) (v : A) :
  lookup (store d k v) k'
  = if String.eqb k' k then Some v else lookup d k'.
Proof.
  induction d as [|[k0 v0] d IH]; simpl.
  - reflexivity.
  - destruct (String.eqb_spec k k0) as [->|Hne]; simpl.
    + destruct (String.eqb k' k0); reflexivity.
    + destruct (String.eqb_spec k' k0) as [->|Hne'].
      * destruct (String.eqb_spec k0 k); [congruence | reflexivity].
      * exact IH.
Qed.

Lemma lookup_update_absent {A} (d e : list (string * A)) (k : string) :
  lookup e k = None -> lookup (update d e) k = lookup d k.
Proof.
  unfold update. revert d. induction e as [|[k0 v0] e IH]; intros d H; simpl.
  - reflexivity.
  - simpl in H. destruct (String.eqb_spec k k0) as [->|Hne]; [discriminate|].
    rewrite (IH _ H), lookup_store.
    destruct (String.eqb_spec k k0); [contradiction | reflexivity].
Qed.

Lemma lookup_update_present {A} (d e : list (string * A)) (k : string)
    (v : A) :
  NoDup (map fst e) -> lookup e k = Some v -> lookup (update d e) k = Some v.
Proof.
  unfold update. revert d.
  induction e as [|[k0 v0] e IH]; intros d Hnd H; simpl in *.
  - discriminate.
  - inversion Hnd as [|? ? Hnin Hnd']; subst.
    destruct (String.eqb_spec k k0) as [->|Hne].
    + injection H as ->.
      change (fold_left (fun acc kv => store acc (fst kv) (snd kv)) e
                (store d k0 v))
        with (update (store d k0 v) e).
      rewrite lookup_update_absent.
      * rewrite lookup_store. now rewrite String.eqb_refl.
      * destruct (lookup e k0) eqn:E; [|reflexivity].
        exfalso. apply Hnin. clear - E.
        induction e as [|[k1 v1] e IH]; simpl in *; [discriminate|].
        destruct (String.eqb_spec k0 k1) as [->|]; [now left|].
        right. now apply IH.
    + now apply IH.
Qed.

Lemma lookup_map_values {A B} (f : A -> B) (e : list (string * A))
    (k : string) :
  lookup (map (fun kv => (fst kv, f (snd kv))) e) k
  = option_map f (lookup e k).
Proof.
  induction e as [|[k0 v0] e IH]; simpl; [reflexivity|].
  destruct (String.eqb k k0); [reflexivity | exact IH].
Qed.

(** The parameters of a states request.  [extended] is always sent;
    [time] is sent for a time stamp other than 0 only, and [icao24] for
    a list that is not empty only; the entries of the bounding box are
    sent as they are and take precedence over the three; nothing else is
    sent. *)
Theorem states_params_lookup
    (time_secs : option Z) (icao24 : option (list string))
    (bbox : option (list (string * Q))) (extended : Z) (k : string) :
  let params := states_params time_secs icao24 bbox extended in
  let in_box :=
    match bbox with
    | Some box => lookup box k
    | None => None
    end in
  (in_box = None ->
   lookup params k
   = if String.eqb k "extended" then Some (JNum (inject_Z extended))
     else if String.eqb k "time" then
       match time_secs with
       | Some ts => if Z.eqb ts 0 then None else Some (JNum (inject_Z ts))
       | None => None
       end
     else if String.eqb k "icao24" then
       match icao24 with
       | Some (a :: l) => Some (JArr (map JStr (a :: l)))
       | _ => None
       end
     else None) /\
  (forall box v,
     bbox = Some box -> NoDup (map fst box) -> lookup box k = Some v ->
     lookup params k = Some (JNum v)).
Proof.
  cbv zeta. unfold states_params.
  set (p0 := [("extended", JNum (inject_Z extended))]).
  set (p1 := match time_secs with
             | Some ts =>
                 if Z.eqb ts 0 then p0
                 else store p0 "time" (JNum (inject_Z ts))
             | None => p0
             end).
  set (p2 := match icao24 with
             | Some (a :: l) => store p1 "icao24" (JArr (map JStr (a :: l)))
             | _ => p1
             end).
  assert (H2 : lookup p2 k
               = if String.eqb k "extended"
                 then Some (JNum (inject_Z extended))
                 else if String.eqb k "time" then
                   match time_secs with
                   | Some ts =>
                       if Z.eqb ts 0 then None
                       else Some (JNum (inject_Z ts))
                   | None => None
                   end
                 else if String.eqb k "icao24" then
                   match icao24 with
                   | Some (a :: l) => Some (JArr (map JStr (a :: l)))
                   | _ => None
                   end
                 else None).
  { assert (H1 : lookup p1 k
                 = if String.eqb k "extended"
                   then Some (JNum (inject_Z extended))
                   else if String.eqb k "time" then
                     match time_secs with
                     | Some ts =>
                         if Z.eqb ts 0 then None
                         else Some (JNum (inject_Z ts))
                     | None => None
                     end
                   else None).
    { unfold p1, p0. destruct time_secs as [ts|].
      - destruct (Z.eqb ts 0).
        + simpl. destruct (String.eqb k "extended");
            [reflexivity | destruct (String.eqb k "time"); reflexivity].
        + rewrite lookup_store. simpl.
          destruct (String.eqb_spec k "time") as [->|]; [reflexivity|].
          destruct (String.eqb k "extended"); reflexivity.
      - simpl. destruct (String.eqb k "extended");
          [reflexivity | destruct (String.eqb k "time"); reflexivity]. }
    unfold p2. destruct icao24 as [[|a l]|].
    - rewrite H1. destruct (String.eqb k "extended"); [reflexivity|].
      destruct (String.eqb k "time"); [reflexivity|].
      destruct (String.eqb k "icao24"); reflexivity.
    - rewrite lookup_store, H1.
      destruct (String.eqb_spec k "icao24") as [->|]; reflexivity.
    - rewrite H1. destruct (String.eqb k "extended"); [reflexivity|].
      destruct (String.eqb k "time"); [reflexivity|].
      destruct (String.eqb k "icao24"); reflexivity. }
  split.
  - intros Hout. destruct bbox as [box|]; [|exact H2].
    rewrite lookup_update_absent; [exact H2|].
    rewrite lookup_map_values, Hout. reflexivity.
  - intros box v -> Hnd Hin. apply lookup_update_present.
    + rewrite map_map. simpl. exact Hnd.
    + rewrite lookup_map_values, Hin. reflexivity.
Qed.

Lemma states_params_lookup_witness :
  lookup (states_params (Some 0%Z) (Some []) (Some [("lamin", 36); ("lamax", 71)])
            1) "lamax" = Some (JNum 71) /\
  lookup (states_params (Some 0%Z) (Some []) (Some [("lamin", 36); ("lamax", 71)])
            1) "time" = None.
Proof.
  split.
  - apply (proj2 (states_params_lookup (Some 0%Z) (Some [])
                    (Some [("lamin", 36); ("lamax", 71)]) 1 "lamax")
             [("lamin", 36); ("lamax", 71)] 71 eq_refl).
    + repeat constructor; simpl; intuition discriminate.
    + reflexivity.
  - apply (proj1 (states_params_lookup (Some 0%Z) (Some [])
                    (Some [("lamin", 36); ("lamax", 71)]) 1 "time")).
    reflexivity.
Defined.

End ClientMore.

(* ===================================================================== *)
(** * Properties of the collection methods                               *)
(* ===================================================================== *)

Section CollectionMore.
Import Py OpenSkyClient Collection.

(** ** What a call of the client sends *)

Lemma get_access_token_keeps (self : t) (w : World) (r : result json)
    (self' : t) (w' : World) :
  _get_access_token self w = (r, self', w') ->
  api_base self' = api_base self /\ token_request self' = token_request self.
Proof.
  destruct (has_cached_token self && before_expiry self (clock w (ticks w)))%bool
    eqn:Hg.
  - apply andb_prop in Hg. destruct Hg as [Hc Hb].
    rewrite (get_access_token_fresh self w Hc Hb).
    intros H. injection H as _ <- _. auto.
  - unfold _get_access_token, bind, get_self, time_time, ret, lift,
      requests_post, send, set_access_token, set_token_expires_at.
    destruct (has_cached_token self); simpl in *; rewrite ?Hg; simpl;
      match goal with
      | |- context [peer w ?n ?r] => destruct (peer w n r) as [resp|]
      end;
      try (intros H; injection H as _ <- _; auto; fail);
      destruct (raise_for_status resp);
      try (intros H; injection H as _ <- _; auto; fail);
      destruct (response_json resp) as [td|];
      try (intros H; injection H as _ <- _; auto; fail);
      destruct (subscript td "access_token");
      try (intros H; injection H as _ <- _; auto; fail);
      destruct (dict_get td "expires_in" (JNum 1800)) as [v|];
      try (intros H; injection H as _ <- _; auto; fail);
      destruct (number v);
      intros H; injection H as _ <- _; auto.
Qed.

Lemma get_access_token_raises (self : t) (w : World) (e : exn)
    (self' : t) (w' : World) :
  _get_access_token self w = (Raise e, self', w') ->
  sent w' = (sent w ++ [token_request self])%list.
Proof.
  intros Ha.
  destruct (has_cached_token self && before_expiry self (clock w (ticks w)))%bool
    eqn:Hg.
  - apply andb_prop in Hg. destruct Hg as [Hc Hb].
    rewrite (get_access_token_fresh self w Hc Hb) in Ha. discriminate Ha.
  - destruct (get_access_token_posts self w Hg)
      as (r & s1 & w1 & Hr & _ & _ & Hsent).
    rewrite Ha in Hr. injection Hr as _ _ <-. exact Hsent.
Qed.

(** What [_make_request] sends, whatever comes back: the token request
    when a token is needed, then the GET when there is a token. *)
Lemma make_request_sent (endpoint : string) (params : list (string * json))
    (self : t) (w : World) (r : result json) (self' : t) (w' : World) :
  _make_request endpoint params self w = (r, self', w') ->
  api_base self' = api_base self /\
  token_request self' = token_request self /\
  exists pre post,
    sent w' = (sent w ++ pre ++ post)%list /\
    (pre = [] \/ pre = [token_request self]) /\
    (post = [] /\ pre = [token_request self] \/
     exists token,
       post = [mkRequest GET (api_base self ++ endpoint) (Some token) []
                 params]).
Proof.
  unfold _make_request, bind.
  destruct (_get_access_token self w) as [[[token|e] s1] w1] eqn:Ha.
  - destruct (get_access_token_keeps self w _ s1 w1 Ha) as [Hb Ht].
    destruct (get_access_token_world self w)
      as (r0 & s0 & w0 & Hr & _ & _ & Hsent).
    rewrite Ha in Hr. injection Hr as _ _ <-.
    unfold get_self, requests_get, send, lift, raise. rewrite Hb.
    set (request := mkRequest GET (api_base self ++ endpoint) (Some token)
                      [] params).
    intros H.
    assert (Hw : self' = s1 /\
                 sent w' = (sent w1 ++ [request])%list).
    { destruct (peer w1 (List.length (sent w1)) request) as [resp|e].
      - destruct (Z.eqb (status_code resp) 429).
        + destruct (retry_after_of resp);
            injection H as _ <- <-; auto.
        + destruct (raise_for_status resp);
            injection H as _ <- <-; auto.
      - injection H as _ <- <-. auto. }
    destruct Hw as [-> Hw]. split; [exact Hb|]. split; [exact Ht|].
    destruct Hsent as [E|E]; rewrite E in Hw.
    + exists [], [request]. split; [exact Hw|]. split; [now left|].
      right. now exists token.
    + exists [token_request self], [request].
      split; [now rewrite Hw, <- app_assoc|]. split; [now right|].
      right. now exists token.
  - destruct (get_access_token_keeps self w _ s1 w1 Ha) as [Hb Ht].
    pose proof (get_access_token_raises self w e s1 w1 Ha) as Hsent.
    intros H. injection H as _ <- <-.
    split; [exact Hb|]. split; [exact Ht|].
    exists [token_request self], []. rewrite Hsent. auto.
Qed.

(** A fetch that swallows every failure of the request and of the
    construction of the frame: it returns a frame and has sent one or
    two requests. *)
Lemma fetch_sent (frame_of_json : json -> result DataFrame)
    (endpoint : string) (params : list (string * json))
    (self : t) (w : World) :
  exists df self' w' new,
    try_except
      (data <- _make_request endpoint params ;;
       if negb (truthy data) then ret empty_frame
       else lift (frame_of_json data))
      (fun _ => ret empty_frame) self w = (Ok df, self', w') /\
    api_base self' = api_base self /\
    token_request self' = token_request self /\
    sent w' = (sent w ++ new)%list /\
    (1 <= List.length new <= 2)%nat /\
    Forall (fun request =>
              request = token_request self \/
              req_method request = GET /\
              req_url request = api_base self ++ endpoint /\
              req_params request = params) new.
Proof.
  unfold try_except, bind, ret, lift.
  destruct (_make_request endpoint params self w) as [[r s1] w1] eqn:Hm.
  destruct (make_request_sent endpoint params self w r s1 w1 Hm)
    as (Hb & Ht & pre & post & Hsent & Hpre & Hpost).
  assert (Hnew : (1 <= List.length (pre ++ post) <= 2)%nat /\
                 Forall (fun request =>
                           request = token_request self \/
                           req_method request = GET /\
                           req_url request = api_base self ++ endpoint /\
                           req_params request = params) (pre ++ post)).
  { split.
    - rewrite length_app.
      destruct Hpost as [[-> ->]|(token & ->)];
        [simpl; lia | destruct Hpre as [-> | ->]; simpl; lia].
    - apply Forall_app. split.
      + destruct Hpre as [-> | ->]; repeat constructor.
      + destruct Hpost as [[-> _]|(token & ->)]; constructor; auto. }
  destruct Hnew as [Hlen Hall].
  assert (Done : forall df : DataFrame,
            exists df' self' w' new,
              (Ok df, s1, w1) = (Ok df', self', w') /\
              api_base self' = api_base self /\
              token_request self' = token_request self /\
              sent w' = (sent w ++ new)%list /\
              (1 <= List.length new <= 2)%nat /\
              Forall (fun request =>
                        request = token_request self \/
                        req_method request = GET /\
                        req_url request = api_base self ++ endpoint /\
                        req_params request = params) new).
  { intros df. exists df, s1, w1, (pre ++ post)%list. auto 7. }
  destruct r as [data|e]; [|apply Done].
  destruct (truthy data); simpl; [|apply Done].
  destruct (frame_of_json data); apply Done.
Qed.

(** ** Airport traffic *)

(** [collect_airport_traffic] reads the clock once, then runs
    [get_arrivals] and, from the state that leaves, [get_departures],
    both for the airport and for one and the same window: the
    [days_back] days that end at the clock reading, cut to the second.
    Neither raises, so it never raises: it returns the frame of the one
    under [arrivals] and the frame of the other under [departures],
    with the client and the world as the second fetch leaves them and
    the disk untouched.  Each fetch sends one or two requests: the
    token request, its own GET with the airport and the window, or
    both. *)
Theorem collect_airport_traffic_window
    (frame_of_json : json -> result DataFrame)
    (airport : string) (days_back : Z) (self : t) (w : World) (d : Disk) :
  let end_time := int (clock w (ticks w)) in
  let begin_time := (end_time - days_back * 86400)%Z in
  let w0 := mkWorld (clock w) (S (ticks w)) (peer w) (sent w) in
  let fetch endpoint request :=
    request = token_request self \/
    req_method request = GET /\
    req_url request = api_base self ++ endpoint /\
    req_params request
    = [("airport", JStr airport);
       ("begin", JNum (inject_Z begin_time));
       ("end", JNum (inject_Z end_time))] in
  exists arrivals departures self1 w1 self2 w2 first second,
    get_arrivals frame_of_json airport begin_time end_time self w0
    = (Ok arrivals, self1, w1) /\
    get_departures frame_of_json airport begin_time end_time self1 w1
    = (Ok departures, self2, w2) /\
    collect_airport_traffic frame_of_json airport days_back self w d
    = (Ok [("arrivals", arrivals); ("departures", departures)],
       self2, w2, d) /\
    sent w1 = (sent w ++ first)%list /\
    sent w2 = (sent w1 ++ second)%list /\
    (1 <= List.length first <= 2)%nat /\
    (1 <= List.length second <= 2)%nat /\
    Forall (fetch "/flights/arrival") first /\
    Forall (fetch "/flights/departure") second.
Proof.
  intros end_time begin_time w0 fetch.
  unfold collect_airport_traffic, bindK, datetime_now, call, time_time, retK.
  fold end_time. fold begin_time. fold w0.
  unfold get_arrivals, get_departures.
  destruct (fetch_sent frame_of_json "/flights/arrival"
              [("airport", JStr airport);
               ("begin", JNum (inject_Z begin_time));
               ("end", JNum (inject_Z end_time))] self w0)
    as (arr & s1 & w1 & first & H1 & Hb1 & Ht1 & Hs1 & Hl1 & Hf1).
  rewrite H1.
  destruct (fetch_sent frame_of_json "/flights/departure"
              [("airport", JStr airport);
               ("begin", JNum (inject_Z begin_time));
               ("end", JNum (inject_Z end_time))] s1 w1)
    as (dep & s2 & w2 & second & H2 & Hb2 & Ht2 & Hs2 & Hl2 & Hf2).
  rewrite H2.
  exists arr, dep, s1, w1, s2, w2, first, second.
  split; [reflexivity|]. split; [exact H2|]. split; [reflexivity|].
  split; [exact Hs1|]. split; [exact Hs2|].
  split; [exact Hl1|]. split; [exact Hl2|].
  split; [exact Hf1|].
  rewrite Ht1, Hb1 in Hf2. exact Hf2.
Qed.

(** ** Live states *)

Lemma columns_setitem (df : DataFrame) (label : string) (cells : list json) :
  columns (setitem df label cells) <> [].
Proof.
  unfold setitem. destruct (index_of label (columns df)) eqn:E; cbn [columns].
  - intros H. rewrite H in E. discriminate.
  - intros H. apply app_eq_nil in H. destruct H as [_ H]. discriminate.
Qed.

Lemma frame_of_reply_columns (data : json) (df : DataFrame) :
  Reading.frame_of_reply data = Ok df ->
  df = empty_frame \/ columns df <> [].
Proof.
  unfold Reading.frame_of_reply.
  destruct (dict_get data "states" JNull) as [states|]; [|discriminate].
  destruct (truthy states); cbn [negb].
  - destruct (as_rows states) as [table|]; [|discriminate].
    destruct (new_frame table _) as [df0|]; [|discriminate].
    destruct (subscript data "time") as [tm|]; [|discriminate].
    destruct (to_datetime tm) as [dt|]; [|discriminate].
    destruct (getitem _ "callsign") as [c|]; [|discriminate].
    destruct (str_strip c) as [c'|]; [|discriminate].
    destruct (getitem _ "on_ground") as [g|]; [|discriminate].
    intros H. injection H as <-. right.
    destruct (index_of "category" _).
    + apply columns_setitem.
    + unfold setitem_scalar. apply columns_setitem.
  - intros H. injection H as <-. now left.
Qed.

Lemma get_states_empty
    (time_secs : option Z) (icao24 : option (list string))
    (bbox : option (list (string * Q))) (extended : Z)
    (self : t) (w : World) (df : DataFrame) (self1 : t) (w1 : World) :
  get_states time_secs icao24 bbox extended self w = (Ok df, self1, w1) ->
  empty df = is_nil (rows df).
Proof.
  rewrite get_states_run.
  destruct (_make_request _ _ self w) as [[[data|e] s1] w0]; [|discriminate].
  intros H. injection H as H _ _.
  unfold empty.
  destruct (frame_of_reply_columns data df H) as [-> | Hc]; [reflexivity|].
  destruct (columns df); [contradiction | reflexivity].
Qed.

(** A region that the configuration does not list is refused before
    anything else happens: [ValueError], with no request sent, no clock
    reading and nothing done on the disk. *)
Theorem collect_live_states_unknown_region
    (strftime : Q -> string) (region : string)
    (self : t) (w : World) (d : Disk) :
  ~ In region ["north_america"; "europe"; "asia"] ->
  collect_live_states strftime region self w d
  = (Raise ValueError, self, w, d).
Proof.
  intros Hout. unfold collect_live_states, Config.REGIONS. cbn [lookup].
  destruct (String.eqb_spec region "north_america") as [->|_];
    [exfalso; apply Hout; simpl; auto|].
  destruct (String.eqb_spec region "europe") as [->|_];
    [exfalso; apply Hout; simpl; auto|].
  destruct (String.eqb_spec region "asia") as [->|_];
    [exfalso; apply Hout; simpl; auto|].
  reflexivity.
Qed.

Lemma collect_live_states_unknown_region_witness :
  collect_live_states seconds_text "africa" Samples.client
    (Samples.world 1000 []) blank_disk
  = (Raise ValueError, Samples.client, Samples.world 1000 [], blank_disk).
Proof.
  apply (collect_live_states_unknown_region seconds_text "africa").
  simpl. intros [H|[H|[H|[]]]]; discriminate H.
Defined.

(** For a region of the configuration, [collect_live_states] is one
    call of [get_states] with the box of the region and nothing else,
    followed by the snapshot.  A failure of the call is raised as it
    is and a frame without rows is returned as it is, both with the
    disk untouched.  A frame with rows is written to
    [data/raw/states_<region>_<stamp>.parquet], the stamp being taken
    from the clock once the directory is there; the frame is returned
    when both disk operations succeed, and the first that fails raises
    its error. *)
Theorem collect_live_states_snapshot
    (strftime : Q -> string) (region : string) (box : list (string * Q))
    (self : t) (w : World) (d : Disk)
    (r : result DataFrame) (self1 : t) (w1 : World) :
  lookup Config.REGIONS region = Some box ->
  get_states None None (Some box) 1 self w = (r, self1, w1) ->
  let run := collect_live_states strftime region self w d in
  (forall e, r = Raise e -> run = (Raise e, self1, w1, d)) /\
  (forall df, r = Ok df -> rows df = [] -> run = (Ok df, self1, w1, d)) /\
  (forall df, r = Ok df -> rows df <> [] ->
   let directory := Makedirs "data/raw" in
   let file :=
     ToParquet
       ("data/raw/states_" ++ region ++ "_"
        ++ strftime (clock w1 (ticks w1)) ++ ".parquet") df in
   let n := List.length (attempted d) in
   let w2 := mkWorld (clock w1) (S (ticks w1)) (peer w1) (sent w1) in
   (forall e,
      outcome d n directory = Raise e ->
      run = (Raise e, self1, w1,
             mkDisk (outcome d) (attempted d ++ [directory]))) /\
   (outcome d n directory = Ok tt ->
    run = (match outcome d (S n) file with
           | Ok _ => Ok df
           | Raise e => Raise e
           end, self1, w2,
           mkDisk (outcome d) (attempted d ++ [directory; file])))).
Proof.
  intros Hbox Hget run.
  assert (Hknown : no_box (Some box) = false).
  { unfold Config.REGIONS in Hbox. cbn [lookup] in Hbox.
    destruct (String.eqb region "north_america");
      [injection Hbox as <-; reflexivity|].
    destruct (String.eqb region "europe");
      [injection Hbox as <-; reflexivity|].
    destruct (String.eqb region "asia");
      [injection Hbox as <-; reflexivity | discriminate]. }
  assert (Hrun : run
                 = match r with
                   | Ok df =>
                       (if negb (empty df) then
                          os_makedirs Config.RAW_DATA_DIR ;;~
                          now <~ datetime_now ;;
                          to_parquet df
                            (Config.path_join Config.RAW_DATA_DIR
                               ("states_" ++ region ++ "_" ++ strftime now
                                ++ ".parquet")) ;;~
                          retK df
                        else retK df) self1 w1 d
                   | Raise e => (Raise e, self1, w1, d)
                   end).
  { unfold run, collect_live_states. rewrite Hbox, Hknown.
    unfold bindK at 1. unfold call at 1. rewrite Hget.
    destruct r; reflexivity. }
  split; [|split].
  - intros e ->. exact Hrun.
  - intros df -> Hrows. rewrite Hrun.
    rewrite (get_states_empty _ _ _ _ _ _ _ _ _ Hget), Hrows. reflexivity.
  - intros df -> Hrows directory file n w2.
    assert (He : empty df = false).
    { rewrite (get_states_empty _ _ _ _ _ _ _ _ _ Hget).
      destruct (rows df); [contradiction | reflexivity]. }
    rewrite He in Hrun. cbn [negb] in Hrun.
    unfold bindK, os_makedirs, to_parquet, perform, datetime_now, call,
      time_time, retK in Hrun.
    change (Makedirs Config.RAW_DATA_DIR) with directory in Hrun.
    fold n in Hrun.
    split.
    + intros e Hd. rewrite Hrun, Hd. reflexivity.
    + intros Hd. rewrite Hrun, Hd. cbn [attempted outcome].
      assert (Hn : List.length (attempted d ++ [directory]) = S n).
      { rewrite length_app. simpl. unfold n. lia. }
      rewrite Hn.
      change (Config.path_join Config.RAW_DATA_DIR
                ("states_" ++ region ++ "_"
                 ++ strftime (clock w1 (ticks w1)) ++ ".parquet"))
        with ("data/raw/states_" ++ region ++ "_"
              ++ strftime (clock w1 (ticks w1)) ++ ".parquet").
      fold file. rewrite <- app_assoc. cbn [app].
      destruct (outcome d (S n) file) as [[]|e]; reflexivity.
Qed.

Lemma collect_live_states_snapshot_witness :
  exists df,
    attempted
      (snd (collect_live_states seconds_text "europe" Samples.cached_client
              (Samples.world 1000
                 [Ok (Samples.states_reply [Samples.state17 "UAL1"])])
              blank_disk))
    = [Makedirs "data/raw";
       ToParquet "data/raw/states_europe_1001.parquet" df] /\
    List.length (rows df) = 1%nat.
Proof.
  pose (w := Samples.world 1000
               [Ok (Samples.states_reply [Samples.state17 "UAL1"])]).
  pose (box := [("lamin", 36); ("lamax", 71); ("lomin", -10); ("lomax", 40)]).
  pose (res := get_states None None (Some box) 1 Samples.cached_client w).
  pose (df := match fst (fst res) with
              | Ok df => df
              | Raise _ => empty_frame
              end).
  assert (Hget : get_states None None (Some box) 1 Samples.cached_client w
                 = (fst (fst res), snd (fst res), snd res)).
  { vm_compute. reflexivity. }
  assert (Hdf : fst (fst res) = Ok df).
  { vm_compute. reflexivity. }
  assert (Hrows : rows df <> []).
  { vm_compute. discriminate. }
  destruct (collect_live_states_snapshot seconds_text "europe" box
              Samples.cached_client w blank_disk
              (fst (fst res)) (snd (fst res)) (snd res) eq_refl Hget)
    as (_ & _ & H).
  destruct (H df Hdf Hrows) as [_ Hok].
  exists df. fold w. rewrite (Hok eq_refl). split; vm_compute; reflexivity.
Defined.

End CollectionMore.
